(** * Review-validation backend: row conversion, validation and evaluation upsert

    A shallow embedding of the Python backend
    ([backend/models.py], [backend/mock_data.py],
    [backend/routes/v1/reviews.py], [backend/databricks_client.py])
    and the properties of its row-grouping converter, its validation
    endpoint and its evaluation upsert builder.

    Conventions of the embedding:
    - Python [str] is [string]: text is taken as a sequence of 8-bit
      characters, on which [lower] folds the letters A-Z.
    - Python [float] is the kernel's binary64 [float].
    - A warehouse row is a dict whose columns carry the types of the table
      schema ([models.FlattenedReviewEntry], the [CREATE TABLE] statement of
      the evaluation table); a column is a [cell]: its key may be absent
      from the dict, or it holds SQL NULL (Python [None]), or a value.
    - An exception is a value of [exn]; a computation that can raise
      returns a [result]. *)

From Stdlib Require Import ZArith List String Ascii Bool Floats Lia.
From Stdlib Require Import DecimalString DecimalPos DecimalZ.
Import ListNotations.

Set Warnings "-inexact-float,-register-all".

Local Open Scope string_scope.
Local Open Scope Z_scope.

(** ** Exceptions and results *)

Inductive exn : Type :=
| ValueError (msg : string)     (* raised by the application, with its message *)
| ValueError_builtin            (* raised by int(), float() or json *)
| KeyError (key : string)
| TypeError
| AttributeError
| OverflowError
| ValidationError               (* pydantic: a field rejected its value *)
| JSONDecodeError
| ConnectorError                (* raised inside the warehouse connector *)
| Exception_ (msg : string) (cause : option exn)
| HTTPException (status_code : Z) (detail : string) (cause : option exn).
(* [Exception_ m (Some e)] and [HTTPException c m (Some e)] carry the text
   [m] followed by [str(e)]; with [None] the text is [m] alone. *)

(** [isinstance(e, ValueError)]: json's and pydantic's errors derive from it. *)
Definition is_ValueError (e : exn) : bool :=
  match e with
  | ValueError _ | ValueError_builtin | ValidationError | JSONDecodeError => true
  | _ => false
  end.

Definition is_HTTPException (e : exn) : bool :=
  match e with
  | HTTPException _ _ _ => true
  | _ => false
  end.

Inductive result (A : Type) : Type :=
| Ok (a : A)
| Raise (e : exn).
Arguments Ok {A} a.
Arguments Raise {A} e.

Definition bind {A B : Type} (m : result A) (k : A -> result B) : result B :=
  match m with
  | Ok a => k a
  | Raise e => Raise e
  end.

Notation "x <- m ;; k" := (bind m (fun x => k))
  (at level 61, m at next level, right associativity).

Definition is_ok {A : Type} (m : result A) : bool :=
  match m with Ok _ => true | Raise _ => false end.

(** ** Dict columns *)

Inductive cell (A : Type) : Type :=
| Absent            (* the key is not in the dict *)
| Null              (* the key maps to None *)
| Val (a : A).
Arguments Absent {A}.
Arguments Null {A}.
Arguments Val {A} a.

(** [d.get(k, default)]: [None] is Python's [None]. *)
Definition get_or {A : Type} (default : A) (c : cell A) : option A :=
  match c with
  | Absent => Some default
  | Null => None
  | Val a => Some a
  end.

(** [d.get(k)]. *)
Definition get {A : Type} (c : cell A) : option A :=
  match c with
  | Val a => Some a
  | _ => None
  end.

(** [d[k]]. *)
Definition item {A : Type} (key : string) (c : cell A) : result (option A) :=
  match c with
  | Absent => Raise (KeyError key)
  | Null => Ok None
  | Val a => Ok (Some a)
  end.

(** ** Strings *)

(** [str(x)] of a value that is a string or [None]. *)
Definition str_of (x : option string) : string :=
  match x with
  | Some s => s
  | None => "None"
  end.

(** Truth value of a string or [None]. *)
Definition truthy_str (x : option string) : bool :=
  match x with
  | Some EmptyString => false
  | Some _ => true
  | None => false
  end.

Definition lower_ascii (c : ascii) : ascii :=
  let n := nat_of_ascii c in
  if (Nat.leb 65 n && Nat.leb n 90)%bool then ascii_of_nat (n + 32) else c.

(** [s.lower()]. *)
Fixpoint lower (s : string) : string :=
  match s with
  | EmptyString => EmptyString
  | String c s' => String (lower_ascii c) (lower s')
  end.

(** [sub in s]. *)
Fixpoint contains (sub s : string) : bool :=
  (String.prefix sub s ||
   match s with
   | EmptyString => false
   | String _ s' => contains sub s'
   end)%bool.

(** [s.startswith(old)] and the rest of [s] after it. *)
Fixpoint strip_prefix (old s : string) : option string :=
  match old, s with
  | EmptyString, _ => Some s
  | String a old', String b s' =>
      if Ascii.eqb a b then strip_prefix old' s' else None
  | String _ _, EmptyString => None
  end.

(** [s.replace(old, new)] for a non-empty [old]: the occurrences of [old]
    are found from the left and do not overlap.  [fuel] bounds the number
    of characters still to read. *)
Fixpoint replace_loop (fuel : nat) (old new s : string) : string :=
  match fuel with
  | O => s
  | S fuel' =>
      match strip_prefix old s with
      | Some rest => new ++ replace_loop fuel' old new rest
      | None =>
          match s with
          | EmptyString => EmptyString
          | String c s' => String c (replace_loop fuel' old new s')
          end
      end
  end.

(** [s.replace(old, new)]; with an empty [old] Python puts [new] before
    every character and at the end. *)
Fixpoint intersperse_all (new s : string) : string :=
  match s with
  | EmptyString => new
  | String c s' => new ++ String c (intersperse_all new s')
  end.

Definition replace (old new s : string) : string :=
  match old with
  | EmptyString => intersperse_all new s
  | _ => replace_loop (S (String.length s)) old new s
  end.

(** ** models.py *)

Definition datetime : Type := Z.

Inductive ValidationDecision : Type := ACCEPT | OVERRIDE | SKIP.

Inductive ReviewStatus : Type := RANDOM_SAMPLE | COMPLETED | RECOMMENDED.

Module CategorySentiment.
Record t : Type := mk {
  category : string;
  category_sentiment_label : string;
  category_sentiment_score : float;
  subcategory : string;
  subcategory_sentiment_label : string;
  subcategory_sentiment_score : float
}.
End CategorySentiment.

Module SentimentAnalysis.
Record t : Type := mk {
  irrelevant : bool;
  aspects : option (list (string * option float));
  category_sentiments : option (list CategorySentiment.t)
}.
End SentimentAnalysis.

Module ReviewSummary.
Record t : Type := mk {
  response_id : string;
  question_label : string;
  question_response : string;
  relevant_comments : string;
  profanity_check : bool;
  profane : bool;
  rewritten_comment : option string;
  sentiment_analysis : SentimentAnalysis.t;
  created_at : option datetime;
  store_id : option string;
  status : ReviewStatus;
  overall_sentiment_label : option string;
  overall_sentiment_score : option Z;
  category_sentiments : option (list CategorySentiment.t)
}.
End ReviewSummary.

(** pydantic's check of a [str] field: [None] is refused. *)
Definition required_str (x : option string) : result string :=
  match x with
  | Some s => Ok s
  | None => Raise ValidationError
  end.

(** [CategorySentiment(...)]: the four [str] fields are validated, the two
    scores are floats already. *)
Definition new_CategorySentiment
    (category category_sentiment_label : option string)
    (category_sentiment_score : float)
    (subcategory subcategory_sentiment_label : option string)
    (subcategory_sentiment_score : float) : result CategorySentiment.t :=
  c <- required_str category ;;
  cl <- required_str category_sentiment_label ;;
  s <- required_str subcategory ;;
  sl <- required_str subcategory_sentiment_label ;;
  Ok (CategorySentiment.mk c cl category_sentiment_score
        s sl subcategory_sentiment_score).

(** [ReviewSummary(...)]: [response_id], [question_label],
    [question_response] and [relevant_comments] are [str] fields, the other
    fields take the value they are given. *)
Definition new_ReviewSummary
    (response_id : string)
    (question_label question_response relevant_comments : option string)
    (profanity_check profane : bool)
    (rewritten_comment : option string)
    (sentiment_analysis : SentimentAnalysis.t)
    (status : ReviewStatus)
    (store_id overall_sentiment_label : option string)
    (overall_sentiment_score : option Z)
    (category_sentiments : option (list CategorySentiment.t))
    (created_at : option datetime) : result ReviewSummary.t :=
  ql <- required_str question_label ;;
  qr <- required_str question_response ;;
  rc <- required_str relevant_comments ;;
  Ok (ReviewSummary.mk response_id ql qr rc profanity_check profane
        rewritten_comment sentiment_analysis created_at store_id status
        overall_sentiment_label overall_sentiment_score category_sentiments).

(** ** Flattened rows of the source table *)

Module Row.
Record t : Type := mk {
  response_id : cell string;
  question_label : cell string;
  question_response : cell string;
  response_relevancy : cell string;
  profane : cell bool;
  rewritten_comment : cell string;
  overall_sentiment_label : cell string;
  overall_sentiment_score : cell Z;
  comment_category : cell string;
  category_sentiment_label : cell string;
  category_sentiment_score : cell float;
  comment_subcategory : cell string;
  subcategory_sentiment_label : cell string;
  subcategory_sentiment_score : cell float;
  store_key : cell string;
  visit_datetime : cell datetime
}.
End Row.

(** ** routes/v1/reviews.py: convert_flattened_rows_to_review *)

(** [float(x)] of a value that is a float or [None]. *)
Definition float_of (x : option float) : result float :=
  match x with
  | Some f => Ok f
  | None => Raise TypeError
  end.

(** [str(row['response_id'])]. *)
Definition response_id_str (row : Row.t) : result string :=
  v <- item "response_id" (Row.response_id row) ;;
  Ok (str_of v).

(** The loop that verifies that all rows are for the same survey response. *)
Fixpoint verify_same_response (response_id : string) (db_rows : list Row.t)
  : result unit :=
  match db_rows with
  | [] => Ok tt
  | row :: rest =>
      rid <- response_id_str row ;;
      if String.eqb rid response_id
      then verify_same_response response_id rest
      else Raise (ValueError ("Mixed response IDs in rows: " ++ response_id
                              ++ " vs " ++ rid))
  end.

(** The guard [row.get('comment_category') and row.get('comment_subcategory')]. *)
Definition has_category (row : Row.t) : bool :=
  (truthy_str (get (Row.comment_category row)) &&
   truthy_str (get (Row.comment_subcategory row)))%bool.

(** The [CategorySentiment] built from one row that passed the guard. *)
Definition row_sentiment (row : Row.t) : result CategorySentiment.t :=
  cat_score <- float_of (get_or 0.0%float (Row.category_sentiment_score row)) ;;
  sub_score <- float_of (get_or 0.0%float (Row.subcategory_sentiment_score row)) ;;
  new_CategorySentiment
    (get (Row.comment_category row))
    (get_or "Neutral" (Row.category_sentiment_label row))
    cat_score
    (get (Row.comment_subcategory row))
    (get_or "Neutral" (Row.subcategory_sentiment_label row))
    sub_score.

(** The loop that builds the category sentiments from all rows. *)
Fixpoint build_category_sentiments (db_rows : list Row.t)
  : result (list CategorySentiment.t) :=
  match db_rows with
  | [] => Ok []
  | row :: rest =>
      if has_category row then
        cs <- row_sentiment row ;;
        tl <- build_category_sentiments rest ;;
        Ok (cs :: tl)
      else build_category_sentiments rest
  end.

(** [abs(x) > 0.5]. *)
Definition extreme (x : float) : bool := PrimFloat.ltb 0.5%float (PrimFloat.abs x).

Definition extreme_sentiment (s : CategorySentiment.t) : bool :=
  (extreme (CategorySentiment.category_sentiment_score s) ||
   extreme (CategorySentiment.subcategory_sentiment_score s))%bool.

(** [first_row.get('response_relevancy', '').lower()]. *)
Definition relevancy_lower (first_row : Row.t) : result string :=
  match get_or "" (Row.response_relevancy first_row) with
  | Some s => Ok (lower s)
  | None => Raise AttributeError
  end.

Definition bool_of (x : option bool) : bool :=
  match x with
  | Some b => b
  | None => false
  end.

(** [x or '']. *)
Definition or_empty (x : option string) : string :=
  if truthy_str x then str_of x else "".

(** The body of the [try] block. *)
Definition convert_flattened_rows_body (db_rows : list Row.t)
  : result ReviewSummary.t :=
  match db_rows with
  | [] => Raise (ValueError "No rows provided")
  | first_row :: _ =>
      response_id <- response_id_str first_row ;;
      _ <- verify_same_response response_id db_rows ;;
      category_sentiments <- build_category_sentiments db_rows ;;
      response_relevancy <- relevancy_lower first_row ;;
      let is_irrelevant :=
        (contains "irrelevant" response_relevancy ||
         contains "nonsense" response_relevancy)%bool in
      let sentiment_analysis :=
        SentimentAnalysis.mk is_irrelevant None (Some category_sentiments) in
      let flagged_for_review := existsb extreme_sentiment category_sentiments in
      new_ReviewSummary
        response_id
        (get_or "COMMENT" (Row.question_label first_row))
        (get_or "" (Row.question_response first_row))
        (get_or "" (Row.question_response first_row))
        true
        (bool_of (get_or false (Row.profane first_row)))
        (Some (or_empty (get (Row.rewritten_comment first_row))))
        sentiment_analysis
        (if flagged_for_review then RECOMMENDED else RANDOM_SAMPLE)
        (get (Row.store_key first_row))
        (get (Row.overall_sentiment_label first_row))
        (get (Row.overall_sentiment_score first_row))
        (Some category_sentiments)
        (get (Row.visit_datetime first_row))
  end.

(** [except Exception as e: raise HTTPException(500, f"...{str(e)}")]. *)
Definition conversion_error {A : Type} (m : result A) : result A :=
  match m with
  | Ok a => Ok a
  | Raise e => Raise (HTTPException 500 "Data conversion error: " (Some e))
  end.

Definition convert_flattened_rows_to_review (db_rows : list Row.t)
  : result ReviewSummary.t :=
  conversion_error (convert_flattened_rows_body db_rows).

(** Legacy single-row entry point. *)
Definition convert_databricks_to_review (db_row : Row.t) : result ReviewSummary.t :=
  convert_flattened_rows_to_review [db_row].

(** *** What the conversion needs from a group of rows *)

(** [row] has the key [response_id] and [str] of it is [response_id]. *)
Definition same_response (response_id : string) (row : Row.t) : bool :=
  match Row.response_id row with
  | Absent => false
  | c => String.eqb (str_of (get c)) response_id
  end.

(** [row] has the key [response_id]. *)
Definition has_response_id (row : Row.t) : bool :=
  match Row.response_id row with
  | Absent => false
  | _ => true
  end.

(** All rows of the group carry the response id of the first one. *)
Definition shares_response_id (db_rows : list Row.t) : bool :=
  match db_rows with
  | [] => true
  | first_row :: _ =>
      match Row.response_id first_row with
      | Absent => false
      | c => forallb (same_response (str_of (get c))) db_rows
      end
  end.

Definition is_null {A : Type} (c : cell A) : bool :=
  match c with
  | Null => true
  | _ => false
  end.

(** The scores and labels of a row are not NULL. *)
Definition sentiment_readable (row : Row.t) : bool :=
  (negb (is_null (Row.category_sentiment_score row)) &&
   negb (is_null (Row.subcategory_sentiment_score row)) &&
   negb (is_null (Row.category_sentiment_label row)) &&
   negb (is_null (Row.subcategory_sentiment_label row)))%bool.

(** The fields of the first row that end in a [str] field or under
    [.lower()] are not NULL. *)
Definition shared_readable (first_row : Row.t) : bool :=
  (negb (is_null (Row.response_relevancy first_row)) &&
   negb (is_null (Row.question_label first_row)) &&
   negb (is_null (Row.question_response first_row)))%bool.

(** No field the conversion reads as a number or as text is NULL: the
    scores and labels of every row that has a category and a subcategory,
    and the relevancy, question label and question response of the first
    row. *)
Definition readable (db_rows : list Row.t) : bool :=
  match db_rows with
  | [] => true
  | first_row :: _ =>
      (forallb (fun row => implb (has_category row) (sentiment_readable row)) db_rows
       && shared_readable first_row)%bool
  end.

(** A sentiment entry carries the category fields of a row. *)
Definition entry_of_row (row : Row.t) (e : CategorySentiment.t) : Prop :=
  get (Row.comment_category row) = Some (CategorySentiment.category e) /\
  get (Row.comment_subcategory row) = Some (CategorySentiment.subcategory e) /\
  get_or "Neutral" (Row.category_sentiment_label row)
    = Some (CategorySentiment.category_sentiment_label e) /\
  get_or "Neutral" (Row.subcategory_sentiment_label row)
    = Some (CategorySentiment.subcategory_sentiment_label e) /\
  get_or 0.0%float (Row.category_sentiment_score row)
    = Some (CategorySentiment.category_sentiment_score e) /\
  get_or 0.0%float (Row.subcategory_sentiment_score row)
    = Some (CategorySentiment.subcategory_sentiment_score e).

(** [sub] occurs in [s]. *)
Definition occurs_in (sub s : string) : Prop :=
  exists pre post : string, s = pre ++ sub ++ post.

(** The sentiment entries of a summary. *)
Definition entries (r : ReviewSummary.t) : list CategorySentiment.t :=
  match ReviewSummary.category_sentiments r with
  | Some l => l
  | None => []
  end.

(** ** Sample rows *)

(** A row of the source table for review "R100", with the given category
    and category score. *)
Definition sample_row (category : string) (score : float) : Row.t :=
  Row.mk (Val "R100") (Val "COMMENT") (Val "Great steak, slow service")
    (Val "useful") (Val false) Null (Val "Positive") (Val 4)
    (Val category) (Val "Positive") (Val score)
    (Val "Quality") (Val "Positive") (Val 0.25%float)
    (Val "STORE_001") (Val 1700000000).

(** The same row with SQL NULL as its category sentiment score. *)
Definition null_score_row : Row.t :=
  Row.mk (Val "R100") (Val "COMMENT") (Val "Great steak, slow service")
    (Val "useful") (Val false) Null (Val "Positive") (Val 4)
    (Val "Food") (Val "Positive") Null
    (Val "Quality") (Val "Positive") (Val 0.25%float)
    (Val "STORE_001") (Val 1700000000).

(** A row with the given relevancy column and neither category nor subcategory. *)
Definition relevancy_row (relevancy : cell string) : Row.t :=
  Row.mk (Val "R200") (Val "COMMENT") (Val "What time does the mall close?")
    relevancy (Val false) Null Null Null
    Null Null Null Null Null Null
    (Val "STORE_002") Null.

(** ** Python values held in request bodies and in the dicts handed to the
    upsert builder *)

Inductive pyval : Type :=
| PNone
| PBool (b : bool)
| PInt (z : Z)
| PFloat (f : float)
| PStr (s : string)
| PList (l : list pyval)
| PDict (d : list (string * pyval))
| PDatetime (t : datetime)
| PModel (cs : CategorySentiment.t).   (* an instance of models.CategorySentiment *)

(** A dict with string keys, in insertion order. *)
Definition pydict : Type := list (string * pyval).

(** [d.get(k)] as an option: [None] when the key is absent. *)
Fixpoint lookup (d : pydict) (k : string) : option pyval :=
  match d with
  | [] => None
  | (k', v) :: rest => if String.eqb k' k then Some v else lookup rest k
  end.

(** [d.get(k, default)]. *)
Definition dict_get (d : pydict) (k : string) (default : pyval) : pyval :=
  match lookup d k with
  | Some v => v
  | None => default
  end.

(** [d[k] = v]: an existing key keeps its place. *)
Fixpoint dict_set (d : pydict) (k : string) (v : pyval) : pydict :=
  match d with
  | [] => [(k, v)]
  | (k', v') :: rest =>
      if String.eqb k' k then (k, v) :: rest else (k', v') :: dict_set rest k v
  end.

(** Truth value. *)
Definition truthy (v : pyval) : bool :=
  match v with
  | PNone => false
  | PBool b => b
  | PInt z => negb (Z.eqb z 0)
  | PFloat f => negb (PrimFloat.eqb f 0.0%float)
  | PStr s => negb (String.eqb s "")
  | PList l => match l with [] => false | _ => true end
  | PDict d => match d with [] => false | _ => true end
  | PDatetime _ => true
  | PModel _ => true
  end.

Definition py_of_str (x : option string) : pyval :=
  match x with Some s => PStr s | None => PNone end.

Definition py_of_int (x : option Z) : pyval :=
  match x with Some z => PInt z | None => PNone end.

Definition py_of_datetime (x : option datetime) : pyval :=
  match x with Some t => PDatetime t | None => PNone end.

(** [cs.dict()]. *)
Definition CategorySentiment_dict (cs : CategorySentiment.t) : pydict :=
  [ ("category", PStr (CategorySentiment.category cs));
    ("category_sentiment_label", PStr (CategorySentiment.category_sentiment_label cs));
    ("category_sentiment_score", PFloat (CategorySentiment.category_sentiment_score cs));
    ("subcategory", PStr (CategorySentiment.subcategory cs));
    ("subcategory_sentiment_label", PStr (CategorySentiment.subcategory_sentiment_label cs));
    ("subcategory_sentiment_score", PFloat (CategorySentiment.subcategory_sentiment_score cs)) ].

(** [for x in v]: the elements of a list, the keys of a dict, the
    characters of a string, the (name, value) pairs of a model; other
    values are not iterable. *)
Fixpoint chars (s : string) : list pyval :=
  match s with
  | EmptyString => []
  | String c s' => PStr (String c EmptyString) :: chars s'
  end.

Definition py_iter (v : pyval) : result (list pyval) :=
  match v with
  | PList l => Ok l
  | PDict d => Ok (map (fun kv => PStr (fst kv)) d)
  | PStr s => Ok (chars s)
  | PModel cs => Ok (map (fun kv => PList [PStr (fst kv); snd kv]) (CategorySentiment_dict cs))
  | _ => Raise TypeError
  end.

(** [str(z)] of an int. *)
Definition str_of_int (z : Z) : string := NilZero.string_of_int (Z.to_int z).

(** ** [str(x)] of a float

    Python prints the shortest decimal that reads back as the float, the
    one nearest to the float if there are several, with the point in place
    when the exponent allows and in exponent notation otherwise.  A finite
    float is [m * 2^e], and everything is computed on integers. *)

(** [a * 2^a2 * 10^a10] against [b * 2^b2 * 10^b10]. *)
Definition scaled_compare (a a2 a10 b b2 b10 : Z) : comparison :=
  Z.compare (a * 2 ^ Z.max (a2 - b2) 0 * 10 ^ Z.max (a10 - b10) 0)
            (b * 2 ^ Z.max (b2 - a2) 0 * 10 ^ Z.max (b10 - a10) 0).

(** The integer part of [m * 2^e / 10^k]. *)
Definition scaled_floor (m e k : Z) : Z :=
  (m * 2 ^ Z.max e 0 * 10 ^ Z.max (- k) 0) / (2 ^ Z.max (- e) 0 * 10 ^ Z.max k 0).

(** The decimal [d * 10^k] reads back as the float [m * 2^e]: it lies
    between the midpoints to the two neighbours of the float, a midpoint
    itself being read as the float of even mantissa.  The neighbour below
    a power of two is half as far. *)
Definition rounds_to (m e d k : Z) : bool :=
  let above_lower :=
    if ((m =? 2 ^ 52) && (-1074 <? e))%bool
    then scaled_compare d 0 k (4 * m - 1) (e - 2) 0
    else scaled_compare d 0 k (2 * m - 1) (e - 1) 0 in
  let below_upper := scaled_compare d 0 k (2 * m + 1) (e - 1) 0 in
  (match above_lower with Gt => true | Eq => Z.even m | Lt => false end &&
   match below_upper with Lt => true | Eq => Z.even m | Gt => false end)%bool.

(** The place [p] of the decimal point: [10^(p-1) <= m * 2^e < 10^p],
    found from an estimate by the binary logarithm. *)
Fixpoint point_up (fuel : nat) (m e p : Z) : Z :=
  match fuel with
  | O => p
  | S fuel' =>
      match scaled_compare m e 0 1 0 p with
      | Lt => p
      | _ => point_up fuel' m e (p + 1)
      end
  end.

Fixpoint point_down (fuel : nat) (m e p : Z) : Z :=
  match fuel with
  | O => p
  | S fuel' =>
      match scaled_compare m e 0 1 0 (p - 1) with
      | Lt => point_down fuel' m e (p - 1)
      | _ => p
      end
  end.

Definition decimal_point (m e : Z) : Z :=
  let estimate := (Z.log2 m + e) * 30103 / 100000 in
  point_down 4 m e (point_up 4 m e estimate).

(** The decimal of [n] digits that reads back as the float, if there is
    one: of the two decimals of [n] digits around the float, the one that
    reads back, the nearer one if both do, the even one if they are as
    near. *)
Definition nearest (m e n : Z) : option (Z * Z) :=
  let k := decimal_point m e - n in
  let low := scaled_floor m e k in
  let high := low + 1 in
  match rounds_to m e low k, rounds_to m e high k with
  | true, true =>
      match scaled_compare (2 * m) e 0 (low + high) 0 k with
      | Lt => Some (low, k)
      | Gt => Some (high, k)
      | Eq => Some (if Z.even low then low else high, k)
      end
  | true, false => Some (low, k)
  | false, true => Some (high, k)
  | false, false => None
  end.

(** The float itself as a decimal. *)
Definition exact_decimal (m e : Z) : Z * Z :=
  if e <? 0 then (m * 5 ^ (- e), e) else (m * 2 ^ e, 0).

(** The shortest decimal that reads back: [n], [n + 1], ... digits are
    tried, [fuel] times.  (Seventeen digits tell any two floats apart, so
    that the last case is not met.) *)
Fixpoint shortest (fuel : nat) (m e n : Z) : Z * Z :=
  match fuel with
  | O => exact_decimal m e
  | S fuel' =>
      match nearest m e n with
      | Some decimal => decimal
      | None => shortest fuel' m e (n + 1)
      end
  end.

(** Without the zeros at the end of the digits. *)
Fixpoint strip_zeros (fuel : nat) (d k : Z) : Z * Z :=
  match fuel with
  | O => (d, k)
  | S fuel' =>
      if d mod 10 =? 0 then strip_zeros fuel' (d / 10) (k + 1) else (d, k)
  end.

Fixpoint zeros (n : nat) : string :=
  match n with
  | O => EmptyString
  | S n' => String "0" (zeros n')
  end.

Fixpoint take (n : nat) (s : string) : string :=
  match n, s with
  | S n', String c s' => String c (take n' s')
  | _, _ => EmptyString
  end.

Fixpoint drop (n : nat) (s : string) : string :=
  match n, s with
  | S n', String _ s' => drop n' s'
  | _, _ => s
  end.

(** The exponent: a sign and two digits at least. *)
Definition exponent_text (x : Z) : string :=
  (if x <? 0 then "-" else "+")
  ++ (if Z.abs x <? 10 then "0" else "") ++ str_of_int (Z.abs x).

(** The digits with the point after [decpt] of them: in exponent notation
    when [decpt] is below -3 or above 16, and never without a point or an
    exponent. *)
Definition render (digits : string) (decpt : Z) : string :=
  let n := Z.of_nat (String.length digits) in
  if ((decpt <=? -4) || (16 <? decpt))%bool then
    take 1 digits ++ (if 1 <? n then "." ++ drop 1 digits else "")
    ++ "e" ++ exponent_text (decpt - 1)
  else if decpt <=? 0 then "0." ++ zeros (Z.to_nat (- decpt)) ++ digits
  else if n <=? decpt then digits ++ zeros (Z.to_nat (decpt - n)) ++ ".0"
  else take (Z.to_nat decpt) digits ++ "." ++ drop (Z.to_nat decpt) digits.

(** The digits and the place of the point for the float [m * 2^e]. *)
Definition float_digits (m e : Z) : Z * Z :=
  let (d, k) := shortest 17 m e 1 in
  strip_zeros 800 d k.

Definition float_str (f : float) : string :=
  match Prim2SF f with
  | S754_nan => "nan"
  | S754_infinity s => if s then "-inf" else "inf"
  | S754_zero s => if s then "-0.0" else "0.0"
  | S754_finite s m e =>
      let (d, k) := float_digits (Zpos m) e in
      let digits := str_of_int d in
      (if s then "-" else "") ++ render digits (Z.of_nat (String.length digits) + k)
  end.

(** ** The Python runtime

    Library functions the backend calls and whose results the embedding
    takes as given: hashlib, float parsing, json, and the coercions
    pydantic applies to a value that is not already of the field's type. *)
Class PyRuntime : Type := {
  (** [hashlib.sha256(s.encode()).hexdigest()] *)
  sha256_hexdigest : string -> string;
  (** [str(x)] of a list, dict, datetime or model *)
  object_str : pyval -> string;
  (** [int(x)] of a float; [None] for nan and the infinities *)
  float_trunc : float -> option Z;
  (** [int(s)] of a string; [None] when it raises [ValueError] *)
  int_of_str : string -> option Z;
  (** [float(z)] of an int; [None] when it raises [OverflowError] *)
  float_of_int : Z -> option float;
  (** [float(s)] of a string; [None] when it raises [ValueError] *)
  float_of_str : string -> option float;
  (** [json.dumps(v)]; [None] when it raises [TypeError] *)
  json_dumps : pyval -> option string;
  (** [json.loads(s)]; [None] when it raises [JSONDecodeError] *)
  json_loads : string -> option pyval;
  (** pydantic's reading of a value other than a string or [None] in a
      [str] field; [None] when it raises [ValidationError] *)
  coerce_str : pyval -> option string
}.

Section Runtime.
Context {rt : PyRuntime}.

(** [str(v)], as an f-string renders a value. *)
Definition py_str (v : pyval) : string :=
  match v with
  | PNone => "None"
  | PBool true => "True"
  | PBool false => "False"
  | PInt z => str_of_int z
  | PFloat f => float_str f
  | PStr s => s
  | _ => object_str v
  end.

(** [int(v)]. *)
Definition py_int (v : pyval) : result Z :=
  match v with
  | PInt z => Ok z
  | PBool b => Ok (if b then 1 else 0)
  | PFloat f =>
      match float_trunc f with
      | Some z => Ok z
      | None => Raise (if PrimFloat.is_nan f then ValueError_builtin else OverflowError)
      end
  | PStr s =>
      match int_of_str s with
      | Some z => Ok z
      | None => Raise ValueError_builtin
      end
  | _ => Raise TypeError
  end.

(** [float(v)]. *)
Definition py_float (v : pyval) : result float :=
  match v with
  | PFloat f => Ok f
  | PBool b => Ok (if b then 1.0%float else 0.0%float)
  | PInt z =>
      match float_of_int z with
      | Some f => Ok f
      | None => Raise OverflowError
      end
  | PStr s =>
      match float_of_str s with
      | Some f => Ok f
      | None => Raise ValueError_builtin
      end
  | _ => Raise TypeError
  end.

(** pydantic's check of a [str] field on any value. *)
Definition str_field (v : pyval) : result string :=
  match v with
  | PStr s => Ok s
  | PNone => Raise ValidationError
  | _ =>
      match coerce_str v with
      | Some s => Ok s
      | None => Raise ValidationError
      end
  end.

(** ** databricks_client.py: _format_sql_value *)

Definition _format_sql_value (value : pyval) : string :=
  match value with
  | PNone => "NULL"
  | PBool b => if b then "TRUE" else "FALSE"
  | PStr s =>
      let escaped := replace "'" "''" s in
      "'" ++ escaped ++ "'"
  | PInt z => str_of_int z
  | PFloat f => float_str f
  | _ => "NULL"
  end.

End Runtime.

(** ** Rows of the evaluation table

    The columns that [convert_completed_review_to_summary] reads from a row
    of the evaluation queries, under the aliases of their SELECT list. *)

Module EvalRow.
Record t : Type := mk {
  response_id : cell string;                       (* survey_response_id *)
  question_label : cell string;
  question_response : cell string;
  profane : cell bool;                             (* human_eval_profane *)
  rewritten_comment : cell string;                 (* human_eval_rewritten_comment *)
  irrelevant : cell bool;                          (* human_eval_irrelevant *)
  human_eval_overall_sentiment_label : cell string;
  human_eval_overall_sentiment_score : cell Z;
  human_eval_category_sentiments : cell string     (* JSON text *)
}.
End EvalRow.

Section Conversion.
Context {rt : PyRuntime}.

(** ** routes/v1/reviews.py: convert_completed_review_to_summary *)

(** One [CategorySentiment] from one element of the parsed JSON. *)
Definition sentiment_of_json (cs_data : pyval) : result CategorySentiment.t :=
  match cs_data with
  | PDict d =>
      cat_score <- py_float (dict_get d "category_sentiment_score" (PFloat 0.0%float)) ;;
      sub_score <- py_float (dict_get d "subcategory_sentiment_score" (PFloat 0.0%float)) ;;
      c <- str_field (dict_get d "category" (PStr "")) ;;
      cl <- str_field (dict_get d "category_sentiment_label" (PStr "Neutral")) ;;
      s <- str_field (dict_get d "subcategory" (PStr "")) ;;
      sl <- str_field (dict_get d "subcategory_sentiment_label" (PStr "Neutral")) ;;
      Ok (CategorySentiment.mk c cl cat_score s sl sub_score)
  | _ => Raise AttributeError          (* cs_data.get *)
  end.

Fixpoint sentiments_of_json (data : list pyval) : result (list CategorySentiment.t) :=
  match data with
  | [] => Ok []
  | cs_data :: rest =>
      cs <- sentiment_of_json cs_data ;;
      tl <- sentiments_of_json rest ;;
      Ok (cs :: tl)
  end.

(** The inner [try]: [json.loads] and the loop over its result. *)
Definition load_category_sentiments (text : string) : result (list CategorySentiment.t) :=
  match json_loads text with
  | None => Raise JSONDecodeError
  | Some data =>
      elements <- py_iter data ;;
      sentiments_of_json elements
  end.

(** [except (json.JSONDecodeError, KeyError, ValueError)]: the list is
    reset to empty; any other exception goes on. *)
Definition parse_category_sentiments (category_sentiments_json : option string)
  : result (list CategorySentiment.t) :=
  if truthy_str category_sentiments_json then
    match load_category_sentiments (str_of category_sentiments_json) with
    | Ok l => Ok l
    | Raise e =>
        if (is_ValueError e || match e with KeyError _ => true | _ => false end)%bool
        then Ok []
        else Raise e
    end
  else Ok [].

Definition convert_completed_review_body (db_row : EvalRow.t) : result ReviewSummary.t :=
  category_sentiments <-
    parse_category_sentiments (get (EvalRow.human_eval_category_sentiments db_row)) ;;
  let sentiment_analysis :=
    SentimentAnalysis.mk (bool_of (get_or false (EvalRow.irrelevant db_row)))
      None (Some category_sentiments) in
  rid <- item "response_id" (EvalRow.response_id db_row) ;;
  new_ReviewSummary
    (str_of rid)
    (get_or "COMMENT" (EvalRow.question_label db_row))
    (get_or "" (EvalRow.question_response db_row))
    (get_or "" (EvalRow.question_response db_row))
    true
    (bool_of (get_or false (EvalRow.profane db_row)))
    (get_or "" (EvalRow.rewritten_comment db_row))
    sentiment_analysis
    COMPLETED
    None
    (get (EvalRow.human_eval_overall_sentiment_label db_row))
    (get (EvalRow.human_eval_overall_sentiment_score db_row))
    (Some category_sentiments)
    None.

Definition convert_completed_review_to_summary (db_row : EvalRow.t)
  : result ReviewSummary.t :=
  conversion_error (convert_completed_review_body db_row).

End Conversion.

(** ** models.py: ReviewDetail, ValidationRequest *)

Module ReviewDetail.
Record t : Type := mk {
  summary : ReviewSummary.t;               (* the fields inherited from ReviewSummary *)
  validation_status : option string;
  user_corrections : option pydict;
  accuracy_score : option float
}.
End ReviewDetail.

Module ValidationRequest.
Record t : Type := mk {
  updated_labels : option pydict;
  decision : ValidationDecision;
  corrections_made : option Z
}.
End ValidationRequest.

(** ** mock_data.py *)

Definition mock_review (response_id question_label question_response : string)
    (profanity_check profane : bool) (rewritten_comment : option string)
    (sentiment_analysis : SentimentAnalysis.t) (created_at : datetime)
    (store_id : string) (status : ReviewStatus) (validation_status : string)
    (accuracy_score : option float) : ReviewDetail.t :=
  ReviewDetail.mk
    (ReviewSummary.mk response_id question_label question_response question_response
       profanity_check profane rewritten_comment sentiment_analysis
       (Some created_at) (Some store_id) status None None None)
    (Some validation_status) None accuracy_score.

(** The [aspects] dict of a mock review, in the order of its keys. *)
Definition mock_aspects (pricing other food wait service cleanliness ambiance : option float)
  : SentimentAnalysis.t :=
  SentimentAnalysis.mk false
    (Some [ ("Pricing", pricing); ("Other", other); ("Food and Beverage", food);
            ("Wait Time", wait); ("Service", service); ("Cleanliness", cleanliness);
            ("Ambiance", ambiance) ])
    None.

(** [MOCK_REVIEWS]; [now n] is the clock read by the [n]-th call of
    [datetime.now()] when the module is imported, in seconds. *)
Definition MOCK_REVIEWS (now : nat -> datetime) : list ReviewDetail.t :=
  [ mock_review "R001" "Overall Experience"
      "The food was absolutely amazing! The steak was cooked perfectly and the service was outstanding. Will definitely come back!"
      false false None
      (mock_aspects None None (Some 0.9%float) None (Some 0.8%float) None (Some 0.7%float))
      (now 0%nat - 7200) "STORE_001" RANDOM_SAMPLE "pending" None;
    mock_review "R002" "Service Quality"
      "The waitress was rude and took forever to take our order. Food was cold when it arrived."
      false false None
      (mock_aspects None None (Some (-0.6)%float) (Some (-0.8)%float) (Some (-0.9)%float)
         None None)
      (now 1%nat - 3600) "STORE_002" RANDOM_SAMPLE "pending" None;
    mock_review "R003" "Food Quality"
      "The damn food was terrible and the fucking service sucked ass!"
      true true (Some "The food was terrible and the service was very poor!")
      (mock_aspects None None (Some (-0.9)%float) None (Some (-0.8)%float) None None)
      (now 2%nat - 1800) "STORE_001" RANDOM_SAMPLE "pending" None;
    mock_review "R004" "Value"
      "Great value for money! The portions were huge and prices reasonable."
      false false None
      (mock_aspects (Some 0.9%float) None (Some 0.7%float) None None None None)
      (now 3%nat - 900) "STORE_003" RANDOM_SAMPLE "pending" None;
    mock_review "R005" "Atmosphere"
      "The restaurant was okay, nothing special. Average food, average service."
      false false None
      (mock_aspects None None (Some 0.0%float) None (Some 0.0%float) None (Some 0.0%float))
      (now 4%nat - 300) "STORE_002" RANDOM_SAMPLE "pending" None;
    mock_review "R006" "Irrelevant Comment"
      "What time does the mall close?"
      false false None
      (SentimentAnalysis.mk true None None)
      (now 5%nat - 2700) "STORE_001" RANDOM_SAMPLE "pending" None;
    mock_review "C001" "Completed Review"
      "The service was excellent and food was great!"
      false false None
      (mock_aspects None None (Some 0.8%float) None (Some 0.9%float) None None)
      (now 6%nat - 10800) "STORE_001" COMPLETED "completed" (Some 0.95%float);
    mock_review "REC001" "Recommended Review"
      "The ambiance was terrible but food was okay."
      false false None
      (mock_aspects None None (Some 0.2%float) None None None (Some (-0.8)%float))
      (now 7%nat - 3600) "STORE_002" RECOMMENDED "pending" None ].

(** [get_mock_review_by_id], over the list the module holds. *)
Fixpoint get_mock_review_by_id (reviews : list ReviewDetail.t) (review_id : string)
  : option ReviewDetail.t :=
  match reviews with
  | [] => None
  | review :: rest =>
      if String.eqb (ReviewSummary.response_id (ReviewDetail.summary review)) review_id
      then Some review
      else get_mock_review_by_id rest review_id
  end.

(** ** The upsert's source row

    The SQL expressions that [write_human_evaluation_optimized] places in
    the [SELECT] of its [MERGE] statement, one per column, as text. *)

Module UpsertSource.
Record t : Type := mk {
  evaluation_hash_key : string;
  survey_response_id : string;
  question_label : string;
  question_response : string;
  response_relevancy : string;
  overall_sentiment_label : string;
  overall_sentiment_score : string;
  category_subcategory_list : string;
  human_eval_profane : string;
  human_eval_rewritten_comment : string;
  human_eval_irrelevant : string;
  human_eval_overall_sentiment_label : string;
  human_eval_overall_sentiment_score : string;
  human_eval_category_sentiments : string;
  machine_eval_profane : string;
  machine_eval_rewritten_comment : string;
  machine_eval_irrelevant : string;
  machine_eval_overall_sentiment_label : string;
  machine_eval_overall_sentiment_score : string;
  machine_eval_category_sentiments : string;
  human_eval_pricing : string;
  human_eval_other : string;
  human_eval_food_experience : string;
  human_eval_wait_time : string;
  human_eval_service : string;
  human_eval_cleanliness : string;
  human_eval_ambiance : string;
  store_key : string;
  visit_datetime : string;
  evaluation_model : string
}.
End UpsertSource.

(** ** The warehouse

    The SQL statements the backend sends through [DatabricksClient.query],
    by what they ask of a warehouse in state [W].  SELECT and DESCRIBE read
    the state and leave it as it is; CREATE TABLE and MERGE give a new
    state.  A statement that raises gives [None] ([false] for DESCRIBE). *)

Inductive table : Type := EVALUATION_TABLE | RECOMMENDATIONS_TABLE.

Class Warehouse (W : Type) : Type := {
  (** [get_databricks_client()] returns a client *)
  client_available : W -> bool;
  (** [SELECT ... FROM EVALUATION_TABLE WHERE survey_response_id = id] *)
  select_evaluation : string -> W -> option (list EvalRow.t);
  (** [SELECT ... FROM BACKEND_DATA_TABLE WHERE SurveyResponseId = id
      ORDER BY CommentCategory, CommentSubcategory] *)
  select_source : string -> W -> option (list Row.t);
  (** [DESCRIBE TABLE t] succeeds *)
  describe_table : table -> W -> bool;
  (** [CREATE TABLE t (...)] *)
  create_table : table -> W -> option W;
  (** [MERGE INTO EVALUATION_TABLE USING (SELECT source) ON survey_response_id ...] *)
  merge_evaluation : UpsertSource.t -> W -> option W
}.

(** A call of the upsert builder. *)
Module UpsertCall.
Record t : Type := mk {
  survey_response_id : string;
  human_eval_data : pydict;
  machine_eval_data : option pydict;
  evaluation_model : string
}.
End UpsertCall.

(** The state of the service: the warehouse, the list [MOCK_REVIEWS] held
    by the process, and the calls of [write_human_evaluation_optimized]
    made so far (each call announces itself in the log first). *)
Record world (W : Type) : Type := mkWorld {
  warehouse : W;
  mock_reviews : list ReviewDetail.t;
  upsert_calls : list UpsertCall.t
}.
Arguments mkWorld {W} warehouse mock_reviews upsert_calls.
Arguments warehouse {W} w.
Arguments mock_reviews {W} w.
Arguments upsert_calls {W} w.

Section Service.
Context {rt : PyRuntime} {W : Type} {wh : Warehouse W}.

(** What [DatabricksClient.query] raises when the statement fails. *)
Definition query_failed : exn := Exception_ "DBSQL Query Failed: " (Some ConnectorError).

(** What [DatabricksClient()] raises without a warehouse id. *)
Definition client_unavailable : exn := ValueError "DATABRICKS_WAREHOUSE_ID must be provided".

Definition review_not_found : exn := HTTPException 404 "Review not found" None.

(** ** routes/v1/reviews.py: get_review_detail *)

(** The [ReviewDetail] made of the fields of [review_summary.dict()], a
    validation status, and [None] for user corrections and accuracy score. *)
Definition detail_of (review_summary : ReviewSummary.t) (validation_status : string)
  : ReviewDetail.t :=
  ReviewDetail.mk review_summary (Some validation_status) None None.

(** The lookup in the mock data that ends the function in mock mode and
    after an exception. *)
Definition mock_detail (review_id : string) (w : world W) : result ReviewDetail.t :=
  match get_mock_review_by_id (mock_reviews w) review_id with
  | Some review => Ok review
  | None => Raise review_not_found
  end.

(** The inner [try]: the evaluation row of the review, converted;
    [None] when there is none or when anything raised. *)
Definition evaluated_detail (review_id : string) (w : world W) : option ReviewDetail.t :=
  match select_evaluation review_id (warehouse w) with
  | Some (eval_row :: _) =>
      match convert_completed_review_to_summary eval_row with
      | Ok review_summary => Some (detail_of review_summary "completed")
      | Raise _ => None
      end
  | _ => None
  end.

Definition get_review_detail (review_id : string) (use_databricks : bool) (w : world W)
  : result ReviewDetail.t :=
  if negb use_databricks then mock_detail review_id w
  else if negb (client_available (warehouse w)) then mock_detail review_id w
  else
    match evaluated_detail review_id w with
    | Some review_detail => Ok review_detail
    | None =>
        match select_source review_id (warehouse w) with
        | None => mock_detail review_id w
        | Some [] => Raise review_not_found
        | Some results =>
            review_summary <- convert_flattened_rows_to_review results ;;
            Ok (detail_of review_summary "pending")
        end
    end.

(** ** databricks_client.py: write_human_evaluation_optimized *)

(** [hashlib.sha256(f"{survey_response_id}_{evaluation_model}".encode()).hexdigest()]. *)
Definition evaluation_hash_key (survey_response_id evaluation_model : string) : string :=
  sha256_hexdigest (survey_response_id ++ "_" ++ evaluation_model).

(** The relevancy written back, from the human evaluation. *)
Definition derive_response_relevancy (human_eval_data : pydict) : string :=
  if truthy (dict_get human_eval_data "irrelevant" (PBool false))
  then "nonsense or irrelevant"
  else if truthy (dict_get human_eval_data "profane" (PBool false))
  then "profane but useful"
  else "useful".

(** The [category:subcategory] text of one sentiment, if it has both. *)
Definition category_pair (cs : pyval) : result (option string) :=
  match cs with
  | PModel m =>
      let category := PStr (CategorySentiment.category m) in
      let subcategory := PStr (CategorySentiment.subcategory m) in
      Ok (if (truthy category && truthy subcategory)%bool
          then Some (py_str category ++ ":" ++ py_str subcategory) else None)
  | PDict d =>
      let category := dict_get d "category" (PStr "") in
      let subcategory := dict_get d "subcategory" (PStr "") in
      Ok (if (truthy category && truthy subcategory)%bool
          then Some (py_str category ++ ":" ++ py_str subcategory) else None)
  | _ => Raise AttributeError           (* cs.get *)
  end.

Fixpoint category_pairs (elements : list pyval) : result (list string) :=
  match elements with
  | [] => Ok []
  | cs :: rest =>
      p <- category_pair cs ;;
      tl <- category_pairs rest ;;
      Ok (match p with Some text => text :: tl | None => tl end)
  end.

Definition category_subcategory_text (category_sentiments : pyval) : result string :=
  if truthy category_sentiments then
    elements <- py_iter category_sentiments ;;
    pairs <- category_pairs elements ;;
    Ok (String.concat ", " pairs)
  else Ok "".

(** A sentiment as a dict: a model by [.dict()], a dict as it is, anything
    else by [getattr] with defaults. *)
Definition sentiment_as_dict (cs : pyval) : pyval :=
  match cs with
  | PModel m => PDict (CategorySentiment_dict m)
  | PDict d => PDict d
  | _ =>
      PDict [ ("category", PStr ""); ("category_sentiment_label", PStr "");
              ("category_sentiment_score", PFloat 0.0%float);
              ("subcategory", PStr ""); ("subcategory_sentiment_label", PStr "");
              ("subcategory_sentiment_score", PFloat 0.0%float) ]
  end.

Definition serialize_category_sentiments (sentiments : pyval) : result string :=
  if negb (truthy sentiments) then Ok "[]"
  else
    elements <- py_iter sentiments ;;
    match json_dumps (PList (map sentiment_as_dict elements)) with
    | Some text => Ok text
    | None => Raise TypeError
    end.

(** [int(d.get('overall_sentiment_score', 0)) if d.get('overall_sentiment_score')
    is not None else None]. *)
Definition score_or_none (d : pydict) : result pyval :=
  match lookup d "overall_sentiment_score" with
  | None | Some PNone => Ok PNone
  | Some v => z <- py_int v ;; Ok (PInt z)
  end.

(** [machine_eval_data] is given and not empty. *)
Definition given (machine_eval_data : option pydict) : option pydict :=
  match machine_eval_data with
  | Some (kv :: d) => Some (kv :: d)
  | _ => None
  end.

(** The columns of the [MERGE] source. *)
Definition build_upsert_source (survey_response_id : string) (human_eval_data : pydict)
    (machine_eval_data : option pydict) (evaluation_model : string)
  : result UpsertSource.t :=
  let hash_key := evaluation_hash_key survey_response_id evaluation_model in
  let response_relevancy := derive_response_relevancy human_eval_data in
  let category_sentiments := dict_get human_eval_data "category_sentiments" (PList []) in
  category_subcategory_list <- category_subcategory_text category_sentiments ;;
  human_category_sentiments_json <- serialize_category_sentiments category_sentiments ;;
  machine_category_sentiments_json <-
    match given machine_eval_data with
    | Some m => serialize_category_sentiments (dict_get m "category_sentiments" (PList []))
    | None => Ok "[]"
    end ;;
  human_score <- score_or_none human_eval_data ;;
  machine_score <-
    match given machine_eval_data with
    | Some m => score_or_none m
    | None => Ok PNone
    end ;;
  let machine (k : string) (default : pyval) : pyval :=
    match given machine_eval_data with
    | Some m => dict_get m k default
    | None => default
    end in
  Ok (UpsertSource.mk
        ("'" ++ hash_key ++ "'")
        ("'" ++ survey_response_id ++ "'")
        (_format_sql_value (dict_get human_eval_data "question_label" (PStr "COMMENT")))
        (_format_sql_value (dict_get human_eval_data "question_response" PNone))
        (_format_sql_value (PStr response_relevancy))
        (_format_sql_value (dict_get human_eval_data "overall_sentiment_label" PNone))
        (_format_sql_value human_score)
        (_format_sql_value (PStr category_subcategory_list))
        (_format_sql_value (dict_get human_eval_data "profane" (PBool false)))
        (_format_sql_value (dict_get human_eval_data "rewritten_comment" PNone))
        (_format_sql_value (dict_get human_eval_data "irrelevant" (PBool false)))
        (_format_sql_value (dict_get human_eval_data "overall_sentiment_label" PNone))
        (_format_sql_value human_score)
        (_format_sql_value (PStr human_category_sentiments_json))
        (_format_sql_value (machine "profane" (PBool false)))
        (_format_sql_value (machine "rewritten_comment" PNone))
        (_format_sql_value (machine "irrelevant" (PBool false)))
        (_format_sql_value (machine "overall_sentiment_label" PNone))
        (_format_sql_value machine_score)
        (_format_sql_value (PStr machine_category_sentiments_json))
        "NULL" "NULL" "NULL" "NULL" "NULL" "NULL" "NULL"
        (_format_sql_value (dict_get human_eval_data "store_id" PNone))
        (_format_sql_value (dict_get human_eval_data "visit_datetime" PNone))
        ("'" ++ evaluation_model ++ "'")).

(** [create_evaluation_table_if_not_exists] and
    [create_recommendations_table_if_not_exists]; the message of the
    exception also names the configured table. *)
Definition create_table_if_not_exists (t : table) (w : W) : result bool * W :=
  if describe_table t w then (Ok true, w)
  else
    match create_table t w with
    | Some w' => (Ok true, w')
    | None =>
        (Raise (Exception_
                  (match t with
                   | EVALUATION_TABLE => "Failed to create evaluation table: "
                   | RECOMMENDATIONS_TABLE => "Failed to create recommendations table: "
                   end)
                  (Some query_failed)), w)
    end.

Definition set_warehouse (w : world W) (s : W) : world W :=
  mkWorld s (mock_reviews w) (upsert_calls w).

Definition write_human_evaluation_optimized (survey_response_id : string)
    (human_eval_data : pydict) (machine_eval_data : option pydict)
    (evaluation_model : string) (w : world W) : result bool * world W :=
  let w :=
    mkWorld (warehouse w) (mock_reviews w)
      (upsert_calls w ++
       [UpsertCall.mk survey_response_id human_eval_data machine_eval_data
          evaluation_model]) in
  if negb (client_available (warehouse w)) then (Raise client_unavailable, w)
  else
    match create_table_if_not_exists EVALUATION_TABLE (warehouse w) with
    | (Raise e, s) => (Raise e, set_warehouse w s)
    | (Ok _, s) =>
        match create_table_if_not_exists RECOMMENDATIONS_TABLE s with
        | (Raise e, s) => (Raise e, set_warehouse w s)
        | (Ok _, s) =>
            match build_upsert_source survey_response_id human_eval_data
                    machine_eval_data evaluation_model with
            | Raise e => (Raise e, set_warehouse w s)
            | Ok source =>
                match merge_evaluation source s with
                | Some s' => (Ok true, set_warehouse w s')
                | None => (Ok false, set_warehouse w s)
                end
            end
        end
    end.

(** Legacy wrapper. *)
Definition write_human_evaluation (response_id : string) (human_eval_data : pydict)
    (machine_eval_data : option pydict) (w : world W) : result bool * world W :=
  write_human_evaluation_optimized response_id human_eval_data machine_eval_data
    "human_validation_v1_legacy" w.

End Service.

(** ** routes/v1/reviews.py: validate_review *)

(** The [message] of a response, by the f-string that makes it. *)
Inductive message : Type :=
| HasBeenDecided        (* "Review {id} has been {decision}ed" *)
| HasBeenSkipped        (* "Review {id} has been skipped (no evaluation written)" *)
| HasBeenSaved.         (* "Review {id} has been {decision}ed and saved to evaluation table" *)

Module Response.
Record t : Type := mk {
  success : bool;
  review_id : string;
  decision : ValidationDecision;
  corrections_made : option Z;        (* [None]: the response has no such key *)
  message_text : message
}.
End Response.

(** [review.validation_status = "validated"] on the first mock review with
    the id: the object in [MOCK_REVIEWS] itself is changed. *)
Fixpoint mark_validated (reviews : list ReviewDetail.t) (review_id : string)
  : list ReviewDetail.t :=
  match reviews with
  | [] => []
  | review :: rest =>
      if String.eqb (ReviewSummary.response_id (ReviewDetail.summary review)) review_id
      then ReviewDetail.mk (ReviewDetail.summary review) (Some "validated")
             (ReviewDetail.user_corrections review) (ReviewDetail.accuracy_score review)
           :: rest
      else review :: mark_validated rest review_id
  end.

(** [x or []] of an optional list of sentiments. *)
Definition or_nil (x : option (list CategorySentiment.t)) : pyval :=
  match x with
  | Some l => PList (map PModel l)
  | None => PList []
  end.

(** The two [except] clauses of the endpoint: an [HTTPException] goes on
    as it is, any other exception becomes a 500. *)
Definition validation_error (e : exn) : exn :=
  if is_HTTPException e then e
  else HTTPException 500 "Validation failed: " (Some e).

Section Endpoint.
Context {rt : PyRuntime} {W : Type} {wh : Warehouse W}.

(** The human evaluation of an override with labels. *)
Definition override_with_labels (labels : pydict) (original : ReviewSummary.t)
    (human_eval_data : pydict) : result pydict :=
  let sentiment_data := dict_get labels "sentiment_analysis" (PDict []) in
  irrelevant <-
    match sentiment_data with
    | PDict d => Ok (dict_get d "irrelevant" (PBool false))
    | _ => Raise AttributeError
    end ;;
  let human_eval_data := dict_set human_eval_data "irrelevant" irrelevant in
  let human_eval_data :=
    dict_set human_eval_data "profane"
      (dict_get labels "profane" (PBool (ReviewSummary.profane original))) in
  let human_eval_data :=
    dict_set human_eval_data "rewritten_comment"
      (dict_get labels "rewritten_comment"
         (py_of_str (ReviewSummary.rewritten_comment original))) in
  let human_eval_data :=
    dict_set human_eval_data "overall_sentiment_label"
      (dict_get labels "overall_sentiment_label"
         (py_of_str (ReviewSummary.overall_sentiment_label original))) in
  let human_eval_data :=
    dict_set human_eval_data "overall_sentiment_score"
      (dict_get labels "overall_sentiment_score"
         (py_of_int (ReviewSummary.overall_sentiment_score original))) in
  let category_sentiments :=
    dict_get labels "category_sentiments"
      (or_nil (ReviewSummary.category_sentiments original)) in
  if truthy category_sentiments then
    elements <- py_iter category_sentiments ;;
    Ok (dict_set human_eval_data "category_sentiments"
          (PList (map sentiment_as_dict elements)))
  else Ok (dict_set human_eval_data "category_sentiments" (PList [])).

Definition validate_review (review_id : string) (validation : ValidationRequest.t)
    (use_databricks : bool) (w : world W) : result Response.t * world W :=
  if negb use_databricks then
    match get_mock_review_by_id (mock_reviews w) review_id with
    | None => (Raise review_not_found, w)
    | Some _ =>
        (Ok (Response.mk true review_id (ValidationRequest.decision validation)
               None HasBeenDecided),
         mkWorld (warehouse w) (mark_validated (mock_reviews w) review_id)
           (upsert_calls w))
    end
  else
    match get_review_detail review_id true w with
    | Raise e => (Raise (validation_error e), w)
    | Ok original_review =>
        let original := ReviewDetail.summary original_review in
        let human_eval_data : pydict :=
          [ ("question_label", PStr (ReviewSummary.question_label original));
            ("question_response", PStr (ReviewSummary.question_response original));
            ("profane", PNone);
            ("rewritten_comment", PNone);
            ("irrelevant", PNone);
            ("overall_sentiment_label", PNone);
            ("overall_sentiment_score", PNone);
            ("category_sentiments", PList []);
            ("aspects", PDict []);
            ("store_id", py_of_str (ReviewSummary.store_id original));
            ("visit_datetime", py_of_datetime (ReviewSummary.created_at original)) ] in
        let machine_eval_data : pydict :=
          [ ("profane", PBool (ReviewSummary.profane original));
            ("rewritten_comment", py_of_str (ReviewSummary.rewritten_comment original));
            ("irrelevant", PBool false);
            ("overall_sentiment_label",
             py_of_str (ReviewSummary.overall_sentiment_label original));
            ("overall_sentiment_score",
             py_of_int (ReviewSummary.overall_sentiment_score original));
            ("category_sentiments", or_nil (ReviewSummary.category_sentiments original)) ] in
        let decided : result (option pydict) :=
          match ValidationRequest.decision validation with
          | ACCEPT =>
              let sentiment_data := ReviewSummary.sentiment_analysis original in
              let human_eval_data :=
                dict_set human_eval_data "irrelevant"
                  (PBool (SentimentAnalysis.irrelevant sentiment_data)) in
              let human_eval_data :=
                dict_set human_eval_data "profane"
                  (PBool (ReviewSummary.profane original)) in
              let human_eval_data :=
                dict_set human_eval_data "rewritten_comment"
                  (py_of_str (ReviewSummary.rewritten_comment original)) in
              let human_eval_data :=
                dict_set human_eval_data "overall_sentiment_label"
                  (py_of_str (ReviewSummary.overall_sentiment_label original)) in
              let human_eval_data :=
                dict_set human_eval_data "overall_sentiment_score"
                  (py_of_int (ReviewSummary.overall_sentiment_score original)) in
              let human_eval_data :=
                dict_set human_eval_data "category_sentiments"
                  (or_nil (ReviewSummary.category_sentiments original)) in
              Ok (Some human_eval_data)
          | OVERRIDE =>
              match ValidationRequest.updated_labels validation with
              | Some (kv :: labels) =>
                  human_eval_data <-
                    override_with_labels (kv :: labels) original human_eval_data ;;
                  Ok (Some human_eval_data)
              | _ =>
                  let sentiment_data := ReviewSummary.sentiment_analysis original in
                  let human_eval_data :=
                    dict_set human_eval_data "irrelevant"
                      (PBool (SentimentAnalysis.irrelevant sentiment_data)) in
                  let human_eval_data :=
                    dict_set human_eval_data "profane"
                      (PBool (ReviewSummary.profane original)) in
                  let human_eval_data :=
                    dict_set human_eval_data "rewritten_comment"
                      (py_of_str (ReviewSummary.rewritten_comment original)) in
                  let human_eval_data :=
                    dict_set human_eval_data "overall_sentiment_label"
                      (py_of_str (ReviewSummary.overall_sentiment_label original)) in
                  let human_eval_data :=
                    dict_set human_eval_data "overall_sentiment_score"
                      (py_of_int (ReviewSummary.overall_sentiment_score original)) in
                  let human_eval_data :=
                    dict_set human_eval_data "category_sentiments"
                      (or_nil (ReviewSummary.category_sentiments original)) in
                  Ok (Some human_eval_data)
              end
          | SKIP => Ok None
          end in
        match decided with
        | Raise e => (Raise (validation_error e), w)
        | Ok None =>
            (Ok (Response.mk true review_id (ValidationRequest.decision validation)
                   None HasBeenSkipped), w)
        | Ok (Some human_eval_data) =>
            match write_human_evaluation review_id human_eval_data
                    (Some machine_eval_data) w with
            | (Raise e, w') => (Raise (validation_error e), w')
            | (Ok false, w') =>
                (Raise (HTTPException 500 "Failed to write evaluation to database" None), w')
            | (Ok true, w') =>
                (Ok (Response.mk true review_id (ValidationRequest.decision validation)
                       (Some (match ValidationRequest.corrections_made validation with
                              | Some n => n
                              | None => 0
                              end))
                       HasBeenSaved), w')
            end
        end
    end.

End Endpoint.

(** ** What the specification says of SQL text

    "Single quotes doubled": every single-quote character becomes two, and
    every other character stays. *)
Fixpoint single_quotes_doubled (s : string) : string :=
  match s with
  | EmptyString => EmptyString
  | String c s' =>
      if Ascii.eqb c "'"
      then String "'" (String "'" (single_quotes_doubled s'))
      else String c (single_quotes_doubled s')
  end.

(** "Decimal text": an optional minus sign and digits, followed by
    nothing, by a point and digits, by an exponent (the letter e, a sign or
    none, digits), or by both.  The text is read from left to right. *)
Inductive numeral_state : Type :=
| AtStart | AfterSign | InInteger | AfterPoint | InFraction
| AfterE | AfterExponentSign | InExponent.

Definition is_digit (c : ascii) : bool :=
  let n := nat_of_ascii c in (Nat.leb 48 n && Nat.leb n 57)%bool.

(** The state after a digit. *)
Definition after_digit (st : numeral_state) : numeral_state :=
  match st with
  | AtStart | AfterSign | InInteger => InInteger
  | AfterPoint | InFraction => InFraction
  | AfterE | AfterExponentSign | InExponent => InExponent
  end.

Definition numeral_step (st : numeral_state) (c : ascii) : option numeral_state :=
  if is_digit c then Some (after_digit st)
  else if Ascii.eqb c "-" then
    match st with
    | AtStart => Some AfterSign
    | AfterE => Some AfterExponentSign
    | _ => None
    end
  else if Ascii.eqb c "+" then
    match st with
    | AfterE => Some AfterExponentSign
    | _ => None
    end
  else if Ascii.eqb c "." then
    match st with
    | InInteger => Some AfterPoint
    | _ => None
    end
  else if Ascii.eqb c "e" then
    match st with
    | InInteger | InFraction => Some AfterE
    | _ => None
    end
  else None.

Fixpoint numeral_from (st : numeral_state) (s : string) : bool :=
  match s with
  | EmptyString =>
      match st with
      | InInteger | InFraction | InExponent => true
      | _ => false
      end
  | String c s' =>
      match numeral_step st c with
      | Some st' => numeral_from st' s'
      | None => false
      end
  end.

Definition decimal_text (s : string) : bool := numeral_from AtStart s.

Fixpoint all_digits (s : string) : bool :=
  match s with
  | EmptyString => true
  | String c s' => (is_digit c && all_digits s')%bool
  end.

(** The flag [k] of a human evaluation is set. *)
Definition flag (human_eval_data : pydict) (k : string) : bool :=
  truthy (dict_get human_eval_data k (PBool false)).

(** The request carries no updated labels: none at all, or an empty dict. *)
Definition without_labels (validation : ValidationRequest.t) : bool :=
  match ValidationRequest.updated_labels validation with
  | Some (_ :: _) => false
  | _ => true
  end.

(** The request with another decision. *)
Definition with_decision (validation : ValidationRequest.t) (d : ValidationDecision)
  : ValidationRequest.t :=
  ValidationRequest.mk (ValidationRequest.updated_labels validation) d
    (ValidationRequest.corrections_made validation).

(** ** An in-memory warehouse

    A warehouse to run the service on: two tables held as lists, string
    literals read as standard SQL reads them, and statements that raise
    when the warehouse is offline, when their table does not exist, or when
    a literal does not have the type of its column. *)

Module Memory.

Record t : Type := mk {
  online : bool;
  source : list Row.t;                          (* BACKEND_DATA_TABLE *)
  evaluation : option (list UpsertSource.t);    (* EVALUATION_TABLE; [None]: not created *)
  recommendations : bool                        (* the recommendations table exists *)
}.

(** The text after the opening quote of a string literal, up to its
    closing quote, with doubled quotes read as one. *)
Fixpoint unquote (s : string) : option string :=
  match s with
  | EmptyString => None
  | String "'" EmptyString => Some EmptyString
  | String "'" (String "'" rest) => option_map (String "'") (unquote rest)
  | String "'" _ => None
  | String c rest => option_map (String c) (unquote rest)
  end.

(** A literal of a STRING column; [Some None] is NULL. *)
Definition string_literal (text : string) : option (option string) :=
  if String.eqb text "NULL" then Some None
  else
    match text with
    | String "'" rest => option_map Some (unquote rest)
    | _ => None
    end.

Definition bool_literal (text : string) : option (option bool) :=
  if String.eqb text "NULL" then Some None
  else if String.eqb text "TRUE" then Some (Some true)
  else if String.eqb text "FALSE" then Some (Some false)
  else None.

Definition int_literal (text : string) : option (option Z) :=
  if String.eqb text "NULL" then Some None
  else option_map (fun d => Some (Z.of_int d)) (NilZero.int_of_string text).

Definition to_cell {A : Type} (x : option A) : cell A :=
  match x with
  | Some a => Val a
  | None => Null
  end.

(** The row an evaluation query returns for a stored row; [None] when a
    literal does not fit its column. *)
Definition decode (r : UpsertSource.t) : option EvalRow.t :=
  match string_literal (UpsertSource.survey_response_id r),
        string_literal (UpsertSource.question_label r),
        string_literal (UpsertSource.question_response r),
        bool_literal (UpsertSource.human_eval_profane r),
        string_literal (UpsertSource.human_eval_rewritten_comment r),
        bool_literal (UpsertSource.human_eval_irrelevant r),
        string_literal (UpsertSource.human_eval_overall_sentiment_label r),
        int_literal (UpsertSource.human_eval_overall_sentiment_score r),
        string_literal (UpsertSource.human_eval_category_sentiments r) with
  | Some rid, Some ql, Some qr, Some p, Some rc, Some i, Some l, Some s, Some cs =>
      Some (EvalRow.mk (to_cell rid) (to_cell ql) (to_cell qr) (to_cell p) (to_cell rc)
              (to_cell i) (to_cell l) (to_cell s) (to_cell cs))
  | _, _, _, _, _, _, _, _, _ => None
  end.

Definition same_key (review_id : string) (r : UpsertSource.t) : bool :=
  String.eqb (UpsertSource.survey_response_id r) ("'" ++ review_id ++ "'").

Definition select_evaluation (review_id : string) (m : t) : option (list EvalRow.t) :=
  if online m then
    match evaluation m with
    | Some rows =>
        Some (flat_map (fun r => match decode r with Some e => [e] | None => [] end)
                (filter (same_key review_id) rows))
    | None => None
    end
  else None.

(** ORDER BY, ascending with NULL first. *)
Definition cell_compare (a b : cell string) : comparison :=
  match get a, get b with
  | None, None => Eq
  | None, Some _ => Lt
  | Some _, None => Gt
  | Some x, Some y => String.compare x y
  end.

Definition row_leb (a b : Row.t) : bool :=
  match cell_compare (Row.comment_category a) (Row.comment_category b) with
  | Lt => true
  | Gt => false
  | Eq =>
      match cell_compare (Row.comment_subcategory a) (Row.comment_subcategory b) with
      | Gt => false
      | _ => true
      end
  end.

Fixpoint insert_row (r : Row.t) (sorted : list Row.t) : list Row.t :=
  match sorted with
  | [] => [r]
  | x :: rest => if row_leb r x then r :: sorted else x :: insert_row r rest
  end.

Definition order_rows (rows : list Row.t) : list Row.t :=
  fold_right insert_row [] rows.

Definition select_source (review_id : string) (m : t) : option (list Row.t) :=
  if online m then
    Some (order_rows
            (filter (fun row =>
                       match Row.response_id row with
                       | Val s => String.eqb s review_id
                       | _ => false
                       end) (source m)))
  else None.

Definition describe_table (tb : table) (m : t) : bool :=
  (online m &&
   match tb with
   | EVALUATION_TABLE => match evaluation m with Some _ => true | None => false end
   | RECOMMENDATIONS_TABLE => recommendations m
   end)%bool.

Definition create_table (tb : table) (m : t) : option t :=
  if (online m && negb (describe_table tb m))%bool then
    Some (match tb with
          | EVALUATION_TABLE => mk (online m) (source m) (Some []) (recommendations m)
          | RECOMMENDATIONS_TABLE => mk (online m) (source m) (evaluation m) true
          end)
  else None.

(** WHEN MATCHED THEN UPDATE SET: the columns the statement lists. *)
Definition update_matched (target src : UpsertSource.t) : UpsertSource.t :=
  UpsertSource.mk
    (UpsertSource.evaluation_hash_key target)
    (UpsertSource.survey_response_id target)
    (UpsertSource.question_label target)
    (UpsertSource.question_response target)
    (UpsertSource.response_relevancy src)
    (UpsertSource.overall_sentiment_label src)
    (UpsertSource.overall_sentiment_score src)
    (UpsertSource.category_subcategory_list src)
    (UpsertSource.human_eval_profane src)
    (UpsertSource.human_eval_rewritten_comment src)
    (UpsertSource.human_eval_irrelevant src)
    (UpsertSource.human_eval_overall_sentiment_label src)
    (UpsertSource.human_eval_overall_sentiment_score src)
    (UpsertSource.human_eval_category_sentiments src)
    (UpsertSource.machine_eval_profane target)
    (UpsertSource.machine_eval_rewritten_comment target)
    (UpsertSource.machine_eval_irrelevant target)
    (UpsertSource.machine_eval_overall_sentiment_label target)
    (UpsertSource.machine_eval_overall_sentiment_score target)
    (UpsertSource.machine_eval_category_sentiments target)
    (UpsertSource.human_eval_pricing src)
    (UpsertSource.human_eval_other src)
    (UpsertSource.human_eval_food_experience src)
    (UpsertSource.human_eval_wait_time src)
    (UpsertSource.human_eval_service src)
    (UpsertSource.human_eval_cleanliness src)
    (UpsertSource.human_eval_ambiance src)
    (UpsertSource.store_key target)
    (UpsertSource.visit_datetime target)
    (UpsertSource.evaluation_model src).

Definition matches (src target : UpsertSource.t) : bool :=
  String.eqb (UpsertSource.survey_response_id target) (UpsertSource.survey_response_id src).

Definition merge_evaluation (src : UpsertSource.t) (m : t) : option t :=
  match online m, evaluation m, decode src with
  | true, Some rows, Some _ =>
      let rows' :=
        if existsb (matches src) rows
        then map (fun target => if matches src target then update_matched target src
                                else target) rows
        else (rows ++ [src])%list in
      Some (mk (online m) (source m) (Some rows') (recommendations m))
  | _, _, _ => None
  end.

End Memory.

#[global] Instance memory_warehouse : Warehouse Memory.t := {
  client_available := Memory.online;
  select_evaluation := Memory.select_evaluation;
  select_source := Memory.select_source;
  describe_table := Memory.describe_table;
  create_table := Memory.create_table;
  merge_evaluation := Memory.merge_evaluation
}.

(** A row of the evaluation table, without category sentiments. *)
Definition sample_eval_row : EvalRow.t :=
  EvalRow.mk (Val "R100") (Val "COMMENT") (Val "Great steak, slow service")
    (Val false) Null (Val false) (Val "Positive") (Val 4) Null.

(** A runtime to run the service on: digests and JSON texts are kept
    symbolic, and no string parses as a number or as JSON. *)
Definition symbolic_runtime : PyRuntime := {|
  sha256_hexdigest := fun s => "sha256:" ++ s;
  object_str := fun _ => "<object>";
  float_trunc := fun _ => None;
  int_of_str := fun _ => None;
  float_of_int := fun _ => None;
  float_of_str := fun _ => None;
  json_dumps := fun _ => Some "<json>";
  json_loads := fun _ => None;
  coerce_str := fun _ => None
|}.

(** ** Sample worlds and requests *)

(** A source row of review "R300", classified as nonsense. *)
Definition nonsense_row : Row.t :=
  Row.mk (Val "R300") (Val "COMMENT") (Val "asdf qwerty")
    (Val "nonsense or irrelevant") (Val false) Null (Val "Neutral") (Val 3)
    (Val "Other") (Val "Neutral") (Val 0.0%float)
    (Val "Other") (Val "Neutral") (Val 0.0%float)
    (Val "STORE_007") (Val 1700000500).

(** A warehouse with three source rows, the evaluation table not yet
    created, and no mock data in the process. *)
Definition sample_world : world Memory.t :=
  mkWorld
    (Memory.mk true
       [sample_row "Service" (-0.75)%float; nonsense_row; sample_row "Food" 0.8%float]
       None false)
    [] [].

Definition request (decision : ValidationDecision) : ValidationRequest.t :=
  ValidationRequest.mk None decision None.

(** * The listing endpoints, the mock data and the metrics *)

From Stdlib Require Import Lia.

(** ** routes/v1/reviews.py: grouping rows by response id

    The loop of [get_reviews] and [refresh_random_sample] that fills the
    dict [reviews_by_id]; the dict keeps its keys in insertion order. *)

(** [reviews_by_id[response_id].append(row)], with a new list for a new key. *)
Fixpoint add_to_group (response_id : string) (row : Row.t)
    (reviews_by_id : list (string * list Row.t)) : list (string * list Row.t) :=
  match reviews_by_id with
  | [] => [(response_id, [row])]
  | (k, grouped_rows) :: rest =>
      if String.eqb k response_id
      then (k, (grouped_rows ++ [row])%list) :: rest
      else (k, grouped_rows) :: add_to_group response_id row rest
  end.

Fixpoint group_loop (db_rows : list Row.t) (reviews_by_id : list (string * list Row.t))
  : result (list (string * list Row.t)) :=
  match db_rows with
  | [] => Ok reviews_by_id
  | row :: rest =>
      response_id <- response_id_str row ;;
      group_loop rest (add_to_group response_id row reviews_by_id)
  end.

Definition group_rows (db_rows : list Row.t) : result (list (string * list Row.t)) :=
  group_loop db_rows [].

(** The loop over [reviews_by_id.items()]: a group that does not convert
    is logged and left out. *)
Definition convert_groups (reviews_by_id : list (string * list Row.t))
  : list ReviewSummary.t :=
  flat_map
    (fun item =>
       match convert_flattened_rows_to_review (snd item) with
       | Ok review => [review]
       | Raise _ => []
       end)
    reviews_by_id.

(** What the grouping loop keeps true of the dict, [seen] being the rows
    read so far: the keys are distinct, the list under a key holds the rows
    of that response id in the order they were read, and an id without a
    key has no row. *)
Definition grouped (seen : list Row.t) (groups : list (string * list Row.t)) : Prop :=
  NoDup (map fst groups) /\
  (forall k g, In (k, g) groups -> g = filter (same_response k) seen /\ g <> []) /\
  (forall k, ~ In k (map fst groups) -> filter (same_response k) seen = []).

(** Sample rows of two reviews, interleaved, the second review with a NULL
    score in its only row. *)
Definition interleaved_rows : list Row.t :=
  [sample_row "Service" (-0.75)%float; null_score_row; nonsense_row;
   sample_row "Food" 0.8%float].

(** ** mock_data.py: get_mock_reviews, get_mock_metrics *)

(** [status.value]. *)
Definition status_value (s : ReviewStatus) : string :=
  match s with
  | RANDOM_SAMPLE => "random_sample"
  | COMPLETED => "completed"
  | RECOMMENDED => "recommended"
  end.

Definition status_eqb (a b : ReviewStatus) : bool :=
  match a, b with
  | RANDOM_SAMPLE, RANDOM_SAMPLE | COMPLETED, COMPLETED | RECOMMENDED, RECOMMENDED => true
  | _, _ => false
  end.

(** The place in a list of length [len] that a slice bound [i] stands
    for: a negative bound counts from the end, and bounds outside the list
    are brought back to its ends. *)
Definition slice_index (len i : Z) : Z :=
  if i <? 0 then Z.max (i + len) 0 else Z.min i len.

(** [l[start:stop]]. *)
Definition py_slice {A : Type} (l : list A) (start stop : Z) : list A :=
  let len := Z.of_nat (List.length l) in
  let a := slice_index len start in
  let b := slice_index len stop in
  firstn (Z.to_nat (b - a)) (skipn (Z.to_nat a) l).

Definition review_status (r : ReviewDetail.t) : ReviewStatus :=
  ReviewSummary.status (ReviewDetail.summary r).

Definition get_mock_reviews (reviews : list ReviewDetail.t) (limit offset : Z)
    (status : string) : list ReviewDetail.t :=
  let filtered_reviews :=
    filter (fun r => String.eqb (status_value (review_status r)) status) reviews in
  py_slice filtered_reviews offset (offset + limit).

Module MetricsOverview.
Record t : Type := mk {
  total_random_sample : Z;
  completed_today : Z;
  recommended_reviews : Z;
  total_reviews : Z;
  average_accuracy : float;
  corrections_per_review : float
}.
End MetricsOverview.

(** [len([r for r in reviews if r.status == status])]. *)
Definition count_status (status : ReviewStatus) (reviews : list ReviewDetail.t) : Z :=
  Z.of_nat (List.length (filter (fun r => status_eqb (review_status r) status) reviews)).

Definition get_mock_metrics (reviews : list ReviewDetail.t) : MetricsOverview.t :=
  MetricsOverview.mk
    (count_status RANDOM_SAMPLE reviews)
    (count_status COMPLETED reviews)
    (count_status RECOMMENDED reviews)
    (Z.of_nat (List.length reviews))
    0.87%float
    2.3%float.

(** ** The listing queries

    The two listing statements of [databricks_client.py], by what they ask
    of the warehouse; [None] when the statement raises.  The sample is
    ordered by RAND(): what one execution of the statement draws is an
    argument of that execution, [rand], so that two executions on the same
    tables need not return the same rows. *)
Class Listing (W : Type) : Type := {
  (** the statement of [query_reviews_table] under the draw [rand]: the
      flattened rows of a random sample of [limit] response ids after
      [offset], without the evaluated ones when [exclude_validated] is set *)
  select_reviews : Z -> Z -> Z -> bool -> W -> option (list Row.t);
  (** the statement of [query_completed_reviews]: [limit] rows of the
      evaluation table after [offset], latest first *)
  select_completed : Z -> Z -> W -> option (list EvalRow.t)
}.

Section Listings.
Context {rt : PyRuntime} {W : Type} {wh : Warehouse W} {ls : Listing W}.

(** [query_reviews_table]; the statement does not mention [status_filter],
    and [rand] is what RAND() draws in this call. *)
Definition query_reviews_table (rand : Z) (limit offset : Z)
    (status_filter : option string) (exclude_validated : bool) (w : W)
  : result (list Row.t) :=
  if negb (client_available w) then Raise client_unavailable
  else
    match select_reviews rand limit offset exclude_validated w with
    | Some results => Ok results
    | None => Raise query_failed
    end.

Definition query_completed_reviews (limit offset : Z) (w : W) : result (list EvalRow.t) :=
  if negb (client_available w) then Raise client_unavailable
  else
    match select_completed limit offset w with
    | Some results => Ok results
    | None => Raise query_failed
    end.

(** [[r for r in reviews if r.store_id == store_id]] under [if store_id]. *)
Definition filter_store (store_id : option string) (reviews : list ReviewSummary.t)
  : list ReviewSummary.t :=
  if truthy_str store_id then
    filter (fun r =>
              match ReviewSummary.store_id r with
              | Some s => String.eqb s (str_of store_id)
              | None => false
              end) reviews
  else reviews.

(** The loop over the rows of the evaluation table: a row that does not
    convert is logged and left out. *)
Definition convert_completed_rows (db_rows : list EvalRow.t) : list ReviewSummary.t :=
  flat_map
    (fun row =>
       match convert_completed_review_to_summary row with
       | Ok review => [review]
       | Raise _ => []
       end)
    db_rows.

(** The mock listing, which is the answer in mock mode and the fallback
    after an exception. *)
Definition mock_listing (status : string) (limit offset : Z) (store_id : option string)
    (w : world W) : list ReviewSummary.t :=
  filter_store store_id
    (map ReviewDetail.summary (get_mock_reviews (mock_reviews w) limit offset status)).

(** ** routes/v1/reviews.py: get_reviews

    [rand] is what RAND() draws if the request reaches the sample query. *)
Definition get_reviews (rand : Z) (status : string) (limit offset : Z)
    (store_id : option string) (use_databricks : bool) (w : world W)
  : list ReviewSummary.t :=
  if negb use_databricks then mock_listing status limit offset store_id w
  else if String.eqb status "completed" then
    match query_completed_reviews limit offset (warehouse w) with
    | Ok db_rows => filter_store store_id (convert_completed_rows db_rows)
    | Raise _ => mock_listing status limit offset store_id w
    end
  else if String.eqb status "recommended" then []
  else
    let exclude_validated := String.eqb status "random_sample" in
    match query_reviews_table rand limit offset (Some status) exclude_validated
            (warehouse w) with
    | Ok db_rows =>
        match group_rows db_rows with
        | Ok reviews_by_id => filter_store store_id (convert_groups reviews_by_id)
        | Raise _ => mock_listing status limit offset store_id w
        end
    | Raise _ => mock_listing status limit offset store_id w
    end.

(** ** routes/v1/reviews.py: refresh_random_sample

    The answer is its [sample_size]; [success] is always true.  [rand] is
    what RAND() draws in the sample query of this request. *)
Definition refresh_random_sample (rand : Z) (limit : Z) (use_databricks : bool)
    (w : world W) : result Z :=
  if negb use_databricks then
    Ok (Z.of_nat (List.length (get_mock_reviews (mock_reviews w) limit 0 "random_sample")))
  else
    match (db_rows <- query_reviews_table rand limit 0 None true (warehouse w) ;;
           reviews_by_id <- group_rows db_rows ;;
           Ok (Z.of_nat (List.length (convert_groups reviews_by_id)))) with
    | Ok sample_size => Ok sample_size
    | Raise e =>
        Raise (HTTPException 500 "Failed to generate new random sample: " (Some e))
    end.

End Listings.

(** ** The listing queries on the in-memory warehouse

    The draw [rand] orders the response ids by turning the list of the
    table's ids by [rand] places; a negative LIMIT or OFFSET is refused. *)

Module MemoryListing.

Definition row_id (row : Row.t) : option string := get (Row.response_id row).

Fixpoint distinct (ids : list string) : list string :=
  match ids with
  | [] => []
  | k :: rest => k :: filter (fun k' => negb (String.eqb k' k)) (distinct rest)
  end.

Definition row_leb (a b : Row.t) : bool :=
  match Memory.cell_compare (Row.response_id a) (Row.response_id b) with
  | Lt => true
  | Gt => false
  | Eq => Memory.row_leb a b
  end.

Fixpoint insert_row (r : Row.t) (sorted : list Row.t) : list Row.t :=
  match sorted with
  | [] => [r]
  | x :: rest => if row_leb r x then r :: sorted else x :: insert_row r rest
  end.

(** The ids in the order that the draw gives them. *)
Definition drawn (rand : Z) (ids : list string) : list string :=
  let n := Z.to_nat (rand mod Z.of_nat (List.length ids)) in
  (skipn n ids ++ firstn n ids)%list.

Definition select_reviews (rand : Z) (limit offset : Z) (exclude_validated : bool)
    (m : Memory.t) : option (list Row.t) :=
  if (Memory.online m && (0 <=? limit) && (0 <=? offset))%bool then
    match (if exclude_validated then Memory.evaluation m else Some []) with
    | None => None
    | Some evaluated =>
        let ids :=
          distinct
            (flat_map (fun row => match row_id row with Some k => [k] | None => [] end)
               (Memory.source m)) in
        let pending :=
          filter (fun k => negb (existsb (Memory.same_key k) evaluated)) ids in
        let chosen :=
          firstn (Z.to_nat limit) (skipn (Z.to_nat offset) (drawn rand pending)) in
        Some (fold_right insert_row []
                (filter (fun row =>
                           match row_id row with
                           | Some k => existsb (String.eqb k) chosen
                           | None => false
                           end) (Memory.source m)))
    end
  else None.

Definition select_completed (limit offset : Z) (m : Memory.t) : option (list EvalRow.t) :=
  if (Memory.online m && (0 <=? limit) && (0 <=? offset))%bool then
    match Memory.evaluation m with
    | None => None
    | Some rows =>
        Some (flat_map (fun r => match Memory.decode r with Some e => [e] | None => [] end)
                (firstn (Z.to_nat limit) (skipn (Z.to_nat offset) (rev rows))))
    end
  else None.

End MemoryListing.

#[global] Instance memory_listing : Listing Memory.t := {
  select_reviews := MemoryListing.select_reviews;
  select_completed := MemoryListing.select_completed
}.

(** A warehouse with two reviews that are not evaluated, "R100" with a NULL
    score in its only row and "R300". *)
Definition two_pending_world : world Memory.t :=
  mkWorld (Memory.mk true [null_score_row; nonsense_row] (Some []) true) [] [].

(** The sample warehouse after review "R300" was accepted. *)
Definition evaluated_world : world Memory.t :=
  snd (validate_review (rt := symbolic_runtime) "R300" (request ACCEPT) true sample_world).

(** ** routes/v1/reviews.py: validate_review, the two dicts it prepares *)

(** [human_eval_data] as the endpoint first builds it from the review. *)
Definition human_eval_base (original : ReviewSummary.t) : pydict :=
  [ ("question_label", PStr (ReviewSummary.question_label original));
    ("question_response", PStr (ReviewSummary.question_response original));
    ("profane", PNone);
    ("rewritten_comment", PNone);
    ("irrelevant", PNone);
    ("overall_sentiment_label", PNone);
    ("overall_sentiment_score", PNone);
    ("category_sentiments", PList []);
    ("aspects", PDict []);
    ("store_id", py_of_str (ReviewSummary.store_id original));
    ("visit_datetime", py_of_datetime (ReviewSummary.created_at original)) ].

(** [machine_eval_data], the snapshot of the original predictions. *)
Definition machine_eval_snapshot (original : ReviewSummary.t) : pydict :=
  [ ("profane", PBool (ReviewSummary.profane original));
    ("rewritten_comment", py_of_str (ReviewSummary.rewritten_comment original));
    ("irrelevant", PBool false);
    ("overall_sentiment_label",
     py_of_str (ReviewSummary.overall_sentiment_label original));
    ("overall_sentiment_score",
     py_of_int (ReviewSummary.overall_sentiment_score original));
    ("category_sentiments", or_nil (ReviewSummary.category_sentiments original)) ].

(** The keys an override with labels assigns. *)
Definition override_keys : list string :=
  [ "irrelevant"; "profane"; "rewritten_comment"; "overall_sentiment_label";
    "overall_sentiment_score"; "category_sentiments" ].

(** A mock review after [review.validation_status = "validated"]. *)
Definition validated (review : ReviewDetail.t) : ReviewDetail.t :=
  ReviewDetail.mk (ReviewDetail.summary review) (Some "validated")
    (ReviewDetail.user_corrections review) (ReviewDetail.accuracy_score review).

(** A request that overrides the profanity flag only. *)
Definition override_request : ValidationRequest.t :=
  ValidationRequest.mk (Some [("profane", PBool true)]) OVERRIDE (Some 1).

(** The mock data at a fixed clock. *)
Definition mock_world : world Memory.t :=
  mkWorld (warehouse sample_world) (MOCK_REVIEWS (fun _ => 1700000000)) [].

Section Decision.
Context {rt : PyRuntime}.

(** The human evaluation of an accept, and of an override without labels:
    the six assignments on the dict the endpoint prepared. *)
Definition accepted_evaluation (original : ReviewSummary.t) : pydict :=
  let human_eval_data := human_eval_base original in
  let human_eval_data :=
    dict_set human_eval_data "irrelevant"
      (PBool (SentimentAnalysis.irrelevant (ReviewSummary.sentiment_analysis original))) in
  let human_eval_data :=
    dict_set human_eval_data "profane" (PBool (ReviewSummary.profane original)) in
  let human_eval_data :=
    dict_set human_eval_data "rewritten_comment"
      (py_of_str (ReviewSummary.rewritten_comment original)) in
  let human_eval_data :=
    dict_set human_eval_data "overall_sentiment_label"
      (py_of_str (ReviewSummary.overall_sentiment_label original)) in
  let human_eval_data :=
    dict_set human_eval_data "overall_sentiment_score"
      (py_of_int (ReviewSummary.overall_sentiment_score original)) in
  dict_set human_eval_data "category_sentiments"
    (or_nil (ReviewSummary.category_sentiments original)).

(** The branch on [validation.decision]: the human evaluation to write,
    [None] for a skip. *)
Definition decided_evaluation (validation : ValidationRequest.t)
    (original : ReviewSummary.t) : result (option pydict) :=
  match ValidationRequest.decision validation with
  | ACCEPT => Ok (Some (accepted_evaluation original))
  | OVERRIDE =>
      match ValidationRequest.updated_labels validation with
      | Some (kv :: labels) =>
          human_eval_data <-
            override_with_labels (kv :: labels) original (human_eval_base original) ;;
          Ok (Some human_eval_data)
      | _ => Ok (Some (accepted_evaluation original))
      end
  | SKIP => Ok None
  end.

End Decision.

(** The writer's call for a review. *)
Definition legacy_call (review_id : string) (human_eval_data machine_eval_data : pydict)
  : UpsertCall.t :=
  UpsertCall.mk review_id human_eval_data (Some machine_eval_data)
    "human_validation_v1_legacy".

Definition write_failed : exn :=
  HTTPException 500 "Failed to write evaluation to database" None.

(** ** Evaluation rows *)

(** The row with its [human_eval_category_sentiments] column NULL. *)
Definition without_sentiments (db_row : EvalRow.t) : EvalRow.t :=
  EvalRow.mk (EvalRow.response_id db_row) (EvalRow.question_label db_row)
    (EvalRow.question_response db_row) (EvalRow.profane db_row)
    (EvalRow.rewritten_comment db_row) (EvalRow.irrelevant db_row)
    (EvalRow.human_eval_overall_sentiment_label db_row)
    (EvalRow.human_eval_overall_sentiment_score db_row) Null.

(** The column is in the row. *)
Definition present {A : Type} (c : cell A) : bool :=
  match c with Absent => false | _ => true end.

(** The column is not NULL. *)
Definition not_null {A : Type} (c : cell A) : bool :=
  match c with Null => false | _ => true end.

(** An exception the inner [except] of the conversion swallows. *)
Definition swallowed (e : exn) : bool :=
  (is_ValueError e || match e with KeyError _ => true | _ => false end)%bool.

(** ** databricks_client.py: get_similar_reviews

    The vector search, by what the function asks of it. *)
Class VectorSearch : Type := {
  (** whether the import of the workspace client succeeded *)
  VECTOR_SEARCH_AVAILABLE : bool;
  (** [get_embeddings(text)] with the client available; [None] when it
      fails *)
  get_embeddings : string -> option (list float);
  (** the [data_array] of [query_index] on the review index for a query
      vector and a number of results: one list of column values per hit, in
      the order of the columns asked for; [None] when the client or the
      query raises, or when the result holds no array *)
  query_index : list float -> Z -> option (list (list pyval))
}.

(** [result[i] if len(result) > i else default]. *)
Definition column_or (result : list pyval) (i : nat) (default : pyval) : pyval :=
  nth i result default.

(** [result[i] if len(result) > i and result[i] != 'null' else None]. *)
Definition aspect_column (result : list pyval) (i : nat) : pyval :=
  match nth_error result i with
  | Some (PStr "null") => PNone
  | Some v => v
  | None => PNone
  end.

(** The dict appended for one hit. *)
Definition similar_entry (response_id : string) (result : list pyval) : pydict :=
  [ ("response_id", PStr response_id);
    ("question_response", column_or result 1 (PStr ""));
    ("question_label", column_or result 2 (PStr "COMMENT"));
    ("aspect_service", aspect_column result 3);
    ("aspect_food_and_beverage", aspect_column result 4);
    ("aspect_pricing", aspect_column result 5);
    ("aspect_ambiance", aspect_column result 6);
    ("aspect_cleanliness", aspect_column result 7);
    ("aspect_wait_time", aspect_column result 8);
    ("aspect_other", aspect_column result 9);
    ("sentiment_analysis", column_or result 10 PNone);
    ("similarity_score", PFloat 1.0%float) ].

Section SimilarReviews.
Context {rt : PyRuntime} {vs : VectorSearch}.

(** [exclude_response_id and response_id == exclude_response_id]. *)
Definition excluded (exclude_response_id : option string) (response_id : string) : bool :=
  (truthy_str exclude_response_id && String.eqb response_id (str_of exclude_response_id))%bool.

(** The loop over the hits; [None] when [result[0]] raises on a hit
    without columns. *)
Fixpoint collect_similar (data_array : list (list pyval)) (num_results : Z)
    (exclude_response_id : option string) (similar_reviews : list pydict)
  : option (list pydict) :=
  match data_array with
  | [] => Some similar_reviews
  | result :: rest =>
      match result with
      | [] => None
      | first :: _ =>
          let response_id := py_str first in
          if excluded exclude_response_id response_id then
            collect_similar rest num_results exclude_response_id similar_reviews
          else if Z.of_nat (List.length similar_reviews) >=? num_results then
            Some similar_reviews
          else
            collect_similar rest num_results exclude_response_id
              (similar_reviews ++ [similar_entry response_id result])
      end
  end.

Definition get_similar_reviews (query_text : string) (num_results : Z)
    (exclude_response_id : option string) : list pydict :=
  if negb VECTOR_SEARCH_AVAILABLE then []
  else
    match get_embeddings query_text with
    | None => []
    | Some query_vector =>
        match query_index query_vector
                (num_results + (if truthy_str exclude_response_id then 5 else 0)) with
        | None => []
        | Some data_array =>
            match collect_similar data_array num_results exclude_response_id [] with
            | Some similar_reviews => similar_reviews
            | None => []
            end
        end
    end.

(** The id of a hit and whether the loop keeps it. *)
Definition hit_id (result : list pyval) : string :=
  match result with
  | first :: _ => py_str first
  | [] => ""
  end.

Definition kept (exclude_response_id : option string) (result : list pyval) : bool :=
  negb (excluded exclude_response_id (hit_id result)).

Definition has_columns (result : list pyval) : bool :=
  match result with [] => false | _ => true end.

End SimilarReviews.

(** ** routes/v1/reviews.py: get_similar_reviews_for_review *)

(** A text is held as the bytes of its UTF-8 encoding; its characters
    are the code points those bytes encode.  [pending] bytes of a
    character are still to come and [acc] holds the bits read so far.  (A
    byte that no encoding of a text contains is taken as a character of its
    own.) *)
Fixpoint decode_utf8 (s : string) (pending : nat) (acc : N) : list N :=
  match s with
  | EmptyString => match pending with O => [] | S _ => [acc] end
  | String c s' =>
      let b := N_of_ascii c in
      match pending with
      | S p =>
          let acc' := (acc * 64 + N.land b 63)%N in
          match p with
          | O => acc' :: decode_utf8 s' O 0%N
          | S _ => decode_utf8 s' p acc'
          end
      | O =>
          if (b <? 128)%N then b :: decode_utf8 s' O 0%N
          else if ((192 <=? b) && (b <? 224))%N%bool then decode_utf8 s' 1 (N.land b 31)
          else if ((224 <=? b) && (b <? 240))%N%bool then decode_utf8 s' 2 (N.land b 15)
          else if ((240 <=? b) && (b <? 248))%N%bool then decode_utf8 s' 3 (N.land b 7)
          else b :: decode_utf8 s' O 0%N
      end
  end.

(** The characters of a text; [len(s)] is their number. *)
Definition code_points (s : string) : list N := decode_utf8 s O 0%N.

(** [c.isspace()] of one character: the whitespace of Unicode. *)
Definition is_space (c : N) : bool :=
  (((9 <=? c) && (c <=? 13)) || ((28 <=? c) && (c <=? 32))
   || (c =? 133) || (c =? 160) || (c =? 5760)
   || ((8192 <=? c) && (c <=? 8202)) || (c =? 8232) || (c =? 8233)
   || (c =? 8239) || (c =? 8287) || (c =? 12288))%N%bool.

Fixpoint lstrip (l : list N) : list N :=
  match l with
  | [] => []
  | c :: rest => if is_space c then lstrip rest else l
  end.

(** [s.strip()], on the characters of [s]. *)
Definition strip (l : list N) : list N := rev (lstrip (rev (lstrip l))).

(** The text of the given bytes. *)
Definition text_of_bytes (bytes : list Z) : string :=
  fold_right (fun b s => String (ascii_of_N (Z.to_N b)) s) EmptyString bytes.

(** [review.status = status]. *)
Definition set_status (review : ReviewSummary.t) (status : ReviewStatus)
  : ReviewSummary.t :=
  ReviewSummary.mk (ReviewSummary.response_id review) (ReviewSummary.question_label review)
    (ReviewSummary.question_response review) (ReviewSummary.relevant_comments review)
    (ReviewSummary.profanity_check review) (ReviewSummary.profane review)
    (ReviewSummary.rewritten_comment review) (ReviewSummary.sentiment_analysis review)
    (ReviewSummary.created_at review) (ReviewSummary.store_id review) status
    (ReviewSummary.overall_sentiment_label review)
    (ReviewSummary.overall_sentiment_score review)
    (ReviewSummary.category_sentiments review).

(** [d[k]] of a dict. *)
Definition subscript (d : pydict) (k : string) : result pyval :=
  match lookup d k with
  | Some v => Ok v
  | None => Raise (KeyError k)
  end.

Section SimilarEndpoint.
Context {rt : PyRuntime} {vs : VectorSearch} {W : Type} {wh : Warehouse W}.

(** [float(row[k]) if row.get(k) is not None else None]. *)
Definition aspect_float (row : pydict) (k : string) : result (option float) :=
  match dict_get row k PNone with
  | PNone => Ok None
  | _ =>
      v <- subscript row k ;;
      f <- py_float v ;;
      Ok (Some f)
  end.

(** A value of the index in a column that the conversion hands to a
    [str] field: the string pydantic makes of it, NULL for a value it
    refuses ([None] is one). *)
Definition field_cell (v : pyval) : cell string :=
  match str_field v with
  | Ok s => Val s
  | Raise _ => Null
  end.

(** The [db_row] built for one similar review, by the columns that the
    conversion reads: the id (read through [str]), the question label and
    text, [profane] and [rewritten_comment]; the seven aspect keys are
    evaluated and not read. *)
Definition similar_db_row (row : pydict) : result Row.t :=
  response_id <- subscript row "response_id" ;;
  let question_label := dict_get row "question_label" (PStr "COMMENT") in
  question_response <- subscript row "question_response" ;;
  _ <- aspect_float row "aspect_pricing" ;;
  _ <- aspect_float row "aspect_other" ;;
  _ <- aspect_float row "aspect_food_and_beverage" ;;
  _ <- aspect_float row "aspect_wait_time" ;;
  _ <- aspect_float row "aspect_service" ;;
  _ <- aspect_float row "aspect_cleanliness" ;;
  _ <- aspect_float row "aspect_ambiance" ;;
  Ok (Row.mk (Val (py_str response_id)) (field_cell question_label)
        (field_cell question_response) Absent (Val false) (Val "")
        Absent Absent Absent Absent Absent Absent Absent Absent Absent Absent).

(** The body of the loop's [try]. *)
Definition similar_review (row : pydict) : result ReviewSummary.t :=
  db_row <- similar_db_row row ;;
  review <- convert_databricks_to_review db_row ;;
  Ok (set_status review RECOMMENDED).

Definition convert_similar (similar_reviews_data : list pydict) : list ReviewSummary.t :=
  flat_map
    (fun row =>
       match similar_review row with
       | Ok review => [review]
       | Raise _ => []
       end)
    similar_reviews_data.

Definition get_similar_reviews_for_review (review_id : string) (limit : Z)
    (use_databricks : bool) (w : world W) : list ReviewSummary.t :=
  if negb use_databricks then []
  else
    match get_review_detail review_id true w with
    | Raise _ => []
    | Ok original_review =>
        let query_text :=
          ReviewSummary.question_response (ReviewDetail.summary original_review) in
        if (negb (truthy (PStr query_text))
            || (Z.of_nat (List.length (strip (code_points query_text))) <? 10))%bool
        then []
        else convert_similar (get_similar_reviews query_text limit (Some review_id))
    end.

End SimilarEndpoint.

(** ** databricks_client.py: get_metrics_data

    The four statements of the function, by what they ask of the
    warehouse; [None] when the statement raises. *)
Class MetricsQueries (W : Type) : Type := {
  (** the [total_count] column of the count of distinct response ids in
      the source table *)
  count_source : W -> option (list Z);
  (** the [eval_count] column of the count of distinct response ids in the
      evaluation table *)
  count_evaluated : W -> option (list Z);
  (** the join of the two tables: per row the original and the human
      overall score, [None] for NULL *)
  select_comparisons : W -> option (list (option Z * option Z));
  (** the [recommended_count] column of the count of response ids with an
      extreme category or subcategory score *)
  count_recommended : W -> option (list Z)
}.

(** Float arithmetic of the runtime that the metrics use. *)
Class FloatArith : Type := {
  (** [a / b] of two ints, [b] not zero *)
  int_truediv : Z -> Z -> float;
  (** [round(x, ndigits)] *)
  py_round : float -> Z -> float
}.

(** [result[0][column] if result else 0]. *)
Definition first_count (result : list Z) : Z :=
  match result with
  | count :: _ => count
  | [] => 0
  end.

(** [int(x or 0)] of an int or [None]. *)
Definition int_or_zero (x : option Z) : Z :=
  match x with
  | Some z => z
  | None => 0
  end.

(** The loop over the compared rows: the predictions within one point of
    the human score, and the rows where the two scores differ. *)
Fixpoint accuracy_loop (accuracy_results : list (option Z * option Z))
    (accurate_predictions total_corrections : Z) : Z * Z :=
  match accuracy_results with
  | [] => (accurate_predictions, total_corrections)
  | row :: rest =>
      let orig_overall := int_or_zero (fst row) in
      let human_overall := int_or_zero (snd row) in
      let accurate_predictions :=
        if Z.abs (orig_overall - human_overall) <=? 1
        then accurate_predictions + 1 else accurate_predictions in
      let total_corrections :=
        if negb (orig_overall =? human_overall)
        then total_corrections + 1 else total_corrections in
      accuracy_loop rest accurate_predictions total_corrections
  end.

(** The values returned when the function fails. *)
Definition default_metrics : MetricsOverview.t :=
  MetricsOverview.mk 0 0 0 0 0.0%float 0.0%float.

Section Metrics.
Context {fa : FloatArith} {W : Type} {wh : Warehouse W} {mq : MetricsQueries W}.

(** The accuracy and the corrections per review, before rounding. *)
Definition accuracy_metrics (completed_total : Z) (w : W) : float * float :=
  if completed_total >? 0 then
    match select_comparisons w with
    | Some (row :: rows) =>
        let accuracy_results := row :: rows in
        let total_comparisons := Z.of_nat (List.length accuracy_results) in
        let (accurate_predictions, total_corrections) :=
          accuracy_loop accuracy_results 0 0 in
        (if total_comparisons >? 0
         then int_truediv accurate_predictions total_comparisons else 0.0%float,
         if completed_total >? 0
         then int_truediv total_corrections completed_total else 0.0%float)
    | _ => (0.0%float, 0.0%float)
    end
  else (0.0%float, 0.0%float).

Definition get_metrics_data (w : W) : result MetricsOverview.t :=
  if negb (client_available w) then Raise client_unavailable
  else
    match count_source w with
    | None => Ok default_metrics
    | Some source_result =>
        let total_reviews := first_count source_result in
        let total_random_sample := Z.min 20 total_reviews in
        let completed_total :=
          match count_evaluated w with
          | Some eval_result => first_count eval_result
          | None => 0
          end in
        let (average_accuracy, corrections_per_review) :=
          accuracy_metrics completed_total w in
        let recommended_count :=
          match count_recommended w with
          | Some recommended_result => first_count recommended_result
          | None => 0
          end in
        Ok (MetricsOverview.mk total_random_sample completed_total recommended_count
              total_reviews (py_round average_accuracy 2)
              (py_round corrections_per_review 1))
    end.

(** ** routes/v1/metrics.py: get_metrics_overview *)
Definition get_metrics_overview (use_databricks : bool) (w : world W) : MetricsOverview.t :=
  if negb use_databricks then get_mock_metrics (mock_reviews w)
  else
    match get_metrics_data (warehouse w) with
    | Ok metrics_data => metrics_data
    | Raise _ => get_mock_metrics (mock_reviews w)
    end.

End Metrics.

(** The two tests of the accuracy loop, on a compared row. *)
Definition within_one (row : option Z * option Z) : bool :=
  Z.abs (int_or_zero (fst row) - int_or_zero (snd row)) <=? 1.

Definition corrected (row : option Z * option Z) : bool :=
  negb (int_or_zero (fst row) =? int_or_zero (snd row)).

Definition count {A : Type} (p : A -> bool) (l : list A) : Z :=
  Z.of_nat (List.length (filter p l)).

(** * Properties *)

(** ** Results *)

Lemma is_ok_bind {A B : Type} (m : result A) (k : A -> result B) :
  is_ok (bind m k) = match m with Ok a => is_ok (k a) | Raise _ => false end.
Proof. destruct m; reflexivity. Qed.

Lemma is_ok_true {A : Type} (m : result A) :
  is_ok m = true -> exists a, m = Ok a.
Proof. destruct m; simpl; intros H; [eauto | discriminate]. Qed.

Lemma is_ok_conversion_error {A : Type} (m : result A) :
  is_ok (conversion_error m) = is_ok m.
Proof. destruct m; reflexivity. Qed.

Lemma conversion_error_ok {A : Type} (m : result A) (a : A) :
  conversion_error m = Ok a <-> m = Ok a.
Proof. destruct m; simpl; split; intros H; try discriminate; exact H. Qed.

(** ** Strings *)

Lemma prefix_occurs (p s : string) :
  String.prefix p s = true <-> exists post, s = p ++ post.
Proof.
  revert s; induction p as [|a p IH]; intros s.
  - split; [intros _; exists s; reflexivity | intros _; destruct s; reflexivity].
  - destruct s as [|b s]; simpl.
    + split; [discriminate | intros [post H]; discriminate].
    + destruct (ascii_dec a b) as [->|Hab].
      * rewrite IH. split; intros [post H]; exists post.
        -- now rewrite H.
        -- now inversion H.
      * split; [discriminate | intros [post H]; inversion H; congruence].
Qed.

Lemma contains_occurs (sub s : string) :
  contains sub s = true <-> occurs_in sub s.
Proof.
  unfold occurs_in. induction s as [|c s IH]; cbn [contains].
  - rewrite orb_false_r, prefix_occurs. split.
    + intros [post H]. exists "", post. exact H.
    + intros [pre [post H]]. destruct pre; simpl in H.
      * now exists post.
      * discriminate.
  - rewrite orb_true_iff, prefix_occurs, IH. split.
    + intros [[post H] | [pre [post H]]].
      * exists "", post. exact H.
      * exists (String c pre), post. simpl. now rewrite H.
    + intros [pre [post H]]. destruct pre as [|c' pre]; simpl in H.
      * left. now exists post.
      * right. inversion H. now exists pre, post.
Qed.

(** ** The row-grouping converter *)

Lemma response_id_str_cases (row : Row.t) :
  match Row.response_id row with
  | Absent => response_id_str row = Raise (KeyError "response_id")
  | c => response_id_str row = Ok (str_of (get c))
  end.
Proof. unfold response_id_str. destruct (Row.response_id row); reflexivity. Qed.

Lemma same_response_spec (response_id : string) (row : Row.t) :
  same_response response_id row
  = match response_id_str row with
    | Ok rid => String.eqb rid response_id
    | Raise _ => false
    end.
Proof. unfold same_response, response_id_str. destruct (Row.response_id row); reflexivity. Qed.

Lemma verify_same_response_is_ok (response_id : string) (db_rows : list Row.t) :
  is_ok (verify_same_response response_id db_rows)
  = forallb (same_response response_id) db_rows.
Proof.
  induction db_rows as [|row rest IH]; [reflexivity|].
  cbn [verify_same_response forallb]. rewrite same_response_spec.
  destruct (response_id_str row) as [rid|]; cbn [bind]; [|reflexivity].
  destruct (String.eqb rid response_id); [exact IH | reflexivity].
Qed.

Lemma verify_same_response_error (response_id : string) (db_rows : list Row.t) :
  forallb has_response_id db_rows = true ->
  forallb (same_response response_id) db_rows = false ->
  exists row,
    In row db_rows /\
    str_of (get (Row.response_id row)) <> response_id /\
    verify_same_response response_id db_rows
    = Raise (ValueError ("Mixed response IDs in rows: " ++ response_id ++ " vs "
                         ++ str_of (get (Row.response_id row)))).
Proof.
  induction db_rows as [|row rest IH]; [discriminate|].
  cbn [verify_same_response forallb]. rewrite same_response_spec.
  intros Hkeys Hdiff. apply andb_prop in Hkeys as [Hkey Hkeys].
  pose proof (response_id_str_cases row) as Hrow. unfold has_response_id in Hkey.
  assert (Hstr : response_id_str row = Ok (str_of (get (Row.response_id row)))).
  { destruct (Row.response_id row); [discriminate | exact Hrow | exact Hrow]. }
  rewrite Hstr in *. cbn [bind].
  destruct (String.eqb (str_of (get (Row.response_id row))) response_id) eqn:E.
  - destruct (IH Hkeys Hdiff) as [r [Hin [Hne Hr]]].
    exists r. split; [now right | split; [exact Hne | exact Hr]].
  - exists row. split; [now left | split; [| reflexivity]].
    intros H. rewrite H, String.eqb_refl in E. discriminate.
Qed.

Lemma row_sentiment_is_ok (row : Row.t) :
  has_category row = true ->
  is_ok (row_sentiment row) = sentiment_readable row.
Proof.
  unfold has_category, row_sentiment, sentiment_readable, new_CategorySentiment.
  intros H. apply andb_prop in H as [Hc Hs].
  destruct (Row.comment_category row) as [| |c]; try discriminate.
  destruct (Row.comment_subcategory row) as [| |s]; try discriminate.
  destruct (Row.category_sentiment_score row), (Row.subcategory_sentiment_score row),
    (Row.category_sentiment_label row), (Row.subcategory_sentiment_label row);
    reflexivity.
Qed.

Lemma row_sentiment_entry (row : Row.t) (e : CategorySentiment.t) :
  row_sentiment row = Ok e -> entry_of_row row e.
Proof.
  unfold row_sentiment, new_CategorySentiment, entry_of_row.
  destruct (Row.comment_category row), (Row.comment_subcategory row),
    (Row.category_sentiment_score row), (Row.subcategory_sentiment_score row),
    (Row.category_sentiment_label row), (Row.subcategory_sentiment_label row);
    cbn; intros H; try discriminate; injection H as <-; cbn; repeat split.
Qed.

Lemma build_category_sentiments_is_ok (db_rows : list Row.t) :
  is_ok (build_category_sentiments db_rows)
  = forallb (fun row => implb (has_category row) (sentiment_readable row)) db_rows.
Proof.
  induction db_rows as [|row rest IH]; [reflexivity|].
  cbn [build_category_sentiments forallb].
  destruct (has_category row) eqn:Hc; cbn [implb]; [|exact IH].
  rewrite is_ok_bind, <- (row_sentiment_is_ok row Hc).
  destruct (row_sentiment row); cbn [is_ok andb]; [|reflexivity].
  rewrite is_ok_bind. destruct (build_category_sentiments rest); exact IH.
Qed.

Lemma build_category_sentiments_entries (db_rows : list Row.t)
    (l : list CategorySentiment.t) :
  build_category_sentiments db_rows = Ok l ->
  Forall2 entry_of_row (filter has_category db_rows) l.
Proof.
  revert l; induction db_rows as [|row rest IH]; intros l; cbn [build_category_sentiments filter].
  - intros H; injection H as <-. constructor.
  - destruct (has_category row); [|apply IH].
    destruct (row_sentiment row) as [e|] eqn:He; cbn [bind]; [|discriminate].
    destruct (build_category_sentiments rest) as [tl|]; cbn [bind]; [|discriminate].
    intros H; injection H as <-. constructor; [now apply row_sentiment_entry | now apply IH].
Qed.

Lemma shared_fields_is_ok (first_row : Row.t) (k : string -> string -> string -> string -> ReviewSummary.t) :
  is_ok (response_relevancy <- relevancy_lower first_row ;;
         ql <- required_str (get_or "COMMENT" (Row.question_label first_row)) ;;
         qr <- required_str (get_or "" (Row.question_response first_row)) ;;
         rc <- required_str (get_or "" (Row.question_response first_row)) ;;
         Ok (k response_relevancy ql qr rc))
  = shared_readable first_row.
Proof.
  unfold relevancy_lower, shared_readable.
  destruct (Row.response_relevancy first_row), (Row.question_label first_row),
    (Row.question_response first_row); reflexivity.
Qed.

Lemma convert_body_is_ok_from (first_row : Row.t) (rest : list Row.t) (rid : string) :
  response_id_str first_row = Ok rid ->
  is_ok (convert_flattened_rows_body (first_row :: rest))
  = (forallb (same_response rid) (first_row :: rest) && readable (first_row :: rest))%bool.
Proof.
  intros Hrid. unfold convert_flattened_rows_body, readable.
  rewrite Hrid. cbn [bind]. rewrite is_ok_bind.
  rewrite <- verify_same_response_is_ok.
  destruct (verify_same_response rid (first_row :: rest)); cbn [is_ok andb]; [|reflexivity].
  rewrite is_ok_bind, <- build_category_sentiments_is_ok.
  destruct (build_category_sentiments (first_row :: rest)) as [l|]; cbn [is_ok andb];
    [|reflexivity].
  unfold new_ReviewSummary. apply shared_fields_is_ok with
    (k := fun rel ql qr rc => ReviewSummary.mk _ ql qr rc _ _ _
            (SentimentAnalysis.mk (contains "irrelevant" rel || contains "nonsense" rel) _ _)
            _ _ _ _ _ _).
Qed.

Lemma convert_body_is_ok (first_row : Row.t) (rest : list Row.t) :
  is_ok (convert_flattened_rows_body (first_row :: rest))
  = (shares_response_id (first_row :: rest) && readable (first_row :: rest))%bool.
Proof.
  pose proof (response_id_str_cases first_row) as Hrid.
  unfold shares_response_id.
  destruct (Row.response_id first_row) as [| |s] eqn:Hcell.
  - unfold convert_flattened_rows_body. rewrite Hrid. reflexivity.
  - now apply convert_body_is_ok_from.
  - now apply convert_body_is_ok_from.
Qed.

Lemma convert_body_inv (first_row : Row.t) (rest : list Row.t) (r : ReviewSummary.t) :
  convert_flattened_rows_body (first_row :: rest) = Ok r ->
  exists rid l rel ql qr,
    response_id_str first_row = Ok rid /\
    build_category_sentiments (first_row :: rest) = Ok l /\
    relevancy_lower first_row = Ok rel /\
    get_or "COMMENT" (Row.question_label first_row) = Some ql /\
    get_or "" (Row.question_response first_row) = Some qr /\
    r = ReviewSummary.mk rid ql qr qr true
          (bool_of (get_or false (Row.profane first_row)))
          (Some (or_empty (get (Row.rewritten_comment first_row))))
          (SentimentAnalysis.mk
             (contains "irrelevant" rel || contains "nonsense" rel) None (Some l))
          (get (Row.visit_datetime first_row))
          (get (Row.store_key first_row))
          (if existsb extreme_sentiment l then RECOMMENDED else RANDOM_SAMPLE)
          (get (Row.overall_sentiment_label first_row))
          (get (Row.overall_sentiment_score first_row))
          (Some l).
Proof.
  unfold convert_flattened_rows_body, new_ReviewSummary.
  destruct (response_id_str first_row) as [rid|]; cbn [bind]; [|discriminate].
  destruct (verify_same_response rid (first_row :: rest)); cbn [bind]; [|discriminate].
  destruct (build_category_sentiments (first_row :: rest)) as [l|]; cbn [bind]; [|discriminate].
  destruct (relevancy_lower first_row) as [rel|]; cbn [bind]; [|discriminate].
  destruct (get_or "COMMENT" (Row.question_label first_row)) as [ql|]; cbn [bind required_str];
    [|discriminate].
  destruct (get_or "" (Row.question_response first_row)) as [qr|]; cbn [bind required_str];
    [|discriminate].
  intros H; injection H as <-. exists rid, l, rel, ql, qr. repeat split.
Qed.

(** C1 (as amended): for every non-empty list of flattened rows that share
    one response id and hold no NULL in a field the conversion reads as a
    number or as text, [convert_flattened_rows_to_review] returns one
    [ReviewSummary]; its sentiment list has one entry per row with a
    non-empty category and a non-empty subcategory, in input order, rows
    lacking either contribute none, and the shared fields (response id,
    question label and response, profanity, rewritten comment, store,
    overall sentiment, timestamp) are those of the first row. *)
Theorem convert_flattened_rows_summary (first_row : Row.t) (rest : list Row.t) :
  shares_response_id (first_row :: rest) = true ->
  readable (first_row :: rest) = true ->
  exists r,
    convert_flattened_rows_to_review (first_row :: rest) = Ok r /\
    ReviewSummary.category_sentiments r = Some (entries r) /\
    SentimentAnalysis.category_sentiments (ReviewSummary.sentiment_analysis r)
      = Some (entries r) /\
    Forall2 entry_of_row (filter has_category (first_row :: rest)) (entries r) /\
    List.length (entries r) = List.length (filter has_category (first_row :: rest)) /\
    ReviewSummary.response_id r = str_of (get (Row.response_id first_row)) /\
    get_or "COMMENT" (Row.question_label first_row)
      = Some (ReviewSummary.question_label r) /\
    get_or "" (Row.question_response first_row)
      = Some (ReviewSummary.question_response r) /\
    ReviewSummary.relevant_comments r = ReviewSummary.question_response r /\
    ReviewSummary.profanity_check r = true /\
    ReviewSummary.profane r = bool_of (get_or false (Row.profane first_row)) /\
    ReviewSummary.rewritten_comment r
      = Some (or_empty (get (Row.rewritten_comment first_row))) /\
    ReviewSummary.store_id r = get (Row.store_key first_row) /\
    ReviewSummary.overall_sentiment_label r
      = get (Row.overall_sentiment_label first_row) /\
    ReviewSummary.overall_sentiment_score r
      = get (Row.overall_sentiment_score first_row) /\
    ReviewSummary.created_at r = get (Row.visit_datetime first_row).
Proof.
  intros Hshare Hread.
  assert (Hok : is_ok (convert_flattened_rows_body (first_row :: rest)) = true)
    by (rewrite convert_body_is_ok, Hshare, Hread; reflexivity).
  apply is_ok_true in Hok as [r Hr]. exists r.
  unfold convert_flattened_rows_to_review. rewrite Hr. split; [reflexivity|].
  destruct (convert_body_inv _ _ _ Hr) as (rid & l & rel & ql & qr & Hrid & Hl & Hrel & Hql & Hqr & ->).
  unfold entries. cbn.
  pose proof (build_category_sentiments_entries _ _ Hl) as Hent.
  repeat split; try assumption.
  - symmetry. exact (Forall2_length Hent).
  - pose proof (response_id_str_cases first_row) as Hc.
    destruct (Row.response_id first_row); congruence.
Qed.

(** The theorem at a group of two rows with the same response id. *)
Lemma convert_flattened_rows_summary_witness :
  exists r,
    convert_flattened_rows_to_review
      [sample_row "Food" 0.8%float; sample_row "" 0.9%float] = Ok r /\
    List.length (entries r) = 1%nat.
Proof.
  destruct (convert_flattened_rows_summary
              (sample_row "Food" 0.8%float) [sample_row "" 0.9%float]
              eq_refl eq_refl)
    as (r & Hr & _ & _ & _ & Hlen & _).
  exists r. split; [exact Hr | exact Hlen].
Defined.

(** C1 as stated fails: a single row (hence a non-empty group sharing one
    response id) with a category, a subcategory and a NULL category
    sentiment score makes the conversion raise instead of returning a
    summary. *)
Lemma convert_flattened_rows_null_score_raises :
  [null_score_row] <> [] /\
  shares_response_id [null_score_row] = true /\
  has_category null_score_row = true /\
  convert_flattened_rows_to_review [null_score_row]
  = Raise (HTTPException 500 "Data conversion error: " (Some TypeError)).
Proof. repeat split; discriminate. Qed.

(** C8 (as amended): the row-group conversion fails exactly when the input
    list is empty, or some row lacks the response id or carries one that
    differs from the first row's, or a field the conversion reads as a
    number or as text is NULL (the scores and labels of a row with a
    category and a subcategory; the relevancy, question label and question
    response of the first row).  The failure is an HTTP 500 whose cause is
    the "No rows provided" error for the empty list and the "Mixed response
    IDs" error for rows that all have a response id of which one differs.
    Every non-empty group that shares one response id and has none of the
    NULLs above converts without error. *)
Theorem convert_flattened_rows_failures (db_rows : list Row.t) :
  (is_ok (convert_flattened_rows_to_review db_rows) = false <->
   db_rows = [] \/ shares_response_id db_rows = false \/ readable db_rows = false) /\
  (db_rows = [] ->
   convert_flattened_rows_to_review db_rows
   = Raise (HTTPException 500 "Data conversion error: "
              (Some (ValueError "No rows provided")))) /\
  (forallb has_response_id db_rows = true ->
   shares_response_id db_rows = false ->
   exists first_row row,
     hd_error db_rows = Some first_row /\ In row db_rows /\
     str_of (get (Row.response_id row)) <> str_of (get (Row.response_id first_row)) /\
     convert_flattened_rows_to_review db_rows
     = Raise (HTTPException 500 "Data conversion error: "
                (Some (ValueError
                         ("Mixed response IDs in rows: "
                          ++ str_of (get (Row.response_id first_row)) ++ " vs "
                          ++ str_of (get (Row.response_id row))))))) /\
  (db_rows <> [] -> shares_response_id db_rows = true -> readable db_rows = true ->
   exists r, convert_flattened_rows_to_review db_rows = Ok r).
Proof.
  unfold convert_flattened_rows_to_review. split; [|split; [|split]].
  - rewrite is_ok_conversion_error. destruct db_rows as [|first_row rest].
    + cbn. split; [now left | reflexivity].
    + rewrite convert_body_is_ok.
      destruct (shares_response_id (first_row :: rest)), (readable (first_row :: rest));
        cbn [andb]; split; intros H; try discriminate; try reflexivity.
      * destruct H as [H | [H | H]]; discriminate.
      * right; now right.
      * right; now left.
      * right; now left.
  - intros ->. reflexivity.
  - destruct db_rows as [|first_row rest]; [discriminate|].
    intros Hkeys Hshare. exists first_row.
    pose proof (response_id_str_cases first_row) as Hrid.
    unfold shares_response_id in Hshare.
    assert (Hfirst : has_response_id first_row = true)
      by (cbn [forallb] in Hkeys; now apply andb_prop in Hkeys).
    unfold has_response_id in Hfirst.
    assert (Hstr : response_id_str first_row = Ok (str_of (get (Row.response_id first_row))))
      by (destruct (Row.response_id first_row); [discriminate | exact Hrid | exact Hrid]).
    assert (Hdiff : forallb (same_response (str_of (get (Row.response_id first_row))))
                      (first_row :: rest) = false)
      by (destruct (Row.response_id first_row); [discriminate | exact Hshare | exact Hshare]).
    destruct (verify_same_response_error _ _ Hkeys Hdiff) as (row & Hin & Hne & Hraise).
    exists row. split; [reflexivity | split; [exact Hin | split; [exact Hne |]]].
    unfold convert_flattened_rows_body. rewrite Hstr. cbn [bind]. rewrite Hraise. reflexivity.
  - intros Hne Hshare Hread. destruct db_rows as [|first_row rest]; [contradiction|].
    assert (Hok : is_ok (convert_flattened_rows_body (first_row :: rest)) = true)
      by (rewrite convert_body_is_ok, Hshare, Hread; reflexivity).
    apply is_ok_true in Hok as [r Hr]. exists r. rewrite Hr. reflexivity.
Qed.

(** C8 as stated fails: a single row whose relevancy column holds NULL is a
    non-empty group sharing one response id, and its conversion raises. *)
Lemma convert_flattened_rows_null_relevancy_raises :
  [relevancy_row Null] <> [] /\
  shares_response_id [relevancy_row Null] = true /\
  convert_flattened_rows_to_review [relevancy_row Null]
  = Raise (HTTPException 500 "Data conversion error: " (Some AttributeError)).
Proof. split; [discriminate | split; reflexivity]. Qed.

(** C2: whenever a flattened-row group converts, the summary's [irrelevant]
    flag is true if and only if the relevancy string of the first row (the
    empty string when the row has no such key), lower-cased, contains
    "irrelevant" or contains "nonsense"; a first row that says "profane but
    useful" gives false, and one that says "Nonsense Or Irrelevant" gives
    true. *)
Theorem irrelevant_iff_substring :
  (forall (first_row : Row.t) (rest : list Row.t) (r : ReviewSummary.t),
     convert_flattened_rows_to_review (first_row :: rest) = Ok r ->
     exists relevancy,
       get_or "" (Row.response_relevancy first_row) = Some relevancy /\
       (SentimentAnalysis.irrelevant (ReviewSummary.sentiment_analysis r) = true <->
        occurs_in "irrelevant" (lower relevancy) \/ occurs_in "nonsense" (lower relevancy))) /\
  (forall (first_row : Row.t) (rest : list Row.t) (r : ReviewSummary.t),
     Row.response_relevancy first_row = Val "profane but useful" ->
     convert_flattened_rows_to_review (first_row :: rest) = Ok r ->
     SentimentAnalysis.irrelevant (ReviewSummary.sentiment_analysis r) = false) /\
  (forall (first_row : Row.t) (rest : list Row.t) (r : ReviewSummary.t),
     Row.response_relevancy first_row = Val "Nonsense Or Irrelevant" ->
     convert_flattened_rows_to_review (first_row :: rest) = Ok r ->
     SentimentAnalysis.irrelevant (ReviewSummary.sentiment_analysis r) = true).
Proof.
  assert (Hinv : forall first_row rest r,
             convert_flattened_rows_to_review (first_row :: rest) = Ok r ->
             exists relevancy,
               get_or "" (Row.response_relevancy first_row) = Some relevancy /\
               SentimentAnalysis.irrelevant (ReviewSummary.sentiment_analysis r)
               = (contains "irrelevant" (lower relevancy)
                  || contains "nonsense" (lower relevancy))%bool).
  { intros first_row rest r. unfold convert_flattened_rows_to_review.
    rewrite conversion_error_ok. intros Hr.
    destruct (convert_body_inv _ _ _ Hr)
      as (rid & l & rel & ql & qr & _ & _ & Hrel & _ & _ & ->).
    unfold relevancy_lower in Hrel.
    destruct (get_or "" (Row.response_relevancy first_row)) as [relevancy|]; [|discriminate].
    injection Hrel as <-. exists relevancy. split; reflexivity. }
  split; [|split].
  - intros first_row rest r Hr. destruct (Hinv _ _ _ Hr) as (relevancy & Hget & Hirr).
    exists relevancy. split; [exact Hget|].
    rewrite Hirr, orb_true_iff, !contains_occurs. reflexivity.
  - intros first_row rest r Hrel Hr. destruct (Hinv _ _ _ Hr) as (relevancy & Hget & Hirr).
    rewrite Hrel in Hget. injection Hget as <-. rewrite Hirr. reflexivity.
  - intros first_row rest r Hrel Hr. destruct (Hinv _ _ _ Hr) as (relevancy & Hget & Hirr).
    rewrite Hrel in Hget. injection Hget as <-. rewrite Hirr. reflexivity.
Qed.

(** The theorem at three one-row groups: the two strings it names, and a
    string outside the three classes of the warehouse that contains
    "irrelevant". *)
Lemma irrelevant_iff_substring_witness :
  (exists r,
     convert_flattened_rows_to_review [relevancy_row (Val "profane but useful")] = Ok r /\
     SentimentAnalysis.irrelevant (ReviewSummary.sentiment_analysis r) = false) /\
  (exists r,
     convert_flattened_rows_to_review [relevancy_row (Val "Nonsense Or Irrelevant")] = Ok r /\
     SentimentAnalysis.irrelevant (ReviewSummary.sentiment_analysis r) = true) /\
  (exists r,
     convert_flattened_rows_to_review [relevancy_row (Val "Not-Irrelevantly")] = Ok r /\
     (SentimentAnalysis.irrelevant (ReviewSummary.sentiment_analysis r) = true <->
      occurs_in "irrelevant" "not-irrelevantly" \/ occurs_in "nonsense" "not-irrelevantly")).
Proof.
  destruct irrelevant_iff_substring as (Hiff & Hprofane & Hnonsense).
  split; [|split].
  - eexists. split; [reflexivity|].
    exact (Hprofane (relevancy_row (Val "profane but useful")) [] _ eq_refl eq_refl).
  - eexists. split; [reflexivity|].
    exact (Hnonsense (relevancy_row (Val "Nonsense Or Irrelevant")) [] _ eq_refl eq_refl).
  - eexists. split; [reflexivity|].
    destruct (Hiff (relevancy_row (Val "Not-Irrelevantly")) [] _ eq_refl)
      as (rel & Hrel & H).
    injection Hrel as <-. exact H.
Defined.

(** ** Status of a summary *)

Lemma existsb_extreme (l : list CategorySentiment.t) :
  existsb extreme_sentiment l = true <->
  exists s, In s l /\
    (PrimFloat.ltb 0.5%float
       (PrimFloat.abs (CategorySentiment.category_sentiment_score s)) = true \/
     PrimFloat.ltb 0.5%float
       (PrimFloat.abs (CategorySentiment.subcategory_sentiment_score s)) = true).
Proof.
  rewrite existsb_exists. unfold extreme_sentiment, extreme.
  split; intros (s & Hin & H); exists s; (split; [exact Hin|]).
  - now apply orb_true_iff in H.
  - now apply orb_true_iff.
Qed.

(** C3: a summary built from source rows has status [RECOMMENDED] if and
    only if some sentiment entry has [abs] of its category score or of its
    subcategory score above 0.5, and status [RANDOM_SAMPLE] otherwise; one
    score of 0.51 flags the review, scores of 0.5 and -0.5 at most do not.
    A summary built from a row of the evaluation table has status
    [COMPLETED]. *)
Theorem status_derivation :
  (forall (db_rows : list Row.t) (r : ReviewSummary.t),
     convert_flattened_rows_to_review db_rows = Ok r ->
     (ReviewSummary.status r = RECOMMENDED <->
      exists s, In s (entries r) /\
        (PrimFloat.ltb 0.5%float
           (PrimFloat.abs (CategorySentiment.category_sentiment_score s)) = true \/
         PrimFloat.ltb 0.5%float
           (PrimFloat.abs (CategorySentiment.subcategory_sentiment_score s)) = true)) /\
     (ReviewSummary.status r = RANDOM_SAMPLE <->
      ~ exists s, In s (entries r) /\
          (PrimFloat.ltb 0.5%float
             (PrimFloat.abs (CategorySentiment.category_sentiment_score s)) = true \/
           PrimFloat.ltb 0.5%float
             (PrimFloat.abs (CategorySentiment.subcategory_sentiment_score s)) = true))) /\
  (exists r,
     convert_flattened_rows_to_review [sample_row "Food" 0.51%float] = Ok r /\
     ReviewSummary.status r = RECOMMENDED) /\
  (exists r,
     convert_flattened_rows_to_review
       [sample_row "Food" 0.5%float; sample_row "Service" (-0.5)%float] = Ok r /\
     ReviewSummary.status r = RANDOM_SAMPLE) /\
  (forall (rt : PyRuntime) (db_row : EvalRow.t) (r : ReviewSummary.t),
     convert_completed_review_to_summary db_row = Ok r ->
     ReviewSummary.status r = COMPLETED) /\
  (forall rt : PyRuntime,
   exists r,
     convert_completed_review_to_summary sample_eval_row = Ok r /\
     ReviewSummary.status r = COMPLETED).
Proof.
  split; [|split; [|split; [|split]]]; [| | | |intros rt; eexists; split; reflexivity].
  - intros db_rows r. unfold convert_flattened_rows_to_review.
    rewrite conversion_error_ok. intros Hr.
    destruct db_rows as [|first_row rest]; [discriminate|].
    destruct (convert_body_inv _ _ _ Hr) as (rid & l & rel & ql & qr & _ & _ & _ & _ & _ & ->).
    unfold entries. cbn [ReviewSummary.status ReviewSummary.category_sentiments].
    rewrite <- existsb_extreme.
    destruct (existsb extreme_sentiment l); split; split; intros H;
      try reflexivity; try discriminate; try (now elim H).
  - eexists. split; reflexivity.
  - eexists. split; reflexivity.
  - intros rt db_row r. unfold convert_completed_review_to_summary.
    rewrite conversion_error_ok. unfold convert_completed_review_body, new_ReviewSummary.
    destruct (parse_category_sentiments _) as [l|]; cbn [bind]; [|discriminate].
    destruct (item "response_id" _) as [rid|]; cbn [bind]; [|discriminate].
    destruct (get_or "COMMENT" _) as [ql|]; cbn [bind required_str]; [|discriminate].
    destruct (get_or "" _) as [qr|]; cbn [bind required_str]; [|discriminate].
    intros H; injection H as <-. reflexivity.
Qed.

(** ** The SQL value formatter *)

Lemma replace_loop_quote (fuel : nat) (s : string) :
  (String.length s < fuel)%nat ->
  replace_loop fuel "'" "''" s = single_quotes_doubled s.
Proof.
  revert s; induction fuel as [|fuel IH]; intros s Hlen; [inversion Hlen|].
  destruct s as [|c s]; [reflexivity|].
  cbn [replace_loop strip_prefix single_quotes_doubled].
  cbn [String.length] in Hlen. apply PeanoNat.lt_S_n in Hlen.
  destruct (Ascii.eqb_spec "'" c) as [<-|Hne].
  - cbn. rewrite (IH s Hlen). reflexivity.
  - replace (Ascii.eqb c "'") with false
      by (symmetry; apply Ascii.eqb_neq; congruence).
    rewrite (IH s Hlen). reflexivity.
Qed.

Lemma replace_quote (s : string) :
  replace "'" "''" s = single_quotes_doubled s.
Proof. unfold replace. apply replace_loop_quote. apply PeanoNat.Nat.lt_succ_diag_r. Qed.

Lemma unquote_doubled (s : string) :
  Memory.unquote (single_quotes_doubled s ++ "'") = Some s.
Proof.
  induction s as [|c s IH]; [reflexivity|].
  cbn [single_quotes_doubled].
  destruct (Ascii.eqb_spec c "'") as [->|Hne].
  - cbn [String.append Memory.unquote]. rewrite IH. reflexivity.
  - cbn [String.append]. 
    assert (Hstep : forall rest, Memory.unquote (String c rest)
                                 = option_map (String c) (Memory.unquote rest)).
    { intros rest. destruct c as [b0 b1 b2 b3 b4 b5 b6 b7].
      destruct b0, b1, b2, b3, b4, b5, b6, b7; try reflexivity. now elim Hne. }
    rewrite Hstep, IH. reflexivity.
Qed.

Lemma str_of_int_reads_back (z : Z) :
  option_map Z.of_int (NilZero.int_of_string (str_of_int z)) = Some z.
Proof.
  unfold str_of_int. rewrite NilZero.isi.
  - cbn [option_map]. now rewrite DecimalZ.of_to.
  - destruct z; cbn; try discriminate.
    intros H; injection H as H. now apply DecimalPos.Unsigned.to_uint_nonnil in H.
  - destruct z; cbn; try discriminate.
    intros H; injection H as H. now apply DecimalPos.Unsigned.to_uint_nonnil in H.
Qed.

(** ** The text of a float *)

Lemma compare_scaled (x y c : Z) : 0 < c -> (x * c ?= y * c) = (x ?= y).
Proof.
  intros Hc. destruct (Z.compare_spec x y) as [->|H|H].
  - apply Z.compare_refl.
  - apply Z.compare_lt_iff. nia.
  - apply Z.compare_gt_iff. nia.
Qed.

Lemma scaled_compare_spec (a a2 a10 b b2 b10 s2 s10 : Z) :
  s2 <= a2 -> s2 <= b2 -> s10 <= a10 -> s10 <= b10 ->
  scaled_compare a a2 a10 b b2 b10
  = Z.compare (a * 2 ^ (a2 - s2) * 10 ^ (a10 - s10))
              (b * 2 ^ (b2 - s2) * 10 ^ (b10 - s10)).
Proof.
  intros Ha2 Hb2 Ha10 Hb10. unfold scaled_compare.
  set (m2 := Z.min a2 b2). set (m10 := Z.min a10 b10).
  replace (Z.max (a2 - b2) 0) with (a2 - m2) by lia.
  replace (Z.max (b2 - a2) 0) with (b2 - m2) by lia.
  replace (Z.max (a10 - b10) 0) with (a10 - m10) by lia.
  replace (Z.max (b10 - a10) 0) with (b10 - m10) by lia.
  replace (a2 - s2) with ((a2 - m2) + (m2 - s2)) by lia.
  replace (b2 - s2) with ((b2 - m2) + (m2 - s2)) by lia.
  replace (a10 - s10) with ((a10 - m10) + (m10 - s10)) by lia.
  replace (b10 - s10) with ((b10 - m10) + (m10 - s10)) by lia.
  rewrite !Z.pow_add_r by lia.
  assert (Hc : 0 < 2 ^ (m2 - s2) * 10 ^ (m10 - s10))
    by (apply Z.mul_pos_pos; apply Z.pow_pos_nonneg; lia).
  rewrite <- (compare_scaled _ _ _ Hc). f_equal; ring.
Qed.

Lemma rounds_to_positive (m e d k : Z) :
  0 < m -> rounds_to m e d k = true -> 0 < d.
Proof.
  intros Hm H. unfold rounds_to in H. apply andb_prop in H as [H _].
  assert (Hlow : forall b b2, 0 < b ->
            match scaled_compare d 0 k b b2 0 with
            | Gt => true | Eq => Z.even m | Lt => false
            end = true -> 0 < d).
  { intros b b2 Hb Hc.
    rewrite (scaled_compare_spec d 0 k b b2 0 (Z.min 0 b2) (Z.min k 0)) in Hc by lia.
    assert (Hp : 0 < 2 ^ (0 - Z.min 0 b2) * 10 ^ (k - Z.min k 0))
      by (apply Z.mul_pos_pos; apply Z.pow_pos_nonneg; lia).
    assert (Hq : 0 < b * 2 ^ (b2 - Z.min 0 b2) * 10 ^ (0 - Z.min k 0))
      by (repeat apply Z.mul_pos_pos; try apply Z.pow_pos_nonneg; lia).
    destruct (Z.compare_spec (d * 2 ^ (0 - Z.min 0 b2) * 10 ^ (k - Z.min k 0))
                (b * 2 ^ (b2 - Z.min 0 b2) * 10 ^ (0 - Z.min k 0))) as [Heq|Hlt|Hgt];
      [| discriminate |]; nia. }
  destruct ((m =? 2 ^ 52) && (-1074 <? e))%bool; eapply Hlow; try exact H; lia.
Qed.

Lemma nearest_rounds (m e n d k : Z) :
  nearest m e n = Some (d, k) -> rounds_to m e d k = true.
Proof.
  unfold nearest.
  set (k0 := decimal_point m e - n). set (low := scaled_floor m e k0).
  destruct (rounds_to m e low k0) eqn:Hlow;
    destruct (rounds_to m e (low + 1) k0) eqn:Hhigh; try discriminate.
  - destruct (scaled_compare _ _ _ _ _ _); [destruct (Z.even low)| |];
      intros H; injection H as <- <-; assumption.
  - intros H; injection H as <- <-; assumption.
  - intros H; injection H as <- <-; assumption.
Qed.

Lemma scaled_compare_lt (a a2 a10 b b2 b10 s2 s10 : Z) :
  s2 <= a2 -> s2 <= b2 -> s10 <= a10 -> s10 <= b10 ->
  a * 2 ^ (a2 - s2) * 10 ^ (a10 - s10) < b * 2 ^ (b2 - s2) * 10 ^ (b10 - s10) ->
  scaled_compare a a2 a10 b b2 b10 = Lt.
Proof.
  intros. rewrite (scaled_compare_spec _ _ _ _ _ _ s2 s10) by assumption.
  now apply Z.compare_lt_iff.
Qed.

Lemma scaled_compare_gt (a a2 a10 b b2 b10 s2 s10 : Z) :
  s2 <= a2 -> s2 <= b2 -> s10 <= a10 -> s10 <= b10 ->
  b * 2 ^ (b2 - s2) * 10 ^ (b10 - s10) < a * 2 ^ (a2 - s2) * 10 ^ (a10 - s10) ->
  scaled_compare a a2 a10 b b2 b10 = Gt.
Proof.
  intros. rewrite (scaled_compare_spec _ _ _ _ _ _ s2 s10) by assumption.
  now apply Z.compare_gt_iff.
Qed.

Lemma exact_decimal_rounds (m e : Z) :
  0 < m -> rounds_to m e (fst (exact_decimal m e)) (snd (exact_decimal m e)) = true.
Proof.
  intros Hm. unfold exact_decimal, rounds_to.
  destruct (Z.ltb_spec e 0) as [Hneg|Hpos]; cbn [fst snd].
  - assert (Hten : 10 ^ (- e) = 5 ^ (- e) * 2 ^ (- e))
      by (rewrite <- Z.pow_mul_l; reflexivity).
    assert (Hp5 : 0 < 5 ^ (- e)) by (apply Z.pow_pos_nonneg; lia).
    assert (Hp2 : 0 < 2 ^ (- e)) by (apply Z.pow_pos_nonneg; lia).
    assert (Hup : scaled_compare (m * 5 ^ (- e)) 0 e (2 * m + 1) (e - 1) 0 = Lt).
    { apply (scaled_compare_lt _ _ _ _ _ _ (e - 1) e); try lia.
      replace (0 - (e - 1)) with (- e + 1) by lia.
      replace (e - 1 - (e - 1)) with 0 by lia. replace (e - e) with 0 by lia.
      replace (0 - e) with (- e) by lia.
      rewrite Z.pow_add_r, Hten, Z.pow_0_r, Z.pow_1_r by lia. nia. }
    assert (Hlo : scaled_compare (m * 5 ^ (- e)) 0 e (2 * m - 1) (e - 1) 0 = Gt).
    { apply (scaled_compare_gt _ _ _ _ _ _ (e - 1) e); try lia.
      replace (0 - (e - 1)) with (- e + 1) by lia.
      replace (e - 1 - (e - 1)) with 0 by lia. replace (e - e) with 0 by lia.
      replace (0 - e) with (- e) by lia.
      rewrite Z.pow_add_r, Hten, Z.pow_0_r, Z.pow_1_r by lia. nia. }
    assert (Hlo' : scaled_compare (m * 5 ^ (- e)) 0 e (4 * m - 1) (e - 2) 0 = Gt).
    { apply (scaled_compare_gt _ _ _ _ _ _ (e - 2) e); try lia.
      replace (0 - (e - 2)) with (- e + 2) by lia.
      replace (e - 2 - (e - 2)) with 0 by lia. replace (e - e) with 0 by lia.
      replace (0 - e) with (- e) by lia.
      rewrite Z.pow_add_r, Hten, Z.pow_0_r by lia. change (2 ^ 2) with 4. nia. }
    rewrite Hup, Hlo, Hlo'. now destruct ((m =? 2 ^ 52) && (-1074 <? e))%bool.
  - assert (Hp2 : 0 < 2 ^ e) by (apply Z.pow_pos_nonneg; lia).
    assert (Hup : scaled_compare (m * 2 ^ e) 0 0 (2 * m + 1) (e - 1) 0 = Lt).
    { apply (scaled_compare_lt _ _ _ _ _ _ (-1) 0); try lia.
      replace (e - 1 - -1) with e by lia. change (0 - -1) with 1. change (0 - 0) with 0.
      rewrite Z.pow_0_r, Z.pow_1_r. nia. }
    assert (Hlo : scaled_compare (m * 2 ^ e) 0 0 (2 * m - 1) (e - 1) 0 = Gt).
    { apply (scaled_compare_gt _ _ _ _ _ _ (-1) 0); try lia.
      replace (e - 1 - -1) with e by lia. change (0 - -1) with 1. change (0 - 0) with 0.
      rewrite Z.pow_0_r, Z.pow_1_r. nia. }
    assert (Hlo' : scaled_compare (m * 2 ^ e) 0 0 (4 * m - 1) (e - 2) 0 = Gt).
    { apply (scaled_compare_gt _ _ _ _ _ _ (-2) 0); try lia.
      replace (e - 2 - -2) with e by lia. change (0 - -2) with 2. change (0 - 0) with 0.
      rewrite Z.pow_0_r. change (2 ^ 2) with 4. nia. }
    rewrite Hup, Hlo, Hlo'. now destruct ((m =? 2 ^ 52) && (-1074 <? e))%bool.
Qed.

Lemma shortest_rounds (fuel : nat) (m e n : Z) :
  0 < m ->
  rounds_to m e (fst (shortest fuel m e n)) (snd (shortest fuel m e n)) = true.
Proof.
  intros Hm. revert n. induction fuel as [|fuel IH]; intros n; cbn [shortest].
  - now apply exact_decimal_rounds.
  - destruct (nearest m e n) as [[d k]|] eqn:Hnearest; [|apply IH].
    cbn [fst snd]. exact (nearest_rounds _ _ _ _ _ Hnearest).
Qed.

Lemma rounds_to_without_zero (m e q k : Z) :
  rounds_to m e q (k + 1) = rounds_to m e (10 * q) k.
Proof.
  assert (Hcmp : forall b b2,
            scaled_compare q 0 (k + 1) b b2 0 = scaled_compare (10 * q) 0 k b b2 0).
  { intros b b2.
    rewrite (scaled_compare_spec q 0 (k + 1) b b2 0 (Z.min 0 b2) (Z.min k 0)) by lia.
    rewrite (scaled_compare_spec (10 * q) 0 k b b2 0 (Z.min 0 b2) (Z.min k 0)) by lia.
    replace (k + 1 - Z.min k 0) with (k - Z.min k 0 + 1) by lia.
    rewrite Z.pow_add_r, Z.pow_1_r by lia. f_equal. ring. }
  unfold rounds_to. now rewrite !Hcmp.
Qed.

Lemma strip_zeros_rounds (fuel : nat) (m e d k : Z) :
  rounds_to m e d k = true ->
  rounds_to m e (fst (strip_zeros fuel d k)) (snd (strip_zeros fuel d k)) = true.
Proof.
  revert d k. induction fuel as [|fuel IH]; intros d k H; cbn [strip_zeros]; [exact H|].
  destruct (Z.eqb_spec (d mod 10) 0) as [Hzero|_]; [|exact H].
  apply IH. rewrite rounds_to_without_zero.
  replace (10 * (d / 10)) with d; [exact H|].
  pose proof (Z.div_mod d 10). lia.
Qed.

Lemma float_digits_rounds (m e : Z) :
  0 < m ->
  rounds_to m e (fst (float_digits m e)) (snd (float_digits m e)) = true /\
  0 < fst (float_digits m e).
Proof.
  intros Hm. unfold float_digits.
  pose proof (shortest_rounds 17 m e 1 Hm) as H.
  destruct (shortest 17 m e 1) as [d k]. cbn [fst snd] in H.
  pose proof (strip_zeros_rounds 800 m e d k H) as H'.
  split; [exact H'|]. exact (rounds_to_positive _ _ _ _ Hm H').
Qed.

(** ** Decimal text *)

Lemma numeral_from_digits (ds rest : string) (st : numeral_state) :
  all_digits ds = true ->
  numeral_from (after_digit st) (ds ++ rest) = numeral_from (after_digit st) rest.
Proof.
  induction ds as [|c ds IH]; intros H; [reflexivity|].
  cbn [all_digits] in H. apply andb_prop in H as [Hc Hds].
  cbn [String.append numeral_from]. unfold numeral_step. rewrite Hc.
  replace (after_digit (after_digit st)) with (after_digit st) by now destruct st.
  now apply IH.
Qed.

Lemma numeral_from_digits1 (ds rest : string) (st : numeral_state) :
  all_digits ds = true -> ds <> EmptyString ->
  numeral_from st (ds ++ rest) = numeral_from (after_digit st) rest.
Proof.
  destruct ds as [|c ds]; intros H Hne; [now elim Hne|].
  cbn [all_digits] in H. apply andb_prop in H as [Hc Hds].
  cbn [String.append numeral_from]. unfold numeral_step. rewrite Hc.
  now apply numeral_from_digits.
Qed.

Lemma all_digits_app (a b : string) :
  all_digits (a ++ b) = (all_digits a && all_digits b)%bool.
Proof.
  induction a as [|c a IH]; [reflexivity|].
  cbn [String.append all_digits]. now rewrite IH, Bool.andb_assoc.
Qed.

Lemma all_digits_zeros (n : nat) : all_digits (zeros n) = true.
Proof. induction n as [|n IH]; [reflexivity | exact IH]. Qed.

Lemma all_digits_take (n : nat) (s : string) :
  all_digits s = true -> all_digits (take n s) = true.
Proof.
  revert s. induction n as [|n IH]; intros [|c s] H; try reflexivity.
  cbn [all_digits take] in *. apply andb_prop in H as [Hc Hs].
  now rewrite Hc, IH.
Qed.

Lemma all_digits_drop (n : nat) (s : string) :
  all_digits s = true -> all_digits (drop n s) = true.
Proof.
  revert s. induction n as [|n IH]; intros [|c s] H; try reflexivity; try exact H.
  cbn [all_digits drop] in *. apply andb_prop in H as [_ Hs]. now apply IH.
Qed.

Lemma take_nonempty (n : nat) (s : string) :
  (0 < n)%nat -> s <> EmptyString -> take n s <> EmptyString.
Proof. destruct n, s; intros Hn Hs; try discriminate; [lia | lia | now elim Hs]. Qed.

Lemma drop_nonempty (n : nat) (s : string) :
  (n < String.length s)%nat -> drop n s <> EmptyString.
Proof.
  revert s. induction n as [|n IH]; intros [|c s] H; cbn in *; try lia; try discriminate.
  apply IH. lia.
Qed.

Lemma string_of_uint_digits (d : Decimal.uint) :
  all_digits (NilEmpty.string_of_uint d) = true.
Proof. induction d; cbn; try reflexivity; exact IHd. Qed.

Lemma str_of_int_digits (z : Z) :
  0 <= z -> all_digits (str_of_int z) = true /\ str_of_int z <> EmptyString.
Proof.
  intros Hz. unfold str_of_int.
  destruct z as [|p|p]; [split; [reflexivity | discriminate] | | lia].
  cbn [Z.to_int NilZero.string_of_int NilZero.string_of_uint].
  pose proof (DecimalPos.Unsigned.to_uint_nonnil p) as Hnil.
  destruct (Pos.to_uint p) as [|d|d|d|d|d|d|d|d|d|d] eqn:E; try (now elim Hnil);
    (split; [|discriminate]); rewrite <- E;
    pose proof (string_of_uint_digits (Pos.to_uint p)) as H; rewrite E in *; exact H.
Qed.

Lemma append_empty (s : string) : s ++ EmptyString = s.
Proof. induction s as [|c s IH]; [reflexivity|]. cbn. now rewrite IH. Qed.

Lemma append_append (a b c : string) : (a ++ b) ++ c = a ++ (b ++ c).
Proof. induction a as [|x a IH]; [reflexivity|]. cbn. now rewrite IH. Qed.

Lemma numeral_from_end (ds : string) (st : numeral_state) :
  all_digits ds = true -> ds <> EmptyString -> numeral_from st ds = true.
Proof.
  intros Hd Hne. rewrite <- (append_empty ds).
  rewrite (numeral_from_digits1 ds EmptyString st Hd Hne). now destruct st.
Qed.

Lemma str_of_int_numeral (z : Z) : decimal_text (str_of_int z) = true.
Proof.
  unfold decimal_text. destruct (Z.le_gt_cases 0 z) as [Hz|Hz].
  - destruct (str_of_int_digits z Hz) as [Hd Hne]. now apply numeral_from_end.
  - destruct z as [|p|p]; try lia.
    destruct (str_of_int_digits (Zpos p)) as [Hd Hne]; [lia|].
    change (str_of_int (Zneg p)) with (String "-" (str_of_int (Zpos p))).
    cbn [numeral_from numeral_step is_digit]. now apply numeral_from_end.
Qed.

Lemma numeral_point (rest : string) :
  numeral_from InInteger (String "." rest) = numeral_from AfterPoint rest.
Proof. reflexivity. Qed.

Lemma numeral_exponent (st : numeral_state) (rest : string) :
  after_digit st = st -> st <> InExponent ->
  numeral_from st (String "e" rest) = numeral_from AfterE rest.
Proof. destruct st; intros H Hne; try discriminate; try reflexivity. now elim Hne. Qed.

Lemma numeral_sign (c : ascii) (rest : string) :
  c = "-"%char \/ c = "+"%char ->
  numeral_from AfterE (String c rest) = numeral_from AfterExponentSign rest.
Proof. intros [-> | ->]; reflexivity. Qed.

Lemma numeral_zero (st : numeral_state) (rest : string) :
  numeral_from st (String "0" rest) = numeral_from (after_digit st) rest.
Proof. reflexivity. Qed.

Lemma exponent_text_numeral (x : Z) :
  numeral_from AfterE (exponent_text x) = true.
Proof.
  unfold exponent_text.
  destruct (str_of_int_digits (Z.abs x)) as [Hd Hne]; [lia|].
  assert (Hdigits : all_digits ((if Z.abs x <? 10 then "0" else "") ++ str_of_int (Z.abs x))
                    = true)
    by (rewrite all_digits_app, Hd; now destruct (Z.abs x <? 10)).
  assert (Hnonempty : (if Z.abs x <? 10 then "0" else "") ++ str_of_int (Z.abs x)
                      <> EmptyString)
    by (destruct (Z.abs x <? 10); [discriminate | exact Hne]).
  destruct (x <? 0); cbn [String.append]; rewrite numeral_sign by tauto;
    now apply numeral_from_end.
Qed.

Lemma render_numeral (digits : string) (decpt : Z) (st : numeral_state) :
  all_digits digits = true -> digits <> EmptyString ->
  st = AtStart \/ st = AfterSign ->
  numeral_from st (render digits decpt) = true.
Proof.
  intros Hd Hne Hst.
  assert (Hint : after_digit st = InInteger) by (destruct Hst; subst st; reflexivity).
  unfold render.
  destruct ((decpt <=? -4) || (16 <? decpt))%bool.
  { rewrite (numeral_from_digits1 (take 1 digits) _ st), Hint;
      [|now apply all_digits_take | apply take_nonempty; [lia | exact Hne]].
    destruct (Z.ltb_spec 1 (Z.of_nat (String.length digits))) as [Hlong|Hshort].
    - rewrite append_append. cbn [String.append]. rewrite numeral_point.
      rewrite (numeral_from_digits1 (drop 1 digits) _ AfterPoint);
        [|now apply all_digits_drop | apply drop_nonempty; lia].
      cbn [after_digit]. rewrite numeral_exponent by (reflexivity || discriminate).
      apply exponent_text_numeral.
    - cbn [String.append]. rewrite numeral_exponent by (reflexivity || discriminate).
      apply exponent_text_numeral. }
  destruct (Z.leb_spec decpt 0) as [Hsmall|Hbig].
  { cbn [String.append]. rewrite numeral_zero, Hint, numeral_point.
    apply numeral_from_end; [|destruct (zeros _); [exact Hne | discriminate]].
    now rewrite all_digits_app, all_digits_zeros, Hd. }
  destruct (Z.leb_spec (Z.of_nat (String.length digits)) decpt) as [Hwhole|Hpart].
  { rewrite <- append_append.
    rewrite (numeral_from_digits1 (digits ++ zeros _) _ st), Hint;
      [reflexivity | now rewrite all_digits_app, all_digits_zeros, Hd |].
    destruct digits; [now elim Hne | discriminate]. }
  rewrite (numeral_from_digits1 (take _ digits) _ st), Hint;
    [|now apply all_digits_take | apply take_nonempty; [lia | exact Hne]].
  cbn [String.append]. rewrite numeral_point.
  apply numeral_from_end; [now apply all_digits_drop | apply drop_nonempty; lia].
Qed.

Lemma float_str_finite (f : float) (s : bool) (m : positive) (e : Z) :
  Prim2SF f = S754_finite s m e ->
  decimal_text (float_str f) = true /\
  exists d k,
    0 < d /\ rounds_to (Zpos m) e d k = true /\
    float_str f
    = (if s then "-" else "")
      ++ render (str_of_int d) (Z.of_nat (String.length (str_of_int d)) + k).
Proof.
  intros Hf. unfold float_str. rewrite Hf.
  destruct (float_digits_rounds (Zpos m) e) as [Hrounds Hpos]; [reflexivity|].
  destruct (float_digits (Zpos m) e) as [d k]. cbn [fst snd] in *.
  destruct (str_of_int_digits d) as [Hd Hne]; [lia|].
  split; [|exists d, k; now repeat split].
  unfold decimal_text. destruct s; cbn [String.append].
  - change (numeral_from AtStart (String "-" ?x)) with (numeral_from AfterSign x).
    apply render_numeral; auto.
  - apply render_numeral; auto.
Qed.



(** ** The evaluation upsert builder *)

Section Builder.
Context {rt : PyRuntime}.

Lemma build_upsert_source_inv (survey_response_id : string) (human_eval_data : pydict)
    (machine_eval_data : option pydict) (evaluation_model : string) (u : UpsertSource.t) :
  build_upsert_source survey_response_id human_eval_data machine_eval_data
    evaluation_model = Ok u ->
  exists human_score machine_score,
    score_or_none human_eval_data = Ok human_score /\
    UpsertSource.evaluation_hash_key u
    = "'" ++ sha256_hexdigest (survey_response_id ++ "_" ++ evaluation_model) ++ "'" /\
    UpsertSource.response_relevancy u
    = _format_sql_value (PStr (derive_response_relevancy human_eval_data)) /\
    UpsertSource.human_eval_irrelevant u
    = _format_sql_value (dict_get human_eval_data "irrelevant" (PBool false)) /\
    UpsertSource.human_eval_profane u
    = _format_sql_value (dict_get human_eval_data "profane" (PBool false)) /\
    UpsertSource.human_eval_rewritten_comment u
    = _format_sql_value (dict_get human_eval_data "rewritten_comment" PNone) /\
    UpsertSource.human_eval_overall_sentiment_label u
    = _format_sql_value (dict_get human_eval_data "overall_sentiment_label" PNone) /\
    UpsertSource.human_eval_overall_sentiment_score u = _format_sql_value human_score /\
    UpsertSource.machine_eval_irrelevant u
    = _format_sql_value
        (match given machine_eval_data with
         | Some m => dict_get m "irrelevant" (PBool false)
         | None => PBool false
         end) /\
    UpsertSource.machine_eval_profane u
    = _format_sql_value
        (match given machine_eval_data with
         | Some m => dict_get m "profane" (PBool false)
         | None => PBool false
         end) /\
    UpsertSource.machine_eval_overall_sentiment_score u = _format_sql_value machine_score /\
    match given machine_eval_data with
    | Some m => score_or_none m
    | None => Ok PNone
    end = Ok machine_score.
Proof.
  unfold build_upsert_source.
  destruct (category_subcategory_text _) as [pairs|]; cbn [bind]; [|discriminate].
  destruct (serialize_category_sentiments _) as [hjson|]; cbn [bind]; [|discriminate].
  destruct (match given machine_eval_data with
            | Some m => serialize_category_sentiments _
            | None => Ok "[]"
            end) as [mjson|]; cbn [bind]; [|discriminate].
  destruct (score_or_none human_eval_data) as [hs|]; cbn [bind]; [|discriminate].
  destruct (match given machine_eval_data with
            | Some m => score_or_none m
            | None => Ok PNone
            end) as [ms|]; cbn [bind]; [|discriminate].
  intros H; injection H as <-. exists hs, ms. cbn. repeat split.
Qed.

(** C4: the evaluation hash key is the SHA-256 digest of the response id,
    an underscore and the evaluation model version, and of nothing else: two
    builds for the same pair give the same key whatever their human and
    machine evaluations are. *)
Theorem hash_key_of_id_and_model (survey_response_id evaluation_model : string)
    (human1 human2 : pydict) (machine1 machine2 : option pydict)
    (u1 u2 : UpsertSource.t) :
  build_upsert_source survey_response_id human1 machine1 evaluation_model = Ok u1 ->
  build_upsert_source survey_response_id human2 machine2 evaluation_model = Ok u2 ->
  evaluation_hash_key survey_response_id evaluation_model
  = sha256_hexdigest (survey_response_id ++ "_" ++ evaluation_model) /\
  UpsertSource.evaluation_hash_key u1
  = "'" ++ evaluation_hash_key survey_response_id evaluation_model ++ "'" /\
  UpsertSource.evaluation_hash_key u2 = UpsertSource.evaluation_hash_key u1.
Proof.
  intros H1 H2.
  destruct (build_upsert_source_inv _ _ _ _ _ H1) as (? & ? & _ & K1 & _).
  destruct (build_upsert_source_inv _ _ _ _ _ H2) as (? & ? & _ & K2 & _).
  split; [reflexivity | split; [exact K1 | now rewrite K1, K2]].
Qed.

Lemma flag_absent (human_eval_data : pydict) (k : string) :
  lookup human_eval_data k = None -> flag human_eval_data k = false.
Proof. unfold flag, dict_get. now intros ->. Qed.

Lemma flag_bool (human_eval_data : pydict) (k : string) (b : bool) :
  lookup human_eval_data k = Some (PBool b) -> flag human_eval_data k = b.
Proof. unfold flag, dict_get. now intros ->. Qed.

(** C5: in every upsert the builder produces, the [response_relevancy]
    column is the quoted text "nonsense or irrelevant" when the human
    evaluation's [irrelevant] flag is set; otherwise "profane but useful"
    when its [profane] flag is set; otherwise "useful", which is also what
    it is when both keys are absent. *)
Theorem response_relevancy_written (survey_response_id : string)
    (human_eval_data : pydict) (machine_eval_data : option pydict)
    (evaluation_model : string) (u : UpsertSource.t) :
  build_upsert_source survey_response_id human_eval_data machine_eval_data
    evaluation_model = Ok u ->
  (flag human_eval_data "irrelevant" = true ->
   UpsertSource.response_relevancy u = "'nonsense or irrelevant'") /\
  (flag human_eval_data "irrelevant" = false ->
   flag human_eval_data "profane" = true ->
   UpsertSource.response_relevancy u = "'profane but useful'") /\
  (flag human_eval_data "irrelevant" = false ->
   flag human_eval_data "profane" = false ->
   UpsertSource.response_relevancy u = "'useful'") /\
  (lookup human_eval_data "irrelevant" = None ->
   lookup human_eval_data "profane" = None ->
   UpsertSource.response_relevancy u = "'useful'") /\
  (lookup human_eval_data "irrelevant" = Some (PBool true) ->
   UpsertSource.response_relevancy u = "'nonsense or irrelevant'") /\
  (lookup human_eval_data "irrelevant" = Some (PBool false) ->
   lookup human_eval_data "profane" = Some (PBool true) ->
   UpsertSource.response_relevancy u = "'profane but useful'") /\
  (lookup human_eval_data "irrelevant" = Some (PBool false) ->
   lookup human_eval_data "profane" = Some (PBool false) ->
   UpsertSource.response_relevancy u = "'useful'").
Proof.
  intros H. destruct (build_upsert_source_inv _ _ _ _ _ H) as (? & ? & _ & _ & -> & _).
  unfold derive_response_relevancy. fold (flag human_eval_data "irrelevant").
  fold (flag human_eval_data "profane").
  assert (Hcases :
    (flag human_eval_data "irrelevant" = true ->
     _format_sql_value
       (PStr (if flag human_eval_data "irrelevant" then "nonsense or irrelevant"
              else if flag human_eval_data "profane" then "profane but useful"
              else "useful")) = "'nonsense or irrelevant'") /\
    (flag human_eval_data "irrelevant" = false ->
     flag human_eval_data "profane" = true ->
     _format_sql_value
       (PStr (if flag human_eval_data "irrelevant" then "nonsense or irrelevant"
              else if flag human_eval_data "profane" then "profane but useful"
              else "useful")) = "'profane but useful'") /\
    (flag human_eval_data "irrelevant" = false ->
     flag human_eval_data "profane" = false ->
     _format_sql_value
       (PStr (if flag human_eval_data "irrelevant" then "nonsense or irrelevant"
              else if flag human_eval_data "profane" then "profane but useful"
              else "useful")) = "'useful'")).
  { repeat split; intros; repeat match goal with E : flag _ _ = _ |- _ => rewrite E; clear E end;
      reflexivity. }
  destruct Hcases as (Hi & Hp & Hu).
  repeat split; intros.
  - now apply Hi.
  - now apply Hp.
  - now apply Hu.
  - apply Hu; now apply flag_absent.
  - apply Hi; now apply flag_bool.
  - apply Hp; now apply flag_bool.
  - apply Hu; now apply flag_bool.
Qed.

End Builder.

(** The two theorems at a build for review "R300". *)
Lemma hash_key_of_id_and_model_witness :
  exists u1 u2,
    @build_upsert_source symbolic_runtime "R300"
      [("irrelevant", PBool true)] None "human_validation_v1_legacy" = Ok u1 /\
    @build_upsert_source symbolic_runtime "R300"
      [("profane", PBool true); ("overall_sentiment_score", PInt 2)]
      (Some [("profane", PBool false)]) "human_validation_v1_legacy" = Ok u2 /\
    UpsertSource.evaluation_hash_key u2 = UpsertSource.evaluation_hash_key u1.
Proof.
  eexists. eexists. split; [reflexivity | split; [reflexivity|]].
  exact (proj2 (proj2 (@hash_key_of_id_and_model symbolic_runtime
                         "R300" "human_validation_v1_legacy"
                         [("irrelevant", PBool true)]
                         [("profane", PBool true); ("overall_sentiment_score", PInt 2)]
                         None (Some [("profane", PBool false)]) _ _ eq_refl eq_refl))).
Defined.

Lemma response_relevancy_written_witness :
  exists u,
    @build_upsert_source symbolic_runtime "R300"
      [("irrelevant", PBool false); ("profane", PBool true)] None
      "human_validation_v1_legacy" = Ok u /\
    UpsertSource.response_relevancy u = "'profane but useful'".
Proof.
  eexists. split; [reflexivity|].
  destruct (@response_relevancy_written symbolic_runtime "R300"
              [("irrelevant", PBool false); ("profane", PBool true)] None
              "human_validation_v1_legacy" _ eq_refl) as (_ & _ & _ & _ & _ & H & _).
  exact (H eq_refl eq_refl).
Defined.

(** ** The validation endpoint *)

Section Validation.
Context {rt : PyRuntime} {W : Type} {wh : Warehouse W}.

Lemma write_human_evaluation_calls (review_id : string) (human_eval_data : pydict)
    (machine_eval_data : option pydict) (w : world W) :
  upsert_calls (snd (write_human_evaluation review_id human_eval_data machine_eval_data w))
  = (upsert_calls w ++
     [UpsertCall.mk review_id human_eval_data machine_eval_data
        "human_validation_v1_legacy"])%list.
Proof.
  unfold write_human_evaluation, write_human_evaluation_optimized, set_warehouse.
  cbn [warehouse mock_reviews upsert_calls].
  destruct (negb (client_available (warehouse w))); [reflexivity|].
  destruct (create_table_if_not_exists EVALUATION_TABLE (warehouse w)) as [[b|e] s];
    [|reflexivity].
  destruct (create_table_if_not_exists RECOMMENDATIONS_TABLE s) as [[b'|e] s'];
    [|reflexivity].
  destruct (build_upsert_source _ _ _ _) as [source|e]; [|reflexivity].
  destruct (merge_evaluation source s'); reflexivity.
Qed.

Lemma get_review_detail_raises (review_id : string) (use_databricks : bool)
    (w : world W) (e : exn) :
  get_review_detail review_id use_databricks w = Raise e -> validation_error e = e.
Proof.
  assert (Hmock : mock_detail review_id w = Raise e -> validation_error e = e).
  { unfold mock_detail. destruct (get_mock_review_by_id _ _); [discriminate|].
    intros H; injection H as <-. reflexivity. }
  unfold get_review_detail.
  destruct (negb use_databricks); [exact Hmock|].
  destruct (negb (client_available (warehouse w))); [exact Hmock|].
  destruct (evaluated_detail review_id w); [discriminate|].
  destruct (select_source review_id (warehouse w)) as [[|row rows]|]; [| |exact Hmock].
  - intros H; injection H as <-. reflexivity.
  - unfold convert_flattened_rows_to_review.
    destruct (convert_flattened_rows_body (row :: rows)); cbn; [discriminate|].
    intros H; injection H as <-. reflexivity.
Qed.

(** The human evaluation an accept hands to the builder. *)
Lemma validate_accept_world (review_id : string) (validation : ValidationRequest.t)
    (w : world W) (original_review : ReviewDetail.t) :
  ValidationRequest.decision validation = ACCEPT ->
  get_review_detail review_id true w = Ok original_review ->
  exists human_eval_data machine_eval_data,
    snd (validate_review review_id validation true w)
    = snd (write_human_evaluation review_id human_eval_data (Some machine_eval_data) w) /\
    human_eval_data
    = (let original := ReviewDetail.summary original_review in
       [ ("question_label", PStr (ReviewSummary.question_label original));
         ("question_response", PStr (ReviewSummary.question_response original));
         ("profane", PBool (ReviewSummary.profane original));
         ("rewritten_comment", py_of_str (ReviewSummary.rewritten_comment original));
         ("irrelevant",
          PBool (SentimentAnalysis.irrelevant (ReviewSummary.sentiment_analysis original)));
         ("overall_sentiment_label",
          py_of_str (ReviewSummary.overall_sentiment_label original));
         ("overall_sentiment_score",
          py_of_int (ReviewSummary.overall_sentiment_score original));
         ("category_sentiments", or_nil (ReviewSummary.category_sentiments original));
         ("aspects", PDict []);
         ("store_id", py_of_str (ReviewSummary.store_id original));
         ("visit_datetime", py_of_datetime (ReviewSummary.created_at original)) ]) /\
    machine_eval_data
    = (let original := ReviewDetail.summary original_review in
       [ ("profane", PBool (ReviewSummary.profane original));
         ("rewritten_comment", py_of_str (ReviewSummary.rewritten_comment original));
         ("irrelevant", PBool false);
         ("overall_sentiment_label",
          py_of_str (ReviewSummary.overall_sentiment_label original));
         ("overall_sentiment_score",
          py_of_int (ReviewSummary.overall_sentiment_score original));
         ("category_sentiments", or_nil (ReviewSummary.category_sentiments original)) ]).
Proof.
  intros Hdecision Hlookup. eexists. eexists. split; [|split; reflexivity].
  unfold validate_review. cbn [negb]. rewrite Hlookup, Hdecision. cbn [dict_set String.eqb Ascii.eqb Bool.eqb].
  match goal with
  | |- snd (match ?c with _ => _ end) = _ => destruct c as [[[|]|e] w']; reflexivity
  end.
Qed.

(** C6 (as amended): when [validate_review] is called with decision
    [accept] on a review that [get_review_detail] returns, it calls the
    upsert builder once, and every field on the human-eval side of that
    call (irrelevant, profane, rewritten comment, overall sentiment label
    and score, category sentiments, an absent list counting as empty)
    equals the corresponding field of the displayed summary.  The
    machine-eval side holds the same profane flag, rewritten comment,
    overall sentiment label and score and category sentiments, but its
    irrelevant flag is always false.  The columns of the upsert the
    builder makes of the call carry those values as SQL text. *)
Theorem accept_copies_displayed_summary (review_id : string)
    (validation : ValidationRequest.t) (w : world W) (original_review : ReviewDetail.t) :
  ValidationRequest.decision validation = ACCEPT ->
  get_review_detail review_id true w = Ok original_review ->
  exists human_eval_data machine_eval_data,
    upsert_calls (snd (validate_review review_id validation true w))
    = (upsert_calls w ++
       [UpsertCall.mk review_id human_eval_data (Some machine_eval_data)
          "human_validation_v1_legacy"])%list /\
    lookup human_eval_data "irrelevant"
    = Some (PBool (SentimentAnalysis.irrelevant
                     (ReviewSummary.sentiment_analysis
                        (ReviewDetail.summary original_review)))) /\
    lookup human_eval_data "profane"
    = Some (PBool (ReviewSummary.profane (ReviewDetail.summary original_review))) /\
    lookup human_eval_data "rewritten_comment"
    = Some (py_of_str (ReviewSummary.rewritten_comment
                         (ReviewDetail.summary original_review))) /\
    lookup human_eval_data "overall_sentiment_label"
    = Some (py_of_str (ReviewSummary.overall_sentiment_label
                         (ReviewDetail.summary original_review))) /\
    lookup human_eval_data "overall_sentiment_score"
    = Some (py_of_int (ReviewSummary.overall_sentiment_score
                         (ReviewDetail.summary original_review))) /\
    lookup human_eval_data "category_sentiments"
    = Some (or_nil (ReviewSummary.category_sentiments
                      (ReviewDetail.summary original_review))) /\
    lookup machine_eval_data "irrelevant" = Some (PBool false) /\
    lookup machine_eval_data "profane" = lookup human_eval_data "profane" /\
    lookup machine_eval_data "rewritten_comment"
    = lookup human_eval_data "rewritten_comment" /\
    lookup machine_eval_data "overall_sentiment_label"
    = lookup human_eval_data "overall_sentiment_label" /\
    lookup machine_eval_data "overall_sentiment_score"
    = lookup human_eval_data "overall_sentiment_score" /\
    lookup machine_eval_data "category_sentiments"
    = lookup human_eval_data "category_sentiments" /\
    (forall u : UpsertSource.t,
       build_upsert_source review_id human_eval_data (Some machine_eval_data)
         "human_validation_v1_legacy" = Ok u ->
       UpsertSource.human_eval_irrelevant u
       = (if SentimentAnalysis.irrelevant
               (ReviewSummary.sentiment_analysis (ReviewDetail.summary original_review))
          then "TRUE" else "FALSE") /\
       UpsertSource.machine_eval_irrelevant u = "FALSE" /\
       UpsertSource.human_eval_profane u
       = (if ReviewSummary.profane (ReviewDetail.summary original_review)
          then "TRUE" else "FALSE") /\
       UpsertSource.machine_eval_profane u = UpsertSource.human_eval_profane u /\
       UpsertSource.human_eval_rewritten_comment u
       = _format_sql_value
           (py_of_str (ReviewSummary.rewritten_comment
                         (ReviewDetail.summary original_review))) /\
       UpsertSource.human_eval_overall_sentiment_label u
       = _format_sql_value
           (py_of_str (ReviewSummary.overall_sentiment_label
                         (ReviewDetail.summary original_review))) /\
       UpsertSource.human_eval_overall_sentiment_score u
       = _format_sql_value
           (py_of_int (ReviewSummary.overall_sentiment_score
                         (ReviewDetail.summary original_review))) /\
       UpsertSource.machine_eval_overall_sentiment_score u
       = UpsertSource.human_eval_overall_sentiment_score u).
Proof.
  intros Hdecision Hlookup.
  destruct (validate_accept_world review_id validation w original_review Hdecision Hlookup)
    as (human_eval_data & machine_eval_data & Hworld & -> & ->).
  eexists. eexists. split.
  { rewrite Hworld. apply write_human_evaluation_calls. }
  cbn zeta. repeat match goal with |- _ /\ _ => split end; try reflexivity.
  intros u Hu.
  destruct (build_upsert_source_inv _ _ _ _ _ Hu)
    as (hs & ms & Hhs & _ & _ & Hi & Hp & Hrc & Hl & Hs & Hmi & Hmp & Hms & Hmscore).
  cbn in Hi, Hp, Hrc, Hl, Hmi, Hmp.
  assert (Hscore : hs = py_of_int (ReviewSummary.overall_sentiment_score
                                     (ReviewDetail.summary original_review))).
  { unfold score_or_none in Hhs. cbn in Hhs.
    destruct (ReviewSummary.overall_sentiment_score (ReviewDetail.summary original_review));
      cbn in Hhs; now injection Hhs as <-. }
  repeat match goal with |- _ /\ _ => split end.
  - exact Hi.
  - exact Hmi.
  - exact Hp.
  - now rewrite Hmp, Hp.
  - exact Hrc.
  - exact Hl.
  - now rewrite Hs, Hscore.
  - rewrite Hms, Hs. f_equal.
    unfold score_or_none in Hmscore. cbn in Hmscore. rewrite Hscore.
    destruct (ReviewSummary.overall_sentiment_score (ReviewDetail.summary original_review));
      cbn in Hmscore; now injection Hmscore as <-.
Qed.

(** C7 (as amended): a validate request with decision [skip] never calls
    the upsert builder and leaves the warehouse, hence the evaluation
    table, as it was, for every review id.  It answers with success when
    the review is found ([get_review_detail] returns it); when the review
    is not found or does not convert, it answers with that error. *)
Theorem skip_writes_nothing (review_id : string) (validation : ValidationRequest.t)
    (use_databricks : bool) (w : world W) :
  ValidationRequest.decision validation = SKIP ->
  warehouse (snd (validate_review review_id validation use_databricks w)) = warehouse w /\
  upsert_calls (snd (validate_review review_id validation use_databricks w))
  = upsert_calls w /\
  (forall original_review : ReviewDetail.t,
     get_review_detail review_id use_databricks w = Ok original_review ->
     exists response,
       fst (validate_review review_id validation use_databricks w) = Ok response /\
       Response.success response = true /\
       Response.review_id response = review_id /\
       Response.decision response = SKIP) /\
  (forall e : exn,
     get_review_detail review_id use_databricks w = Raise e ->
     fst (validate_review review_id validation use_databricks w) = Raise e).
Proof.
  intros Hdecision. unfold validate_review.
  destruct use_databricks; cbn [negb].
  - destruct (get_review_detail review_id true w) as [original_review|e] eqn:Hlookup.
    + rewrite Hdecision. cbn. repeat split; try discriminate.
      intros _ _. eexists. repeat split.
    + cbn. repeat split; try discriminate.
      intros e' He'. injection He' as <-. f_equal.
      exact (get_review_detail_raises _ _ _ _ Hlookup).
  - unfold get_review_detail, mock_detail. cbn [negb].
    destruct (get_mock_review_by_id (mock_reviews w) review_id) as [review|].
    + cbn. repeat split; try discriminate.
      intros _ _. eexists. repeat split. exact Hdecision.
    + cbn. repeat split; try discriminate.
      intros e' He'. injection He' as <-. reflexivity.
Qed.

(** C10: on every review, a validate request with decision [override] and
    no updated labels hands the upsert builder the same human evaluation
    and the same machine snapshot as the request with decision [accept],
    and leaves the service in the same state; the two answers differ in
    the decision they echo only. *)
Theorem override_without_labels_as_accept (review_id : string)
    (validation : ValidationRequest.t) (w : world W) :
  without_labels validation = true ->
  snd (validate_review review_id (with_decision validation OVERRIDE) true w)
  = snd (validate_review review_id (with_decision validation ACCEPT) true w) /\
  upsert_calls (snd (validate_review review_id (with_decision validation OVERRIDE) true w))
  = upsert_calls (snd (validate_review review_id (with_decision validation ACCEPT) true w)) /\
  (forall original_review : ReviewDetail.t,
     get_review_detail review_id true w = Ok original_review ->
     exists call,
       upsert_calls
         (snd (validate_review review_id (with_decision validation ACCEPT) true w))
       = (upsert_calls w ++ [call])%list /\
       upsert_calls
         (snd (validate_review review_id (with_decision validation OVERRIDE) true w))
       = (upsert_calls w ++ [call])%list) /\
  match fst (validate_review review_id (with_decision validation ACCEPT) true w),
        fst (validate_review review_id (with_decision validation OVERRIDE) true w) with
  | Ok accepted, Ok overridden =>
      overridden
      = Response.mk (Response.success accepted) (Response.review_id accepted) OVERRIDE
          (Response.corrections_made accepted) (Response.message_text accepted)
  | Raise e, Raise e' => e = e'
  | _, _ => False
  end.
Proof.
  intros Hlabels.
  assert (Hsame :
    forall original_review, get_review_detail review_id true w = Ok original_review ->
    exists human_eval_data machine_eval_data,
      validate_review review_id (with_decision validation ACCEPT) true w
      = match write_human_evaluation review_id human_eval_data (Some machine_eval_data) w with
        | (Raise e, w') => (Raise (validation_error e), w')
        | (Ok false, w') =>
            (Raise (HTTPException 500 "Failed to write evaluation to database" None), w')
        | (Ok true, w') =>
            (Ok (Response.mk true review_id ACCEPT
                   (Some (match ValidationRequest.corrections_made validation with
                          | Some n => n
                          | None => 0
                          end)) HasBeenSaved), w')
        end /\
      validate_review review_id (with_decision validation OVERRIDE) true w
      = match write_human_evaluation review_id human_eval_data (Some machine_eval_data) w with
        | (Raise e, w') => (Raise (validation_error e), w')
        | (Ok false, w') =>
            (Raise (HTTPException 500 "Failed to write evaluation to database" None), w')
        | (Ok true, w') =>
            (Ok (Response.mk true review_id OVERRIDE
                   (Some (match ValidationRequest.corrections_made validation with
                          | Some n => n
                          | None => 0
                          end)) HasBeenSaved), w')
        end).
  { intros original_review Hlookup. unfold validate_review, with_decision, without_labels in *.
    cbn [negb ValidationRequest.decision ValidationRequest.updated_labels
         ValidationRequest.corrections_made].
    rewrite Hlookup.
    destruct (ValidationRequest.updated_labels validation) as [[|kv labels]|];
      try discriminate; eexists; eexists; split; reflexivity. }
  destruct (get_review_detail review_id true w) as [original_review|e] eqn:Hlookup.
  - destruct (Hsame original_review eq_refl) as (hed & med & -> & ->).
    pose proof (write_human_evaluation_calls review_id hed (Some med) w) as Hcalls.
    destruct (write_human_evaluation review_id hed (Some med) w) as [[[|]|e] w'];
      cbn [fst snd] in *; repeat split; try reflexivity;
      intros ? _; eexists; split; exact Hcalls.
  - unfold validate_review. cbn [negb]. rewrite Hlookup. cbn [fst snd].
    repeat split; discriminate.
Qed.

End Validation.

(** ** The endpoint on the sample warehouse *)

(** C6 at review "R100" of the sample warehouse, whose rows are classified
    as useful. *)
Lemma accept_copies_displayed_summary_witness :
  exists human_eval_data machine_eval_data,
    upsert_calls
      (snd (validate_review (rt := symbolic_runtime) "R100" (request ACCEPT) true
              sample_world))
    = [UpsertCall.mk "R100" human_eval_data (Some machine_eval_data)
         "human_validation_v1_legacy"] /\
    lookup human_eval_data "irrelevant" = Some (PBool false) /\
    lookup human_eval_data "overall_sentiment_score" = Some (PInt 4) /\
    lookup machine_eval_data "overall_sentiment_score" = Some (PInt 4) /\
    lookup machine_eval_data "irrelevant" = Some (PBool false).
Proof.
  destruct (get_review_detail (rt := symbolic_runtime) "R100" true sample_world)
    as [original_review|e] eqn:Hfound; [|vm_compute in Hfound; discriminate Hfound].
  destruct (accept_copies_displayed_summary (rt := symbolic_runtime)
              "R100" (request ACCEPT) sample_world original_review eq_refl Hfound)
    as (hed & med & Hcalls & Hirr & _ & _ & _ & Hscore & _ & Hmirr & _ & _ & _ & Hmscore & _).
  vm_compute in Hfound. injection Hfound as <-.
  exists hed, med. split; [exact Hcalls|].
  split; [exact Hirr|]. split; [exact Hscore|]. split; [|exact Hmirr].
  rewrite Hmscore. exact Hscore.
Defined.

(** Review "R300" of the sample warehouse is displayed as irrelevant; on
    accept the human-eval side of the builder's input says so and the
    machine-eval side says it is not, whatever the runtime. *)
Lemma accept_of_irrelevant_review (rt : PyRuntime) :
  exists original_review human_eval_data machine_eval_data,
    get_review_detail "R300" true sample_world = Ok original_review /\
    SentimentAnalysis.irrelevant
      (ReviewSummary.sentiment_analysis (ReviewDetail.summary original_review)) = true /\
    upsert_calls (snd (validate_review "R300" (request ACCEPT) true sample_world))
    = [UpsertCall.mk "R300" human_eval_data (Some machine_eval_data)
         "human_validation_v1_legacy"] /\
    lookup human_eval_data "irrelevant" = Some (PBool true) /\
    lookup machine_eval_data "irrelevant" = Some (PBool false) /\
    lookup machine_eval_data "irrelevant" <> lookup human_eval_data "irrelevant".
Proof.
  assert (Hfound : exists original_review,
             get_review_detail "R300" true sample_world = Ok original_review /\
             SentimentAnalysis.irrelevant
               (ReviewSummary.sentiment_analysis (ReviewDetail.summary original_review))
             = true /\
             ReviewSummary.profane (ReviewDetail.summary original_review) = false)
    by (eexists; split; [reflexivity | split; reflexivity]).
  destruct Hfound as (original_review & Hfound & Hirrelevant & Hprofane).
  destruct (validate_accept_world "R300" (request ACCEPT) sample_world original_review
              eq_refl Hfound) as (hed & med & Hworld & -> & ->).
  exists original_review. eexists. eexists.
  split; [exact Hfound|]. split; [exact Hirrelevant|].
  split; [rewrite Hworld, write_human_evaluation_calls; reflexivity|].
  cbn zeta. cbn [lookup String.eqb Ascii.eqb Bool.eqb]. rewrite Hirrelevant.
  split; [reflexivity|]. split; [reflexivity|]. discriminate.
Qed.

(** C6 as stated fails: on accept of review "R300", displayed as
    irrelevant, the machine-eval side of the builder's input does not hold
    the value of the human-eval side. *)
Lemma accept_machine_snapshot_not_irrelevant :
  exists original_review human_eval_data machine_eval_data,
    get_review_detail (rt := symbolic_runtime) "R300" true sample_world
    = Ok original_review /\
    SentimentAnalysis.irrelevant
      (ReviewSummary.sentiment_analysis (ReviewDetail.summary original_review)) = true /\
    upsert_calls
      (snd (validate_review (rt := symbolic_runtime) "R300" (request ACCEPT) true
              sample_world))
    = [UpsertCall.mk "R300" human_eval_data (Some machine_eval_data)
         "human_validation_v1_legacy"] /\
    lookup human_eval_data "irrelevant" = Some (PBool true) /\
    lookup machine_eval_data "irrelevant" = Some (PBool false) /\
    lookup machine_eval_data "irrelevant" <> lookup human_eval_data "irrelevant".
Proof. exact (accept_of_irrelevant_review symbolic_runtime). Qed.

(** C7 at a review of the sample warehouse: the skip succeeds and nothing
    is written. *)
Lemma skip_writes_nothing_witness :
  snd (validate_review (rt := symbolic_runtime) "R100" (request SKIP) true sample_world)
  = sample_world /\
  exists response,
    fst (validate_review (rt := symbolic_runtime) "R100" (request SKIP) true sample_world)
    = Ok response /\
    Response.success response = true.
Proof.
  split; [reflexivity|].
  destruct (skip_writes_nothing (rt := symbolic_runtime) "R100" (request SKIP) true
              sample_world eq_refl) as (_ & _ & Hskip & _).
  destruct (get_review_detail (rt := symbolic_runtime) "R100" true sample_world)
    as [original_review|e] eqn:Hfound; [|vm_compute in Hfound; discriminate Hfound].
  destruct (Hskip original_review eq_refl) as (response & Hresponse & Hsuccess & _).
  exists response. split; [exact Hresponse | exact Hsuccess].
Defined.

(** The sample warehouse does not know review "R999", and neither does
    the mock data: a skip of it is answered with 404, whatever the
    runtime. *)
Lemma skip_of_unknown_review (rt : PyRuntime) :
  fst (validate_review "R999" (request SKIP) true sample_world)
  = Raise (HTTPException 404 "Review not found" None) /\
  fst (validate_review "R999" (request SKIP) false
         (mkWorld (warehouse sample_world) (MOCK_REVIEWS (fun _ => 1700000000)) []))
  = Raise (HTTPException 404 "Review not found" None).
Proof. split; reflexivity. Qed.

(** C7 as stated fails: for a review id that is not found, a skip does
    not return a success response. *)
Lemma skip_of_unknown_review_is_not_found :
  fst (validate_review (rt := symbolic_runtime) "R999" (request SKIP) true sample_world)
  = Raise (HTTPException 404 "Review not found" None) /\
  fst (validate_review (rt := symbolic_runtime) "R999" (request SKIP) false
         (mkWorld (warehouse sample_world) (MOCK_REVIEWS (fun _ => 1700000000)) []))
  = Raise (HTTPException 404 "Review not found" None).
Proof. exact (skip_of_unknown_review symbolic_runtime). Qed.

(** C10 at review "R300" of the sample warehouse. *)
Lemma override_without_labels_as_accept_witness :
  snd (validate_review (rt := symbolic_runtime) "R300" (request OVERRIDE) true sample_world)
  = snd (validate_review (rt := symbolic_runtime) "R300" (request ACCEPT) true sample_world).
Proof.
  exact (proj1 (override_without_labels_as_accept (rt := symbolic_runtime)
                  "R300" (request ACCEPT) sample_world eq_refl)).
Defined.

(** * Properties of the listing endpoints, the mock data and the metrics *)

(** ** Grouping rows by response id *)

Lemma same_response_of_str (row : Row.t) (rid k : string) :
  response_id_str row = Ok rid ->
  same_response k row = String.eqb rid k.
Proof. intros H. rewrite same_response_spec, H. reflexivity. Qed.

Lemma add_to_group_spec (rid : string) (row : Row.t) (groups : list (string * list Row.t)) :
  NoDup (map fst groups) ->
  NoDup (map fst (add_to_group rid row groups)) /\
  (forall k, In k (map fst (add_to_group rid row groups)) <->
             In k (map fst groups) \/ k = rid) /\
  (forall k g, In (k, g) (add_to_group rid row groups) ->
     (k <> rid /\ In (k, g) groups) \/
     (k = rid /\
      ((exists g0, In (rid, g0) groups /\ g = (g0 ++ [row])%list) \/
       (~ In rid (map fst groups) /\ g = [row])))).
Proof.
  induction groups as [|[k0 g0] rest IH]; intros Hnd.
  - cbn. split; [repeat constructor; intros []|]. split.
    + intros k. split; [intros [<- | []]; now right | intros [[] | ->]; now left].
    + intros k g [H|[]]. injection H as <- <-. right. split; [reflexivity|].
      right. split; [intros []|reflexivity].
  - cbn [add_to_group map fst] in *. inversion Hnd as [|? ? Hnotin Hnd']; subst.
    destruct (String.eqb_spec k0 rid) as [->|Hne].
    + cbn [map fst]. split; [exact Hnd|]. split.
      * intros k. split; [intros H; now left | intros [H | ->]; [exact H | now left]].
      * intros k g [H|H].
        -- injection H as <- <-. right. split; [reflexivity|]. left.
           exists g0. split; [now left | reflexivity].
        -- left. split; [|now right].
           intros ->. apply Hnotin. apply (in_map fst) in H. exact H.
    + destruct (IH Hnd') as (IHnd & IHkeys & IHin). cbn [map fst]. split; [|split].
      * constructor; [|exact IHnd]. rewrite IHkeys. intros [H|H]; [now apply Hnotin | congruence].
      * intros k. cbn [In]. rewrite IHkeys. tauto.
      * intros k g [H|H].
        -- injection H as <- <-. left. split; [exact Hne | now left].
        -- destruct (IHin k g H) as [[Hk Hin]|[-> [(g1 & Hin & ->)|[Hno ->]]]].
           ++ left. split; [exact Hk | now right].
           ++ right. split; [reflexivity|]. left. exists g1. split; [now right | reflexivity].
           ++ right. split; [reflexivity|]. right. split; [|reflexivity].
              intros [H'|H']; [congruence | now apply Hno].
Qed.

Lemma filter_snoc {A : Type} (f : A -> bool) (l : list A) (a : A) :
  filter f (l ++ [a]) = (filter f l ++ if f a then [a] else [])%list.
Proof. rewrite filter_app. cbn. destruct (f a); reflexivity. Qed.

Lemma add_to_group_grouped (seen : list Row.t) (groups : list (string * list Row.t))
    (row : Row.t) (rid : string) :
  response_id_str row = Ok rid ->
  grouped seen groups ->
  grouped (seen ++ [row]) (add_to_group rid row groups).
Proof.
  intros Hrid (Hnd & Hin & Hout).
  destruct (add_to_group_spec rid row groups Hnd) as (Hnd' & Hkeys & Hin').
  split; [exact Hnd'|]. split.
  - intros k g H. rewrite filter_snoc, (same_response_of_str row rid k Hrid).
    destruct (Hin' k g H) as [[Hk Hg]|[-> [(g0 & Hg & ->)|[Hno ->]]]].
    + destruct (Hin k g Hg) as [Hfilter Hne].
      replace (String.eqb rid k) with false
        by (symmetry; apply String.eqb_neq; congruence).
      rewrite app_nil_r. split; [exact Hfilter | exact Hne].
    + destruct (Hin rid g0 Hg) as [Hfilter _]. rewrite String.eqb_refl, <- Hfilter.
      split; [reflexivity | now destruct g0].
    + rewrite String.eqb_refl, (Hout rid Hno). split; [reflexivity | discriminate].
  - intros k Hno. rewrite filter_snoc, (same_response_of_str row rid k Hrid).
    assert (Hk : k <> rid) by (intros ->; apply Hno; rewrite Hkeys; now right).
    replace (String.eqb rid k) with false
      by (symmetry; apply String.eqb_neq; congruence).
    rewrite app_nil_r. apply Hout. intros H. apply Hno. rewrite Hkeys. now left.
Qed.

Lemma group_loop_grouped (db_rows seen : list Row.t)
    (acc groups : list (string * list Row.t)) :
  grouped seen acc ->
  group_loop db_rows acc = Ok groups ->
  grouped (seen ++ db_rows) groups /\ forallb has_response_id db_rows = true.
Proof.
  revert seen acc; induction db_rows as [|row rest IH]; intros seen acc Hacc; cbn [group_loop].
  - intros H; injection H as <-. rewrite app_nil_r. split; [exact Hacc | reflexivity].
  - destruct (response_id_str row) as [rid|e] eqn:Hrid; cbn [bind]; [|discriminate].
    intros H. destruct (IH (seen ++ [row])%list _ (add_to_group_grouped _ _ _ _ Hrid Hacc) H)
      as [Hg Hkeys].
    rewrite <- app_assoc in Hg. split; [exact Hg|].
    cbn [forallb]. rewrite Hkeys, andb_true_r. unfold has_response_id.
    pose proof (response_id_str_cases row) as Hc.
    destruct (Row.response_id row); [congruence | reflexivity | reflexivity].
Qed.

Lemma group_loop_is_ok (db_rows : list Row.t) (acc : list (string * list Row.t)) :
  is_ok (group_loop db_rows acc) = forallb has_response_id db_rows.
Proof.
  revert acc; induction db_rows as [|row rest IH]; intros acc; [reflexivity|].
  cbn [group_loop forallb]. unfold has_response_id at 1.
  pose proof (response_id_str_cases row) as Hc.
  destruct (Row.response_id row); rewrite Hc; cbn [bind is_ok andb]; [reflexivity | apply IH | apply IH].
Qed.

Lemma group_rows_grouped (db_rows : list Row.t) (groups : list (string * list Row.t)) :
  group_rows db_rows = Ok groups ->
  grouped db_rows groups /\ forallb has_response_id db_rows = true.
Proof.
  intros H.
  assert (Hempty : grouped [] []).
  { split; [constructor|]. split; [intros k g []|reflexivity]. }
  exact (group_loop_grouped db_rows [] [] groups Hempty H).
Qed.

(** X1: when the grouping loop ends, the keys of [reviews_by_id] are
    pairwise distinct, the list under a key is not empty and holds exactly
    the rows of that response id in the order of the query result, and
    every row of the result is in some group. *)
Theorem group_rows_partition (db_rows : list Row.t) (groups : list (string * list Row.t)) :
  group_rows db_rows = Ok groups ->
  NoDup (map fst groups) /\
  (forall k g, In (k, g) groups -> g <> [] /\ g = filter (same_response k) db_rows) /\
  (forall row, In row db_rows -> exists k g, In (k, g) groups /\ In row g).
Proof.
  intros H.
  destruct (group_rows_grouped db_rows groups H) as [(Hnd & Hin & Hout) Hkeys].
  split; [exact Hnd|]. split.
  - intros k g Hg. destruct (Hin k g Hg). now split.
  - intros row Hrow.
    assert (Hkey : has_response_id row = true)
      by (rewrite forallb_forall in Hkeys; now apply Hkeys).
    pose proof (response_id_str_cases row) as Hc. unfold has_response_id in Hkey.
    assert (Hstr : exists rid, response_id_str row = Ok rid)
      by (destruct (Row.response_id row); [discriminate | eauto | eauto]).
    destruct Hstr as [rid Hrid].
    assert (Hmember : In row (filter (same_response rid) db_rows)).
    { apply filter_In. split; [exact Hrow|].
      rewrite (same_response_of_str row rid rid Hrid). apply String.eqb_refl. }
    destruct (in_dec string_dec rid (map fst groups)) as [Hyes|Hno].
    + apply in_map_iff in Hyes as ([k g] & Hk & Hg). cbn in Hk. subst k.
      exists rid, g. split; [exact Hg|]. destruct (Hin rid g Hg) as [-> _]. exact Hmember.
    + rewrite (Hout rid Hno) in Hmember. destruct Hmember.
Qed.

Lemma group_rows_partition_witness :
  exists groups,
    group_rows interleaved_rows = Ok groups /\
    map fst groups = ["R100"; "R300"] /\
    NoDup (map fst groups).
Proof.
  eexists. split; [reflexivity|]. split; [reflexivity|].
  exact (proj1 (group_rows_partition interleaved_rows _ eq_refl)).
Defined.

Lemma group_loop_raises (db_rows : list Row.t) (acc : list (string * list Row.t))
    (e : exn) :
  group_loop db_rows acc = Raise e -> e = KeyError "response_id".
Proof.
  revert acc; induction db_rows as [|row rest IH]; intros acc; cbn [group_loop];
    [discriminate|].
  pose proof (response_id_str_cases row) as Hc.
  destruct (Row.response_id row); rewrite Hc; cbn [bind].
  - intros H; now injection H as <-.
  - apply IH.
  - apply IH.
Qed.

(** X2: the grouping loop raises exactly when some row has no
    [response_id] key, and what it raises then is the [KeyError] of that
    key. *)
Theorem group_rows_key_error (db_rows : list Row.t) :
  (is_ok (group_rows db_rows) = false <->
   exists row, In row db_rows /\ Row.response_id row = Absent) /\
  (forall e, group_rows db_rows = Raise e -> e = KeyError "response_id").
Proof.
  unfold group_rows. split.
  - rewrite group_loop_is_ok. split.
    + intros H. induction db_rows as [|row rest IH]; [discriminate|].
      cbn [forallb] in H. unfold has_response_id at 1 in H.
      destruct (Row.response_id row) eqn:Hcell.
      * exists row. split; [now left | exact Hcell].
      * destruct (IH H) as (r & Hr & Ha). exists r. split; [now right | exact Ha].
      * destruct (IH H) as (r & Hr & Ha). exists r. split; [now right | exact Ha].
    + intros (row & Hrow & Hcell).
      destruct (forallb has_response_id db_rows) eqn:Hall; [|reflexivity].
      rewrite forallb_forall in Hall. specialize (Hall row Hrow).
      unfold has_response_id in Hall. rewrite Hcell in Hall. discriminate.
  - intros e. apply group_loop_raises.
Qed.

Lemma filter_same_response_shares (k : string) (db_rows : list Row.t) :
  shares_response_id (filter (same_response k) db_rows) = true.
Proof.
  destruct (filter (same_response k) db_rows) as [|first_row g] eqn:Hg; [reflexivity|].
  assert (Hall : forall row, In row (first_row :: g) -> same_response k row = true).
  { intros row Hrow. rewrite <- Hg in Hrow. now apply filter_In in Hrow. }
  unfold shares_response_id.
  pose proof (Hall first_row (or_introl eq_refl)) as Hfirst.
  unfold same_response in Hfirst.
  assert (Hk : match Row.response_id first_row with
               | Absent => False
               | c => str_of (get c) = k
               end).
  { destruct (Row.response_id first_row); [discriminate | | ];
      now apply String.eqb_eq in Hfirst. }
  destruct (Row.response_id first_row) as [| |s]; [destruct Hk | |];
    rewrite Hk; apply forallb_forall; exact Hall.
Qed.

Lemma grouped_rows_convert_aux (db_rows : list Row.t) (groups : list (string * list Row.t))
    (k : string) (g : list Row.t) :
  group_rows db_rows = Ok groups ->
  In (k, g) groups ->
  g <> [] /\
  shares_response_id g = true /\
  is_ok (convert_flattened_rows_to_review g) = readable g /\
  (forall r, convert_flattened_rows_to_review g = Ok r -> ReviewSummary.response_id r = k).
Proof.
  intros Hgroups Hin.
  destruct (group_rows_grouped db_rows groups Hgroups) as [(_ & Hg & _) _].
  destruct (Hg k g Hin) as [-> Hne].
  pose proof (filter_same_response_shares k db_rows) as Hshare.
  split; [exact Hne|]. split; [exact Hshare|].
  destruct (filter (same_response k) db_rows) as [|first_row rest] eqn:Hfilter;
    [now elim Hne|].
  unfold convert_flattened_rows_to_review. split.
  - rewrite is_ok_conversion_error, convert_body_is_ok, Hshare. reflexivity.
  - intros r. rewrite conversion_error_ok. intros Hr.
    destruct (convert_body_inv _ _ _ Hr) as (rid & l & rel & ql & qr & Hrid & _ & _ & _ & _ & ->).
    cbn [ReviewSummary.response_id].
    assert (Hfirst : same_response k first_row = true).
    { assert (Hmem : In first_row (filter (same_response k) db_rows))
        by (rewrite Hfilter; now left).
      now apply filter_In in Hmem. }
    rewrite (same_response_of_str first_row rid k Hrid) in Hfirst.
    now apply String.eqb_eq in Hfirst.
Qed.


(** X3: a group made by the grouping loop is never empty and never mixes
    response ids, so its conversion fails only when a field the conversion
    reads as a number or as text is NULL; such a group is left out of the
    listing and the others are kept. *)
Theorem grouped_rows_convert (db_rows : list Row.t) (groups : list (string * list Row.t))
    (k : string) (g : list Row.t) :
  group_rows db_rows = Ok groups ->
  In (k, g) groups ->
  g <> [] /\
  shares_response_id g = true /\
  is_ok (convert_flattened_rows_to_review g) = readable g /\
  (forall r, convert_flattened_rows_to_review g = Ok r -> ReviewSummary.response_id r = k).
Proof. exact (grouped_rows_convert_aux db_rows groups k g). Qed.

Lemma grouped_rows_convert_witness :
  exists groups g1 g2,
    group_rows interleaved_rows = Ok groups /\
    groups = [("R100", g1); ("R300", g2)] /\
    is_ok (convert_flattened_rows_to_review g1) = false /\
    is_ok (convert_flattened_rows_to_review g2) = true.
Proof.
  eexists. eexists. eexists. split; [reflexivity|]. split; [reflexivity|].
  split.
  - rewrite (proj1 (proj2 (proj2 (grouped_rows_convert interleaved_rows _ "R100" _
                                     eq_refl (or_introl eq_refl))))).
    reflexivity.
  - rewrite (proj1 (proj2 (proj2 (grouped_rows_convert interleaved_rows _ "R300" _
                                     eq_refl (or_intror (or_introl eq_refl)))))).
    reflexivity.
Defined.

Lemma convert_groups_In (groups : list (string * list Row.t)) (r : ReviewSummary.t) :
  In r (convert_groups groups) <->
  exists k g, In (k, g) groups /\ convert_flattened_rows_to_review g = Ok r.
Proof.
  unfold convert_groups. rewrite in_flat_map. split.
  - intros ([k g] & Hin & Hr). cbn [snd] in Hr.
    destruct (convert_flattened_rows_to_review g) as [r'|] eqn:Hc; [|destruct Hr].
    destruct Hr as [<-|[]]. now exists k, g.
  - intros (k & g & Hin & Hc). exists (k, g). split; [exact Hin|].
    cbn [snd]. rewrite Hc. now left.
Qed.

Lemma convert_groups_ids (groups : list (string * list Row.t)) :
  (forall k g r, In (k, g) groups ->
                 convert_flattened_rows_to_review g = Ok r ->
                 ReviewSummary.response_id r = k) ->
  map ReviewSummary.response_id (convert_groups groups)
  = map fst (filter (fun item => is_ok (convert_flattened_rows_to_review (snd item))) groups).
Proof.
  induction groups as [|[k g] rest IH]; intros Hid; [reflexivity|].
  unfold convert_groups in *. cbn [flat_map filter snd].
  rewrite map_app, IH by (intros k' g' r' Hin; apply Hid; now right).
  destruct (convert_flattened_rows_to_review g) as [r|] eqn:Hc; cbn [is_ok map app fst].
  - now rewrite (Hid k g r (or_introl eq_refl) Hc).
  - reflexivity.
Qed.

Lemma NoDup_map_fst_filter {A B : Type} (f : A * B -> bool) (l : list (A * B)) :
  NoDup (map fst l) -> NoDup (map fst (filter f l)).
Proof.
  induction l as [|x l IH]; intros Hnd; [constructor|].
  cbn [map filter] in *. inversion Hnd as [|? ? Hnotin Hnd']; subst.
  destruct (f x); [|now apply IH].
  cbn [map]. constructor; [|now apply IH].
  intros Hin. apply Hnotin. apply in_map_iff in Hin as (y & Hy & Hin).
  apply filter_In in Hin as [Hin _]. rewrite <- Hy. now apply in_map.
Qed.

(** X4: the listing made from the groups never shows a response id twice:
    it holds one review for each group whose rows can be read, under the
    response id of that group, and no other review. *)
Theorem convert_groups_distinct (db_rows : list Row.t)
    (groups : list (string * list Row.t)) :
  group_rows db_rows = Ok groups ->
  NoDup (map ReviewSummary.response_id (convert_groups groups)) /\
  map ReviewSummary.response_id (convert_groups groups)
  = map fst (filter (fun item => readable (snd item)) groups) /\
  (List.length (convert_groups groups) <= List.length groups)%nat /\
  (forall r, In r (convert_groups groups) ->
     exists g, In (ReviewSummary.response_id r, g) groups /\
               convert_flattened_rows_to_review g = Ok r).
Proof.
  intros Hgroups.
  destruct (group_rows_grouped db_rows groups Hgroups) as [(Hnd & _ & _) _].
  assert (Hid : forall k g r, In (k, g) groups ->
                              convert_flattened_rows_to_review g = Ok r ->
                              ReviewSummary.response_id r = k).
  { intros k g r Hin Hr.
    exact (proj2 (proj2 (proj2 (grouped_rows_convert_aux db_rows groups k g Hgroups Hin))) r Hr). }
  assert (Hsame : filter (fun item => is_ok (convert_flattened_rows_to_review (snd item))) groups
                  = filter (fun item => readable (snd item)) groups).
  { apply filter_ext_in. intros [k g] Hin. cbn [snd].
    exact (proj1 (proj2 (proj2 (grouped_rows_convert_aux db_rows groups k g Hgroups Hin)))). }
  pose proof (convert_groups_ids groups Hid) as Hids.
  split; [|split; [|split]].
  - rewrite Hids. now apply NoDup_map_fst_filter.
  - now rewrite Hids, Hsame.
  - rewrite <- (length_map ReviewSummary.response_id), Hids, length_map.
    apply filter_length_le.
  - intros r Hr. apply convert_groups_In in Hr as (k & g & Hin & Hc).
    exists g. now rewrite (Hid k g r Hin Hc).
Qed.

Lemma convert_groups_distinct_witness :
  exists groups,
    group_rows interleaved_rows = Ok groups /\
    map ReviewSummary.response_id (convert_groups groups) = ["R300"].
Proof.
  eexists. split; [reflexivity|].
  rewrite (proj1 (proj2 (convert_groups_distinct interleaved_rows _ eq_refl))).
  reflexivity.
Defined.

(** ** The mock data *)

Lemma firstn_then_firstn {A : Type} (m k : nat) (l : list A) :
  (firstn m l ++ firstn k (skipn m l))%list = firstn (m + k) l.
Proof.
  revert l; induction m as [|m IH]; intros l; [reflexivity|].
  destruct l as [|a l]; cbn.
  - now rewrite firstn_nil.
  - now rewrite IH.
Qed.

Lemma skipn_skipn_add {A : Type} (m k : nat) (l : list A) :
  skipn k (skipn m l) = skipn (m + k) l.
Proof.
  revert l; induction m as [|m IH]; intros l; [reflexivity|].
  destruct l as [|a l]; cbn; [now destruct k | apply IH].
Qed.

Lemma In_firstn_skipn {A : Type} (m k : nat) (l : list A) (a : A) :
  In a (firstn k (skipn m l)) -> In a l.
Proof.
  intros H. rewrite <- (firstn_skipn m l). apply in_or_app. right.
  rewrite <- (firstn_skipn k (skipn m l)). apply in_or_app. now left.
Qed.

Lemma py_slice_nonneg {A : Type} (l : list A) (start stop : Z) :
  0 <= start -> 0 <= stop ->
  py_slice l start stop
  = firstn (Z.to_nat stop - Z.to_nat start) (skipn (Z.to_nat start) l).
Proof.
  intros Hstart Hstop. unfold py_slice, slice_index.
  destruct (Z.ltb_spec start 0) as [|_]; [lia|].
  destruct (Z.ltb_spec stop 0) as [|_]; [lia|].
  set (n := List.length l).
  destruct (Z.le_gt_cases start (Z.of_nat n)) as [Hs|Hs].
  - rewrite (Z.min_l start) by lia.
    destruct (Z.le_gt_cases stop (Z.of_nat n)) as [Ht|Ht].
    + rewrite (Z.min_l stop) by lia. f_equal. lia.
    + rewrite (Z.min_r stop) by lia.
      rewrite !firstn_all2; try reflexivity; rewrite length_skipn; fold n; lia.
  - rewrite (Z.min_r start) by lia.
    rewrite !(skipn_all2 l) by (fold n; lia). now rewrite !firstn_nil.
Qed.

(** X5: with an offset and a limit that are not negative, a page of mock
    reviews holds the reviews of the requested status from position
    [offset] on, at most [limit] of them and in the order of the data; the
    page that starts where a page ends continues it, so that pages put end
    to end are the one page of their total size. *)
Theorem get_mock_reviews_pages (reviews : list ReviewDetail.t) (status : string)
    (offset limit limit' : Z) :
  0 <= offset -> 0 <= limit -> 0 <= limit' ->
  get_mock_reviews reviews limit offset status
  = firstn (Z.to_nat limit)
      (skipn (Z.to_nat offset)
         (filter (fun r => String.eqb (status_value (review_status r)) status) reviews)) /\
  Z.of_nat (List.length (get_mock_reviews reviews limit offset status)) <= limit /\
  (forall r, In r (get_mock_reviews reviews limit offset status) ->
     In r reviews /\ status_value (review_status r) = status) /\
  (get_mock_reviews reviews limit offset status
   ++ get_mock_reviews reviews limit' (offset + limit) status)%list
  = get_mock_reviews reviews (limit + limit') offset status.
Proof.
  intros Hoffset Hlimit Hlimit'.
  assert (Hpage : forall lim, 0 <= lim ->
            get_mock_reviews reviews lim offset status
            = firstn (Z.to_nat lim)
                (skipn (Z.to_nat offset)
                   (filter (fun r => String.eqb (status_value (review_status r)) status)
                      reviews))).
  { intros lim Hlim. unfold get_mock_reviews. rewrite py_slice_nonneg by lia.
    f_equal. lia. }
  split; [now apply Hpage|]. split; [|split].
  - rewrite (Hpage limit Hlimit), length_firstn. lia.
  - intros r. rewrite (Hpage limit Hlimit). intros Hin.
    apply In_firstn_skipn, filter_In in Hin as [Hin Hstatus].
    split; [exact Hin | now apply String.eqb_eq].
  - rewrite (Hpage limit Hlimit), (Hpage (limit + limit')) by lia.
    unfold get_mock_reviews. rewrite py_slice_nonneg by lia.
    replace (Z.to_nat (offset + limit + limit') - Z.to_nat (offset + limit))%nat
      with (Z.to_nat limit') by lia.
    replace (Z.to_nat (offset + limit)) with (Z.to_nat offset + Z.to_nat limit)%nat by lia.
    rewrite <- skipn_skipn_add, firstn_then_firstn. f_equal. lia.
Qed.

Lemma get_mock_reviews_pages_witness :
  map (fun r => ReviewSummary.response_id (ReviewDetail.summary r))
    (get_mock_reviews (MOCK_REVIEWS (fun _ => 0)) 2 1 "random_sample"
     ++ get_mock_reviews (MOCK_REVIEWS (fun _ => 0)) 2 (1 + 2) "random_sample")%list
  = ["R002"; "R003"; "R004"; "R005"].
Proof.
  rewrite (proj2 (proj2 (proj2 (get_mock_reviews_pages (MOCK_REVIEWS (fun _ => 0))
                                  "random_sample" 1 2 2 ltac:(lia) ltac:(lia) ltac:(lia))))).
  reflexivity.
Defined.

(** X6: a negative limit is not refused: with offset 0 it counts from
    the end of the list, so that the page holds all the reviews of the
    status except the last [-limit] of them. *)
Theorem get_mock_reviews_negative_limit (reviews : list ReviewDetail.t) (status : string)
    (limit : Z) :
  limit < 0 ->
  get_mock_reviews reviews limit 0 status
  = firstn
      (List.length
         (filter (fun r => String.eqb (status_value (review_status r)) status) reviews)
       - Z.to_nat (- limit))
      (filter (fun r => String.eqb (status_value (review_status r)) status) reviews).
Proof.
  intros Hlimit. unfold get_mock_reviews, py_slice, slice_index.
  set (filtered := filter _ reviews). set (n := List.length filtered).
  cbn [Z.add Z.ltb Z.compare]. destruct (Z.ltb_spec limit 0) as [_|]; [|lia].
  rewrite (Z.min_l 0) by lia. cbn [Z.to_nat skipn]. f_equal. lia.
Qed.

Lemma get_mock_reviews_negative_limit_witness :
  map (fun r => ReviewSummary.response_id (ReviewDetail.summary r))
    (get_mock_reviews (MOCK_REVIEWS (fun _ => 0)) (-2) 0 "random_sample")
  = ["R001"; "R002"; "R003"; "R004"].
Proof.
  rewrite (get_mock_reviews_negative_limit (MOCK_REVIEWS (fun _ => 0)) "random_sample" (-2)
             ltac:(lia)).
  reflexivity.
Defined.

Lemma count_status_sum (reviews : list ReviewDetail.t) :
  count_status RANDOM_SAMPLE reviews + count_status COMPLETED reviews
  + count_status RECOMMENDED reviews = Z.of_nat (List.length reviews).
Proof.
  unfold count_status. induction reviews as [|r rest IH]; [reflexivity|].
  cbn [filter List.length]. destruct (review_status r); cbn [status_eqb List.length]; lia.
Qed.

Lemma status_value_eqb (s t : ReviewStatus) :
  String.eqb (status_value s) (status_value t) = status_eqb s t.
Proof. destruct s, t; reflexivity. Qed.

(** X7: in the mock metrics the three counts by status add up to the total
    number of reviews, and each count is the size of the full listing that
    [get_mock_reviews] gives for that status. *)
Theorem get_mock_metrics_counts (reviews : list ReviewDetail.t) :
  MetricsOverview.total_random_sample (get_mock_metrics reviews)
  + MetricsOverview.completed_today (get_mock_metrics reviews)
  + MetricsOverview.recommended_reviews (get_mock_metrics reviews)
  = MetricsOverview.total_reviews (get_mock_metrics reviews) /\
  (forall s : ReviewStatus,
     count_status s reviews
     = Z.of_nat (List.length
                   (get_mock_reviews reviews (Z.of_nat (List.length reviews)) 0
                      (status_value s)))) /\
  MetricsOverview.total_random_sample (get_mock_metrics (MOCK_REVIEWS (fun _ => 0))) = 6 /\
  MetricsOverview.total_reviews (get_mock_metrics (MOCK_REVIEWS (fun _ => 0))) = 8.
Proof.
  split; [apply count_status_sum|]. split; [|split; reflexivity].
  intros s. unfold count_status, get_mock_reviews.
  rewrite py_slice_nonneg by lia. cbn [Z.to_nat skipn Z.add].
  rewrite (filter_ext
             (fun r => String.eqb (status_value (review_status r)) (status_value s))
             (fun r => status_eqb (review_status r) s))
    by (intros r; apply status_value_eqb).
  rewrite firstn_all2; [reflexivity|].
  pose proof (filter_length_le (fun r => status_eqb (review_status r) s) reviews). lia.
Qed.

(** ** The listing endpoints *)

(** Reviews with distinct response ids keep distinct ids under a filter. *)
Lemma distinct_ids_filter (keep : ReviewSummary.t -> bool)
    (reviews : list ReviewSummary.t) :
  NoDup (map ReviewSummary.response_id reviews) ->
  NoDup (map ReviewSummary.response_id (filter keep reviews)).
Proof.
  induction reviews as [|review rest IH]; intros Hdistinct; [constructor|].
  cbn [map filter] in *. apply NoDup_cons_iff in Hdistinct as [Hfresh Hrest].
  destruct (keep review); [|now apply IH].
  cbn [map]. apply NoDup_cons; [|now apply IH].
  rewrite in_map_iff. intros (other & Hid & Hother).
  apply filter_In in Hother as [Hother _].
  apply Hfresh. rewrite <- Hid. now apply in_map.
Qed.

Section ListingProperties.
Context {rt : PyRuntime} {W : Type} {wh : Warehouse W} {ls : Listing W}.

Lemma filter_store_NoDup (store_id : option string) (reviews : list ReviewSummary.t) :
  NoDup (map ReviewSummary.response_id reviews) ->
  NoDup (map ReviewSummary.response_id (filter_store store_id reviews)).
Proof.
  unfold filter_store. destruct (truthy_str store_id); [|trivial].
  apply distinct_ids_filter.
Qed.

Lemma filter_store_In (store_id : option string) (reviews : list ReviewSummary.t)
    (r : ReviewSummary.t) :
  In r (filter_store store_id reviews) ->
  In r reviews /\
  (truthy_str store_id = true -> ReviewSummary.store_id r = store_id).
Proof.
  unfold filter_store. destruct (truthy_str store_id) eqn:Htruthy.
  - intros Hin. apply filter_In in Hin as [Hin Hstore]. split; [exact Hin|]. intros _.
    destruct (ReviewSummary.store_id r) as [s|]; [|discriminate].
    apply String.eqb_eq in Hstore. subst s.
    destruct store_id as [s|]; [reflexivity | discriminate].
  - intros Hin. split; [exact Hin | discriminate].
Qed.

(** X8: a listing of source reviews (any status other than "completed" and
    "recommended") that the warehouse answers shows each response id at
    most once, every review it shows is built from the rows of its id and
    is never marked completed, and with a store filter every review is of
    that store.  When the client or the query fails, and also when a single
    row of the result has no response id, the listing is the mock listing
    instead. *)
Theorem get_reviews_source_listing (rand : Z) (status : string) (limit offset : Z)
    (store_id : option string) (w : world W) :
  String.eqb status "completed" = false ->
  String.eqb status "recommended" = false ->
  (forall db_rows,
     query_reviews_table rand limit offset (Some status)
       (String.eqb status "random_sample") (warehouse w) = Ok db_rows ->
     forallb has_response_id db_rows = true ->
     NoDup (map ReviewSummary.response_id
              (get_reviews rand status limit offset store_id true w)) /\
     (forall r, In r (get_reviews rand status limit offset store_id true w) ->
        ReviewSummary.status r <> COMPLETED /\
        (truthy_str store_id = true -> ReviewSummary.store_id r = store_id) /\
        convert_flattened_rows_to_review
          (filter (same_response (ReviewSummary.response_id r)) db_rows) = Ok r)) /\
  (forall db_rows,
     query_reviews_table rand limit offset (Some status)
       (String.eqb status "random_sample") (warehouse w) = Ok db_rows ->
     forallb has_response_id db_rows = false ->
     get_reviews rand status limit offset store_id true w
     = mock_listing status limit offset store_id w) /\
  (forall e,
     query_reviews_table rand limit offset (Some status)
       (String.eqb status "random_sample") (warehouse w) = Raise e ->
     get_reviews rand status limit offset store_id true w
     = mock_listing status limit offset store_id w).
Proof.
  intros Hcompleted Hrecommended. unfold get_reviews. cbn [negb].
  rewrite Hcompleted, Hrecommended. split; [|split].
  - intros db_rows -> Hkeys.
    destruct (group_rows db_rows) as [groups|e] eqn:Hgroups.
    2:{ pose proof (group_loop_is_ok db_rows []) as Hok. fold (group_rows db_rows) in Hok.
        rewrite Hgroups, Hkeys in Hok. discriminate. }
    destruct (group_rows_grouped db_rows groups Hgroups) as [(Hnd & Hin & _) _].
    assert (Hid : forall k g r, In (k, g) groups ->
                                convert_flattened_rows_to_review g = Ok r ->
                                ReviewSummary.response_id r = k).
    { intros k g r Hg Hr.
      exact (proj2 (proj2 (proj2 (grouped_rows_convert_aux db_rows groups k g Hgroups Hg))) r Hr). }
    split.
    + apply filter_store_NoDup. rewrite (convert_groups_ids groups Hid).
      now apply NoDup_map_fst_filter.
    + intros r Hr. apply filter_store_In in Hr as [Hr Hstore].
      apply convert_groups_In in Hr as (k & g & Hg & Hc).
      pose proof (Hid k g r Hg Hc) as Hk. subst k.
      destruct (Hin _ g Hg) as [Hfilter _]. rewrite <- Hfilter.
      split; [|split; [exact Hstore | exact Hc]].
      unfold convert_flattened_rows_to_review in Hc. rewrite conversion_error_ok in Hc.
      destruct g as [|first_row rest]; [discriminate|].
      destruct (convert_body_inv _ _ _ Hc) as (? & l & ? & ? & ? & _ & _ & _ & _ & _ & ->).
      cbn [ReviewSummary.status]. destruct (existsb extreme_sentiment l); discriminate.
  - intros db_rows -> Hkeys.
    pose proof (group_loop_is_ok db_rows []) as Hok. fold (group_rows db_rows) in Hok.
    rewrite Hkeys in Hok. destruct (group_rows db_rows); [discriminate | reflexivity].
  - intros e ->. reflexivity.
Qed.

Lemma convert_completed_store_id (db_row : EvalRow.t) (r : ReviewSummary.t) :
  convert_completed_review_to_summary db_row = Ok r -> ReviewSummary.store_id r = None.
Proof.
  unfold convert_completed_review_to_summary. rewrite conversion_error_ok.
  unfold convert_completed_review_body, new_ReviewSummary.
  destruct (parse_category_sentiments _) as [l|]; cbn [bind]; [|discriminate].
  destruct (item "response_id" _) as [rid|]; cbn [bind]; [|discriminate].
  destruct (get_or "COMMENT" _) as [ql|]; cbn [bind required_str]; [|discriminate].
  destruct (get_or "" _) as [qr|]; cbn [bind required_str]; [|discriminate].
  intros H; injection H as <-. reflexivity.
Qed.

(** X9: a review read from the evaluation table carries no store id, so a
    listing of completed reviews with a store filter is empty whenever the
    warehouse answers the query, whatever the table holds. *)
Theorem get_reviews_completed_store_filter (rand : Z) (limit offset : Z)
    (store_id : string) (w : world W) (db_rows : list EvalRow.t) :
  store_id <> "" ->
  query_completed_reviews limit offset (warehouse w) = Ok db_rows ->
  get_reviews rand "completed" limit offset (Some store_id) true w = [].
Proof.
  intros Hstore Hquery. unfold get_reviews. cbn [negb String.eqb Ascii.eqb Bool.eqb].
  rewrite Hquery. unfold filter_store.
  assert (Htruthy : truthy_str (Some store_id) = true)
    by (destruct store_id; [now elim Hstore | reflexivity]).
  rewrite Htruthy.
  induction db_rows as [|row rest IH] in |- *; [reflexivity|].
  unfold convert_completed_rows in *. cbn [flat_map]. rewrite filter_app, IH, app_nil_r.
  destruct (convert_completed_review_to_summary row) as [r|] eqn:Hr; [|reflexivity].
  cbn [filter]. now rewrite (convert_completed_store_id row r Hr).
Qed.

End ListingProperties.

Lemma get_reviews_source_listing_witness :
  NoDup (map ReviewSummary.response_id
           (get_reviews (rt := symbolic_runtime) 0 "all" 10 0 None true evaluated_world)) /\
  map ReviewSummary.response_id
    (get_reviews (rt := symbolic_runtime) 0 "all" 10 0 None true evaluated_world)
  = ["R100"; "R300"].
Proof.
  split; [|reflexivity].
  destruct (get_reviews_source_listing (rt := symbolic_runtime) 0 "all" 10 0 None
              evaluated_world eq_refl eq_refl) as (Hlisting & _ & _).
  destruct (query_reviews_table 0 10 0 (Some "all") (String.eqb "all" "random_sample")
              (warehouse evaluated_world)) as [db_rows|e] eqn:Hquery;
    [|vm_compute in Hquery; discriminate Hquery].
  refine (proj1 (Hlisting db_rows eq_refl _)).
  vm_compute in Hquery. injection Hquery as <-. reflexivity.
Defined.

Lemma get_reviews_completed_store_filter_witness :
  get_reviews (rt := symbolic_runtime) 0 "completed" 10 0 (Some "STORE_007") true
    evaluated_world = [] /\
  map ReviewSummary.response_id
    (get_reviews (rt := symbolic_runtime) 0 "completed" 10 0 None true evaluated_world)
  = ["R300"].
Proof.
  split; [|reflexivity].
  destruct (query_completed_reviews 10 0 (warehouse evaluated_world))
    as [db_rows|e] eqn:Hquery; [|vm_compute in Hquery; discriminate Hquery].
  apply (get_reviews_completed_store_filter (rt := symbolic_runtime) 0 10 0 "STORE_007"
           evaluated_world db_rows); [discriminate | exact Hquery].
Defined.

Lemma add_to_group_length (rid : string) (row : Row.t) (groups : list (string * list Row.t)) :
  (List.length (add_to_group rid row groups) <= S (List.length groups))%nat.
Proof.
  induction groups as [|[k g] rest IH]; cbn; [lia|].
  destruct (String.eqb k rid); cbn; lia.
Qed.

Lemma group_loop_length (db_rows : list Row.t) (acc groups : list (string * list Row.t)) :
  group_loop db_rows acc = Ok groups ->
  (List.length groups <= List.length acc + List.length db_rows)%nat.
Proof.
  revert acc; induction db_rows as [|row rest IH]; intros acc; cbn [group_loop].
  - intros H; injection H as <-. cbn. lia.
  - destruct (response_id_str row) as [rid|]; cbn [bind]; [|discriminate].
    intros H. apply IH in H. pose proof (add_to_group_length rid row acc). cbn. lia.
Qed.

Section SampleProperties.
Context {rt : PyRuntime} {W : Type} {wh : Warehouse W} {ls : Listing W}.

(** X10: when the warehouse answers the sample query of a refresh, the
    sample size that [refresh_random_sample] reports is the number of
    response ids, among the rows this execution of the query drew, whose
    rows can be read by the conversion: a group that does not convert is
    left out of the count, so the size is at most the number of ids drawn,
    which is at most the number of rows.  A row without response id makes
    the refresh fail with status 500 and the [KeyError] as cause. *)
Theorem refresh_random_sample_size (rand : Z) (limit : Z) (w : world W)
    (db_rows : list Row.t) :
  query_reviews_table rand limit 0 None true (warehouse w) = Ok db_rows ->
  (forallb has_response_id db_rows = true ->
   exists groups,
     group_rows db_rows = Ok groups /\
     refresh_random_sample rand limit true w
     = Ok (Z.of_nat (List.length (filter (fun item => readable (snd item)) groups))) /\
     refresh_random_sample rand limit true w
     = Ok (Z.of_nat (List.length (convert_groups groups))) /\
     (List.length (filter (fun item => readable (snd item)) groups)
      <= List.length groups <= List.length db_rows)%nat) /\
  (forallb has_response_id db_rows = false ->
   refresh_random_sample rand limit true w
   = Raise (HTTPException 500 "Failed to generate new random sample: "
              (Some (KeyError "response_id")))).
Proof.
  intros Hquery. unfold refresh_random_sample. cbn [negb]. rewrite Hquery. cbn [bind].
  pose proof (group_loop_is_ok db_rows []) as Hok. fold (group_rows db_rows) in Hok.
  split; intros Hkeys; rewrite Hkeys in Hok.
  - destruct (group_rows db_rows) as [groups|] eqn:Hgroups; [|discriminate].
    exists groups. cbn [bind]. split; [reflexivity|].
    destruct (group_rows_grouped db_rows groups Hgroups) as [(Hnd & Hin & _) _].
    assert (Hid : forall k g r, In (k, g) groups ->
                                convert_flattened_rows_to_review g = Ok r ->
                                ReviewSummary.response_id r = k).
    { intros k g r Hg Hr.
      exact (proj2 (proj2 (proj2 (grouped_rows_convert_aux db_rows groups k g Hgroups Hg))) r Hr). }
    assert (Hsame : filter (fun item => is_ok (convert_flattened_rows_to_review (snd item)))
                      groups
                    = filter (fun item => readable (snd item)) groups).
    { apply filter_ext_in. intros [k g] Hg. cbn [snd].
      exact (proj1 (proj2 (proj2 (grouped_rows_convert_aux db_rows groups k g Hgroups Hg)))). }
    assert (Hlen : List.length (convert_groups groups)
                   = List.length (filter (fun item => readable (snd item)) groups)).
    { rewrite <- (length_map ReviewSummary.response_id), (convert_groups_ids groups Hid),
        length_map, Hsame. reflexivity. }
    split; [now rewrite Hlen|]. split; [reflexivity|].
    pose proof (filter_length_le (fun item => readable (snd item)) groups).
    pose proof (group_loop_length db_rows [] groups Hgroups). cbn in *. lia.
  - destruct (group_rows db_rows) as [groups|e] eqn:Hgroups; [discriminate|].
    cbn [bind]. do 3 f_equal. exact (group_loop_raises db_rows [] e Hgroups).
Qed.

End SampleProperties.

Lemma refresh_random_sample_size_witness :
  refresh_random_sample 0 10 true evaluated_world = Ok 1.
Proof.
  destruct (query_reviews_table 0 10 0 None true (warehouse evaluated_world))
    as [db_rows|e] eqn:Hquery; [|vm_compute in Hquery; discriminate Hquery].
  destruct (refresh_random_sample_size 0 10 evaluated_world db_rows Hquery)
    as [Hsize _].
  vm_compute in Hquery. injection Hquery as <-.
  destruct (Hsize eq_refl) as (groups & Hgroups & Hreadable & _).
  vm_compute in Hgroups. injection Hgroups as <-.
  rewrite Hreadable. reflexivity.
Defined.

(** Two executions of the sample query on the same tables can draw
    different reviews, and the sample sizes then differ: of the two pending
    reviews one cannot be converted. *)
Lemma refresh_random_sample_draws :
  refresh_random_sample 0 1 true two_pending_world = Ok 0 /\
  refresh_random_sample 1 1 true two_pending_world = Ok 1 /\
  map ReviewSummary.response_id
    (get_reviews (rt := symbolic_runtime) 1 "random_sample" 1 0 None true
       two_pending_world) = ["R300"] /\
  get_reviews (rt := symbolic_runtime) 0 "random_sample" 1 0 None true
    two_pending_world = [].
Proof. repeat split. Qed.

(** ** The review detail *)

Section DetailProperties.
Context {rt : PyRuntime} {W : Type} {wh : Warehouse W}.

(** X11: [get_review_detail] fails in two ways only: with 404 "Review not
    found", or, when it reads the warehouse, with the 500 of a source group
    that does not convert.  A failing client, a failing query and a failing
    evaluation row are never reported: they lead to the source rows or to
    the mock data.  In mock mode the warehouse is not read at all. *)
Theorem get_review_detail_errors (review_id : string) (use_databricks : bool)
    (w : world W) :
  (forall e, get_review_detail review_id use_databricks w = Raise e ->
     e = HTTPException 404 "Review not found" None \/
     (use_databricks = true /\
      exists results cause,
        select_source review_id (warehouse w) = Some results /\
        convert_flattened_rows_body results = Raise cause /\
        e = HTTPException 500 "Data conversion error: " (Some cause))) /\
  (client_available (warehouse w) = false \/
   (evaluated_detail review_id w = None /\ select_source review_id (warehouse w) = None) ->
   get_review_detail review_id use_databricks w = get_review_detail review_id false w) /\
  (forall w' : world W,
     mock_reviews w' = mock_reviews w ->
     get_review_detail review_id false w' = get_review_detail review_id false w).
Proof.
  split; [|split].
  - intros e.
    assert (Hmock : mock_detail review_id w = Raise e ->
                    e = HTTPException 404 "Review not found" None).
    { unfold mock_detail. destruct (get_mock_review_by_id _ _); [discriminate|].
      intros H; now injection H as <-. }
    unfold get_review_detail. destruct use_databricks; cbn [negb]; [|now left; apply Hmock].
    destruct (negb (client_available (warehouse w))); [now left; apply Hmock|].
    destruct (evaluated_detail review_id w); [discriminate|].
    destruct (select_source review_id (warehouse w)) as [[|row rows]|] eqn:Hsource;
      [| |now left; apply Hmock].
    + intros H; injection H as <-. now left.
    + unfold convert_flattened_rows_to_review.
      destruct (convert_flattened_rows_body (row :: rows)) as [r|cause] eqn:Hbody;
        cbn; [discriminate|].
      intros H; injection H as <-. right. split; [reflexivity|].
      exists (row :: rows), cause. now repeat split.
  - unfold get_review_detail. destruct use_databricks; cbn [negb]; [|reflexivity].
    intros [Hclient|[Heval Hsource]].
    + now rewrite Hclient.
    + destruct (negb (client_available (warehouse w))); [reflexivity|].
      now rewrite Heval, Hsource.
  - intros w' Hmock. unfold get_review_detail, mock_detail. cbn [negb]. now rewrite Hmock.
Qed.

(** X12: evaluation data wins over source data: when the evaluation query
    returns a row for the review and that row converts, the detail is that
    conversion with validation status "completed", whatever the source
    table holds.  An evaluation row that does not convert is passed over,
    and the detail is then what the source rows give, with validation
    status "pending". *)
Theorem get_review_detail_prefers_evaluation (review_id : string) (w : world W)
    (eval_row : EvalRow.t) (more : list EvalRow.t) :
  client_available (warehouse w) = true ->
  select_evaluation review_id (warehouse w) = Some (eval_row :: more) ->
  (forall s, convert_completed_review_to_summary eval_row = Ok s ->
     get_review_detail review_id true w
     = Ok (ReviewDetail.mk s (Some "completed") None None) /\
     ReviewSummary.status s = COMPLETED) /\
  (forall e first_row rest s,
     convert_completed_review_to_summary eval_row = Raise e ->
     select_source review_id (warehouse w) = Some (first_row :: rest) ->
     convert_flattened_rows_to_review (first_row :: rest) = Ok s ->
     get_review_detail review_id true w
     = Ok (ReviewDetail.mk s (Some "pending") None None)).
Proof.
  intros Hclient Heval. unfold get_review_detail, evaluated_detail. cbn [negb].
  rewrite Hclient, Heval. cbn [negb]. split.
  - intros s Hs. rewrite Hs. split; [reflexivity|].
    revert Hs. unfold convert_completed_review_to_summary. rewrite conversion_error_ok.
    unfold convert_completed_review_body, new_ReviewSummary.
    destruct (parse_category_sentiments _) as [l|]; cbn [bind]; [|discriminate].
    destruct (item "response_id" _) as [rid|]; cbn [bind]; [|discriminate].
    destruct (get_or "COMMENT" _) as [ql|]; cbn [bind required_str]; [|discriminate].
    destruct (get_or "" _) as [qr|]; cbn [bind required_str]; [|discriminate].
    intros H; injection H as <-. reflexivity.
  - intros e first_row rest s He Hsource Hs. rewrite He, Hsource, Hs. reflexivity.
Qed.

End DetailProperties.

Lemma get_review_detail_prefers_evaluation_witness :
  exists d,
    get_review_detail (rt := symbolic_runtime) "R300" true evaluated_world = Ok d /\
    ReviewDetail.validation_status d = Some "completed" /\
    ReviewSummary.status (ReviewDetail.summary d) = COMPLETED.
Proof.
  destruct (select_evaluation "R300" (warehouse evaluated_world)) as [[|eval_row more]|]
    eqn:Heval; try (vm_compute in Heval; discriminate Heval).
  destruct (get_review_detail_prefers_evaluation (rt := symbolic_runtime)
              (wh := memory_warehouse) "R300" evaluated_world eval_row more eq_refl Heval)
    as [Hwins _].
  destruct (convert_completed_review_to_summary (rt := symbolic_runtime) eval_row)
    as [s|e] eqn:Hs.
  - destruct (Hwins s eq_refl) as [Hdetail Hstatus].
    eexists. split; [exact Hdetail|]. split; [reflexivity | exact Hstatus].
  - vm_compute in Heval. injection Heval as <- <-. vm_compute in Hs. discriminate Hs.
Defined.

(** ** The validation endpoint, beyond accept and skip *)

Lemma bind_raises {A B : Type} (m : result A) (k : A -> result B) (e : exn) :
  bind m k = Raise e -> m = Raise e \/ exists a, m = Ok a /\ k a = Raise e.
Proof.
  destruct m as [a|e']; cbn; intros H; [right; now exists a | left].
  now injection H as <-.
Qed.

Lemma py_iter_raises (v : pyval) (e : exn) : py_iter v = Raise e -> e = TypeError.
Proof. destruct v; cbn; intros H; try discriminate; now injection H as <-. Qed.

Section WriteProperties.
Context {rt : PyRuntime} {W : Type} {wh : Warehouse W}.

Lemma category_pairs_raises (elements : list pyval) (e : exn) :
  category_pairs elements = Raise e -> e = AttributeError.
Proof.
  induction elements as [|cs rest IH]; cbn [category_pairs]; [discriminate|].
  intros H. apply bind_raises in H as [H|(p & _ & H)].
  - destruct cs; cbn in H; try discriminate; now injection H as <-.
  - apply bind_raises in H as [H|(tl & _ & H)]; [now apply IH | discriminate].
Qed.

Lemma py_int_raises (v : pyval) (e : exn) :
  py_int v = Raise e -> is_HTTPException e = false.
Proof.
  destruct v; cbn; intros H; try discriminate; try (now injection H as <-).
  - destruct (float_trunc f); [discriminate|]. injection H as <-.
    now destruct (PrimFloat.is_nan f).
  - destruct (int_of_str s); [discriminate|]. now injection H as <-.
Qed.

Lemma score_or_none_raises (d : pydict) (e : exn) :
  score_or_none d = Raise e -> is_HTTPException e = false.
Proof.
  unfold score_or_none. destruct (lookup d "overall_sentiment_score") as [v|]; [|discriminate].
  intros H.
  assert (Hint : (z <- py_int v ;; Ok (PInt z)) = Raise e -> is_HTTPException e = false).
  { intros H'. apply bind_raises in H' as [H'|(z & _ & H')]; [|discriminate].
    now apply py_int_raises in H'. }
  destruct v; try (now apply Hint); discriminate.
Qed.

Lemma serialize_raises (sentiments : pyval) (e : exn) :
  serialize_category_sentiments sentiments = Raise e -> e = TypeError.
Proof.
  unfold serialize_category_sentiments. destruct (negb (truthy sentiments)); [discriminate|].
  intros H. apply bind_raises in H as [H|(elements & _ & H)].
  - now apply py_iter_raises in H.
  - destruct (json_dumps _); [discriminate | now injection H as <-].
Qed.

Lemma build_upsert_source_raises (survey_response_id : string) (human_eval_data : pydict)
    (machine_eval_data : option pydict) (evaluation_model : string) (e : exn) :
  build_upsert_source survey_response_id human_eval_data machine_eval_data
    evaluation_model = Raise e ->
  is_HTTPException e = false.
Proof.
  unfold build_upsert_source. intros H.
  apply bind_raises in H as [H|(pairs & _ & H)].
  { unfold category_subcategory_text in H.
    destruct (truthy _); [|discriminate].
    apply bind_raises in H as [H|(elements & _ & H)].
    - now apply py_iter_raises in H as ->.
    - apply bind_raises in H as [H|(ps & _ & H)]; [|discriminate].
      now apply category_pairs_raises in H as ->. }
  apply bind_raises in H as [H|(hjson & _ & H)].
  { now apply serialize_raises in H as ->. }
  apply bind_raises in H as [H|(mjson & _ & H)].
  { destruct (given machine_eval_data); [|discriminate].
    now apply serialize_raises in H as ->. }
  apply bind_raises in H as [H|(hs & _ & H)].
  { now apply score_or_none_raises in H. }
  apply bind_raises in H as [H|(ms & _ & H)]; [|discriminate].
  destruct (given machine_eval_data); [|discriminate].
  now apply score_or_none_raises in H.
Qed.

Lemma create_table_if_not_exists_cases (t : table) (s : W) :
  (exists s', create_table_if_not_exists t s = (Ok true, s')) \/
  (exists e, create_table_if_not_exists t s = (Raise e, s) /\ is_HTTPException e = false).
Proof.
  unfold create_table_if_not_exists. destruct (describe_table t s); [left; eauto|].
  destruct (create_table t s) as [s'|]; [left; eauto|].
  right. eexists. split; reflexivity.
Qed.

(** What a call of the builder comes to. *)
Lemma write_human_evaluation_cases (review_id : string) (human_eval_data : pydict)
    (machine_eval_data : option pydict) (w : world W) :
  let out := write_human_evaluation review_id human_eval_data machine_eval_data w in
  mock_reviews (snd out) = mock_reviews w /\
  ((exists e, fst out = Raise e /\ is_HTTPException e = false) \/
   (exists source s,
      build_upsert_source review_id human_eval_data machine_eval_data
        "human_validation_v1_legacy" = Ok source /\
      ((fst out = Ok true /\ merge_evaluation source s = Some (warehouse (snd out))) \/
       (fst out = Ok false /\ merge_evaluation source s = None /\
        warehouse (snd out) = s)))).
Proof.
  cbn zeta. unfold write_human_evaluation, write_human_evaluation_optimized, set_warehouse.
  cbn [warehouse mock_reviews upsert_calls].
  destruct (negb (client_available (warehouse w))).
  { split; [reflexivity|]. left. eexists. split; reflexivity. }
  destruct (create_table_if_not_exists_cases EVALUATION_TABLE (warehouse w))
    as [[s1 ->]|(e & -> & He)].
  2:{ split; [reflexivity|]. left. exists e. now split. }
  destruct (create_table_if_not_exists_cases RECOMMENDATIONS_TABLE s1)
    as [[s2 ->]|(e & -> & He)].
  2:{ split; [reflexivity|]. left. exists e. now split. }
  destruct (build_upsert_source _ _ _ _) as [source|e] eqn:Hbuild.
  2:{ split; [reflexivity|]. left. exists e. split; [reflexivity|].
      now apply build_upsert_source_raises in Hbuild. }
  destruct (merge_evaluation source s2) as [s3|] eqn:Hmerge.
  - split; [reflexivity|]. right. exists source, s2. split; [reflexivity|]. left. now split.
  - split; [reflexivity|]. right. exists source, s2. split; [reflexivity|]. right.
    now repeat split.
Qed.

End WriteProperties.

(** ** The mark left on the mock data *)

Lemma mark_validated_same (reviews : list ReviewDetail.t) (review_id : string) :
  get_mock_review_by_id (mark_validated reviews review_id) review_id
  = option_map validated (get_mock_review_by_id reviews review_id).
Proof.
  induction reviews as [|review rest IH]; [reflexivity|].
  cbn [mark_validated get_mock_review_by_id].
  destruct (String.eqb _ review_id) eqn:E; cbn [get_mock_review_by_id ReviewDetail.summary].
  - now rewrite E.
  - now rewrite E.
Qed.

Lemma mark_validated_other (reviews : list ReviewDetail.t) (review_id other : string) :
  other <> review_id ->
  get_mock_review_by_id (mark_validated reviews review_id) other
  = get_mock_review_by_id reviews other.
Proof.
  intros Hother. induction reviews as [|review rest IH]; [reflexivity|].
  cbn [mark_validated get_mock_review_by_id].
  destruct (String.eqb_spec (ReviewSummary.response_id (ReviewDetail.summary review))
              review_id) as [Heq|Hne]; cbn [get_mock_review_by_id ReviewDetail.summary].
  - destruct (String.eqb_spec (ReviewSummary.response_id (ReviewDetail.summary review))
                other) as [Heq'|_]; [congruence | reflexivity].
  - now rewrite IH.
Qed.

Lemma mark_validated_ids (reviews : list ReviewDetail.t) (review_id : string) :
  map (fun r => ReviewSummary.response_id (ReviewDetail.summary r))
    (mark_validated reviews review_id)
  = map (fun r => ReviewSummary.response_id (ReviewDetail.summary r)) reviews.
Proof.
  induction reviews as [|review rest IH]; [reflexivity|].
  cbn [mark_validated].
  destruct (String.eqb _ review_id); cbn [map ReviewDetail.summary]; [reflexivity|].
  now rewrite IH.
Qed.

Lemma mark_validated_twice (reviews : list ReviewDetail.t) (review_id : string) :
  mark_validated (mark_validated reviews review_id) review_id
  = mark_validated reviews review_id.
Proof.
  induction reviews as [|review rest IH]; [reflexivity|].
  cbn [mark_validated].
  destruct (String.eqb _ review_id) eqn:E; cbn [mark_validated ReviewDetail.summary];
    rewrite E; [reflexivity|].
  now rewrite IH.
Qed.

Section ValidationProperties.
Context {rt : PyRuntime} {W : Type} {wh : Warehouse W}.

Lemma lookup_dict_set_same (d : pydict) (k : string) (v : pyval) :
  lookup (dict_set d k v) k = Some v.
Proof.
  induction d as [|[k' v'] d IH]; cbn.
  - now rewrite String.eqb_refl.
  - destruct (String.eqb k' k) eqn:E; cbn.
    + now rewrite String.eqb_refl.
    + now rewrite E.
Qed.

Lemma lookup_dict_set_other (d : pydict) (k k' : string) (v : pyval) :
  k <> k' -> lookup (dict_set d k v) k' = lookup d k'.
Proof.
  intros Hk. induction d as [|[k0 v0] d IH]; cbn.
  - destruct (String.eqb_spec k k'); [contradiction | reflexivity].
  - destruct (String.eqb_spec k0 k) as [->|Hne]; cbn.
    + destruct (String.eqb_spec k k'); [contradiction|].
      destruct (String.eqb_spec k k'); [contradiction | reflexivity].
    + destruct (String.eqb_spec k0 k'); [reflexivity | exact IH].
Qed.

(** What an override with labels makes of the human evaluation. *)
Lemma override_with_labels_spec (labels : pydict) (original : ReviewSummary.t)
    (base : pydict) :
  match override_with_labels labels original base with
  | Raise e =>
      (e = AttributeError /\
       forall d, dict_get labels "sentiment_analysis" (PDict []) <> PDict d) \/
      (e = TypeError /\
       (exists d, dict_get labels "sentiment_analysis" (PDict []) = PDict d) /\
       truthy (dict_get labels "category_sentiments"
                 (or_nil (ReviewSummary.category_sentiments original))) = true /\
       py_iter (dict_get labels "category_sentiments"
                  (or_nil (ReviewSummary.category_sentiments original)))
       = Raise TypeError)
  | Ok human_eval_data =>
      (exists d, dict_get labels "sentiment_analysis" (PDict []) = PDict d /\
                 lookup human_eval_data "irrelevant"
                 = Some (dict_get d "irrelevant" (PBool false))) /\
      lookup human_eval_data "profane"
      = Some (dict_get labels "profane" (PBool (ReviewSummary.profane original))) /\
      lookup human_eval_data "rewritten_comment"
      = Some (dict_get labels "rewritten_comment"
                (py_of_str (ReviewSummary.rewritten_comment original))) /\
      lookup human_eval_data "overall_sentiment_label"
      = Some (dict_get labels "overall_sentiment_label"
                (py_of_str (ReviewSummary.overall_sentiment_label original))) /\
      lookup human_eval_data "overall_sentiment_score"
      = Some (dict_get labels "overall_sentiment_score"
                (py_of_int (ReviewSummary.overall_sentiment_score original))) /\
      (exists elements,
         lookup human_eval_data "category_sentiments"
         = Some (PList (map sentiment_as_dict elements)) /\
         let category_sentiments :=
           dict_get labels "category_sentiments"
             (or_nil (ReviewSummary.category_sentiments original)) in
         if truthy category_sentiments
         then py_iter category_sentiments = Ok elements
         else elements = []) /\
      (forall k, ~ In k override_keys ->
                 lookup human_eval_data k = lookup base k)
  end.
Proof.
  unfold override_with_labels.
  destruct (dict_get labels "sentiment_analysis" (PDict [])) as [| | | | | |d| |] eqn:Hsd;
    cbn [bind]; try (left; split; [reflexivity | intros d; discriminate]).
  set (cats := dict_get labels "category_sentiments" _).
  assert (Hfields : forall hed v,
            hed = dict_set
                    (dict_set
                       (dict_set
                          (dict_set
                             (dict_set
                                (dict_set base "irrelevant"
                                   (dict_get d "irrelevant" (PBool false)))
                                "profane"
                                (dict_get labels "profane"
                                   (PBool (ReviewSummary.profane original))))
                             "rewritten_comment"
                             (dict_get labels "rewritten_comment"
                                (py_of_str (ReviewSummary.rewritten_comment original))))
                          "overall_sentiment_label"
                          (dict_get labels "overall_sentiment_label"
                             (py_of_str (ReviewSummary.overall_sentiment_label original))))
                       "overall_sentiment_score"
                       (dict_get labels "overall_sentiment_score"
                          (py_of_int (ReviewSummary.overall_sentiment_score original))))
                    "category_sentiments" v ->
            lookup hed "irrelevant" = Some (dict_get d "irrelevant" (PBool false)) /\
            lookup hed "profane"
            = Some (dict_get labels "profane" (PBool (ReviewSummary.profane original))) /\
            lookup hed "rewritten_comment"
            = Some (dict_get labels "rewritten_comment"
                      (py_of_str (ReviewSummary.rewritten_comment original))) /\
            lookup hed "overall_sentiment_label"
            = Some (dict_get labels "overall_sentiment_label"
                      (py_of_str (ReviewSummary.overall_sentiment_label original))) /\
            lookup hed "overall_sentiment_score"
            = Some (dict_get labels "overall_sentiment_score"
                      (py_of_int (ReviewSummary.overall_sentiment_score original))) /\
            lookup hed "category_sentiments" = Some v /\
            (forall k, ~ In k override_keys -> lookup hed k = lookup base k)).
  { intros hed v ->.
    repeat match goal with
           | |- _ /\ _ => split
           | |- lookup (dict_set _ ?k _) ?k = _ => apply lookup_dict_set_same
           | |- lookup (dict_set _ ?k _) ?k' = _ =>
               rewrite (lookup_dict_set_other _ k k') by discriminate
           end.
    intros k Hk. unfold override_keys in Hk. cbn [In] in Hk.
    repeat (rewrite lookup_dict_set_other; [|intros <-; apply Hk; tauto]).
    reflexivity. }
  destruct (truthy cats) eqn:Htruthy.
  - destruct (py_iter cats) as [elements|e] eqn:Hiter; cbn [bind].
    + destruct (Hfields _ (PList (map sentiment_as_dict elements)) eq_refl)
        as (Hi & Hp & Hr & Hl & Hs & Hc & Hk).
      split; [exists d; split; [reflexivity | exact Hi]|].
      split; [exact Hp|]. split; [exact Hr|]. split; [exact Hl|]. split; [exact Hs|].
      split; [|exact Hk].
      exists elements. split; [exact Hc | reflexivity].
    + right. apply py_iter_raises in Hiter as He. subst e.
      split; [reflexivity|]. split; [now exists d|]. split; reflexivity.
  - destruct (Hfields _ (PList []) eq_refl) as (Hi & Hp & Hr & Hl & Hs & Hc & Hk).
    split; [exists d; split; [reflexivity | exact Hi]|].
    split; [exact Hp|]. split; [exact Hr|]. split; [exact Hl|]. split; [exact Hs|].
    split; [|exact Hk].
    exists []. split; [exact Hc | reflexivity].
Qed.

(** The endpoint, once the review is found. *)
Lemma validate_review_decided (review_id : string) (validation : ValidationRequest.t)
    (w : world W) (original_review : ReviewDetail.t) :
  get_review_detail review_id true w = Ok original_review ->
  validate_review review_id validation true w
  = match decided_evaluation validation (ReviewDetail.summary original_review) with
    | Raise e => (Raise (validation_error e), w)
    | Ok None =>
        (Ok (Response.mk true review_id (ValidationRequest.decision validation)
               None HasBeenSkipped), w)
    | Ok (Some human_eval_data) =>
        match write_human_evaluation review_id human_eval_data
                (Some (machine_eval_snapshot (ReviewDetail.summary original_review))) w with
        | (Raise e, w') => (Raise (validation_error e), w')
        | (Ok false, w') => (Raise write_failed, w')
        | (Ok true, w') =>
            (Ok (Response.mk true review_id (ValidationRequest.decision validation)
                   (Some (match ValidationRequest.corrections_made validation with
                          | Some n => n
                          | None => 0
                          end))
                   HasBeenSaved), w')
        end
    end.
Proof.
  intros Hlookup. unfold validate_review. cbn [negb]. rewrite Hlookup.
  unfold decided_evaluation, accepted_evaluation, human_eval_base, machine_eval_snapshot,
    write_failed.
  destruct (ValidationRequest.decision validation); [reflexivity| |reflexivity].
  destruct (ValidationRequest.updated_labels validation) as [[|kv labels]|]; reflexivity.
Qed.

Lemma decided_evaluation_raises (validation : ValidationRequest.t)
    (original : ReviewSummary.t) (e : exn) :
  decided_evaluation validation original = Raise e ->
  is_HTTPException e = false /\ ValidationRequest.decision validation = OVERRIDE.
Proof.
  unfold decided_evaluation.
  destruct (ValidationRequest.decision validation); try discriminate.
  destruct (ValidationRequest.updated_labels validation) as [[|kv labels]|];
    try discriminate.
  intros H. apply bind_raises in H as [H|(hed & _ & H)]; [|discriminate].
  pose proof (override_with_labels_spec (kv :: labels) original (human_eval_base original))
    as Hspec.
  rewrite H in Hspec. split; [|reflexivity].
  destruct Hspec as [[-> _]|[-> _]]; reflexivity.
Qed.

Lemma decided_evaluation_skip (validation : ValidationRequest.t)
    (original : ReviewSummary.t) :
  decided_evaluation validation original = Ok None <->
  ValidationRequest.decision validation = SKIP.
Proof.
  unfold decided_evaluation.
  destruct (ValidationRequest.decision validation); split; try discriminate;
    try reflexivity.
  destruct (ValidationRequest.updated_labels validation) as [[|kv labels]|];
    try discriminate.
  destruct (override_with_labels _ _ _); discriminate.
Qed.

Lemma get_review_detail_raises_kind (review_id : string) (use_databricks : bool)
    (w : world W) (e : exn) :
  get_review_detail review_id use_databricks w = Raise e ->
  e = review_not_found \/
  exists cause, e = HTTPException 500 "Data conversion error: " (Some cause).
Proof.
  assert (Hmock : mock_detail review_id w = Raise e -> e = review_not_found).
  { unfold mock_detail. destruct (get_mock_review_by_id _ _); [discriminate|].
    intros H; now injection H as <-. }
  unfold get_review_detail.
  destruct (negb use_databricks); [intros H; left; now apply Hmock|].
  destruct (negb (client_available (warehouse w))); [intros H; left; now apply Hmock|].
  destruct (evaluated_detail review_id w); [discriminate|].
  destruct (select_source review_id (warehouse w)) as [[|row rows]|];
    [| |intros H; left; now apply Hmock].
  - intros H; injection H as <-. now left.
  - unfold convert_flattened_rows_to_review.
    destruct (convert_flattened_rows_body (row :: rows)); cbn; [discriminate|].
    intros H; injection H as <-. right. eauto.
Qed.

(** X13: whatever the request, the validation endpoint answers with a
    success that echoes the review id and the decision -- with the
    "skipped" message and no corrections count for a skip, with the "saved"
    message and the request's corrections count (0 when none is given)
    for an accept or override, with the plain message in mock mode -- or
    raises one of four HTTP errors: 404 "Review not found", 500 "Data
    conversion error", 500 "Validation failed" around an exception that
    is not an HTTP error, or 500 "Failed to write evaluation to
    database". *)
Theorem validate_review_answers (review_id : string) (validation : ValidationRequest.t)
    (use_databricks : bool) (w : world W) :
  match fst (validate_review review_id validation use_databricks w) with
  | Ok response =>
      Response.success response = true /\
      Response.review_id response = review_id /\
      Response.decision response = ValidationRequest.decision validation /\
      (Response.message_text response, Response.corrections_made response)
      = (if negb use_databricks then (HasBeenDecided, None)
         else match ValidationRequest.decision validation with
              | SKIP => (HasBeenSkipped, None)
              | _ => (HasBeenSaved,
                      Some (match ValidationRequest.corrections_made validation with
                            | Some n => n
                            | None => 0
                            end))
              end)
  | Raise e =>
      e = review_not_found \/
      (exists cause, e = HTTPException 500 "Data conversion error: " (Some cause)) \/
      (exists cause, e = HTTPException 500 "Validation failed: " (Some cause) /\
                     is_HTTPException cause = false) \/
      e = write_failed
  end.
Proof.
  destruct use_databricks.
  2:{ unfold validate_review. cbn [negb].
      destruct (get_mock_review_by_id (mock_reviews w) review_id); cbn.
      - repeat split.
      - now left. }
  destruct (get_review_detail review_id true w) as [original_review|e] eqn:Hlookup.
  2:{ unfold validate_review. cbn [negb]. rewrite Hlookup. cbn [fst].
      rewrite (get_review_detail_raises _ _ _ _ Hlookup).
      destruct (get_review_detail_raises_kind _ _ _ _ Hlookup) as [->|[cause ->]];
        [now left | right; left; eauto]. }
  rewrite (validate_review_decided _ validation _ _ Hlookup).
  destruct (decided_evaluation validation (ReviewDetail.summary original_review))
    as [[hed|]|e] eqn:Hdecided.
  - assert (Hskip : ValidationRequest.decision validation <> SKIP).
    { intros Hs. apply decided_evaluation_skip with (original := ReviewDetail.summary original_review) in Hs.
      congruence. }
    pose proof (write_human_evaluation_cases review_id hed
                  (Some (machine_eval_snapshot (ReviewDetail.summary original_review))) w)
      as [_ Hcases].
    destruct (write_human_evaluation review_id hed _ w) as [[[|]|e] w']; cbn [fst snd] in *.
    + split; [reflexivity|]. split; [reflexivity|]. split; [reflexivity|].
      destruct (ValidationRequest.decision validation); try reflexivity. now elim Hskip.
    + now right; right; right.
    + destruct Hcases as [(e' & He' & Hplain)|(source & s & _ & [[He' _]|[He' _]])];
        try discriminate.
      injection He' as <-. right; right; left. exists e. split; [|exact Hplain].
      unfold validation_error. now rewrite Hplain.
  - cbn [fst]. apply decided_evaluation_skip in Hdecided. rewrite Hdecided. repeat split.
  - cbn [fst]. apply decided_evaluation_raises in Hdecided as [Hplain _].
    right; right; left. exists e. split; [|exact Hplain].
    unfold validation_error. now rewrite Hplain.
Qed.

(** X14: one request makes at most one call of the writer.  With the
    warehouse, the mock data stay as they are, and either nothing is
    written -- no call, the warehouse untouched, as for a skip and for
    every request that ends in one of the lookup or decision errors -- or
    the calls grow by exactly one, for the request's own review id, under
    the legacy model name, with the machine snapshot of the review that
    was looked up and a human evaluation that carries the review's question
    label, question text, store and visit time.  In mock mode neither the
    warehouse nor the writer is touched. *)
Theorem validate_review_one_call (review_id : string) (validation : ValidationRequest.t)
    (use_databricks : bool) (w : world W) :
  let w' := snd (validate_review review_id validation use_databricks w) in
  if use_databricks then
    mock_reviews w' = mock_reviews w /\
    ((upsert_calls w' = upsert_calls w /\ warehouse w' = warehouse w /\
      (ValidationRequest.decision validation = SKIP \/
       exists e, fst (validate_review review_id validation true w) = Raise e)) \/
     (exists original_review human_eval_data,
        get_review_detail review_id true w = Ok original_review /\
        ValidationRequest.decision validation <> SKIP /\
        upsert_calls w'
        = (upsert_calls w ++
           [legacy_call review_id human_eval_data
              (machine_eval_snapshot (ReviewDetail.summary original_review))])%list /\
        let original := ReviewDetail.summary original_review in
        lookup human_eval_data "question_label"
        = Some (PStr (ReviewSummary.question_label original)) /\
        lookup human_eval_data "question_response"
        = Some (PStr (ReviewSummary.question_response original)) /\
        lookup human_eval_data "store_id"
        = Some (py_of_str (ReviewSummary.store_id original)) /\
        lookup human_eval_data "visit_datetime"
        = Some (py_of_datetime (ReviewSummary.created_at original))))
  else warehouse w' = warehouse w /\ upsert_calls w' = upsert_calls w.
Proof.
  cbn zeta. destruct use_databricks.
  2:{ unfold validate_review. cbn [negb].
      destruct (get_mock_review_by_id (mock_reviews w) review_id); cbn; now split. }
  destruct (get_review_detail review_id true w) as [original_review|e] eqn:Hlookup.
  2:{ unfold validate_review. cbn [negb]. rewrite Hlookup. cbn [fst snd].
      split; [reflexivity|]. left. repeat split. right. eauto. }
  rewrite (validate_review_decided _ validation _ _ Hlookup).
  destruct (decided_evaluation validation (ReviewDetail.summary original_review))
    as [[hed|]|e] eqn:Hdecided.
  - pose proof (write_human_evaluation_cases review_id hed
                  (Some (machine_eval_snapshot (ReviewDetail.summary original_review))) w)
      as [Hmock _].
    pose proof (write_human_evaluation_calls review_id hed
                  (Some (machine_eval_snapshot (ReviewDetail.summary original_review))) w)
      as Hcalls.
    assert (Hbase : forall k, ~ In k override_keys ->
              lookup hed k
              = lookup (human_eval_base (ReviewDetail.summary original_review)) k).
    { intros k Hk. unfold decided_evaluation in Hdecided.
      assert (Haccepted : lookup (accepted_evaluation (ReviewDetail.summary original_review)) k
                          = lookup (human_eval_base (ReviewDetail.summary original_review)) k).
      { unfold accepted_evaluation. cbv zeta. unfold override_keys in Hk. cbn [In] in Hk.
        repeat (rewrite lookup_dict_set_other; [|intros <-; apply Hk; tauto]).
        reflexivity. }
      destruct (ValidationRequest.decision validation); try discriminate.
      - injection Hdecided as <-. exact Haccepted.
      - destruct (ValidationRequest.updated_labels validation) as [[|kv labels]|];
          try (injection Hdecided as <-; exact Haccepted).
        pose proof (override_with_labels_spec (kv :: labels)
                      (ReviewDetail.summary original_review)
                      (human_eval_base (ReviewDetail.summary original_review))) as Hspec.
        destruct (override_with_labels _ _ _) as [hed'|]; [|discriminate].
        injection Hdecided as <-.
        destruct Hspec as (_ & _ & _ & _ & _ & _ & Hrest). now apply Hrest. }
    assert (Hskip : ValidationRequest.decision validation <> SKIP).
    { intros Hs.
      apply decided_evaluation_skip
        with (original := ReviewDetail.summary original_review) in Hs.
      congruence. }
    assert (Hworld : forall out : result Response.t * world W,
              out = match write_human_evaluation review_id hed
                            (Some (machine_eval_snapshot
                                     (ReviewDetail.summary original_review))) w with
                    | (Raise e, w') => (Raise (validation_error e), w')
                    | (Ok false, w') => (Raise write_failed, w')
                    | (Ok true, w') =>
                        (Ok (Response.mk true review_id
                               (ValidationRequest.decision validation)
                               (Some (match ValidationRequest.corrections_made validation with
                                      | Some n => n
                                      | None => 0
                                      end))
                               HasBeenSaved), w')
                    end ->
              snd out = snd (write_human_evaluation review_id hed
                               (Some (machine_eval_snapshot
                                        (ReviewDetail.summary original_review))) w)).
    { intros out ->. now destruct (write_human_evaluation _ _ _ _) as [[[|]|e] w']. }
    rewrite (Hworld _ eq_refl), Hcalls. split; [exact Hmock|].
    right. exists original_review, hed. split; [reflexivity|]. split; [exact Hskip|].
    split; [reflexivity|]. cbn zeta.
    repeat split; (rewrite Hbase; [reflexivity|]);
      unfold override_keys; cbn [In]; intros Hin;
      repeat destruct Hin as [Hin|Hin]; try discriminate; exact Hin.
  - cbn [fst snd]. split; [reflexivity|]. left. repeat split. left.
    now apply decided_evaluation_skip in Hdecided.
  - cbn [fst snd]. split; [reflexivity|]. left. repeat split. right.
    eauto.
Qed.

(** X15: with the warehouse, an accept or override is answered with a
    success only when the upsert's source row could be built from the
    written evaluation and the MERGE statement went through, and the
    warehouse the request leaves is the one the MERGE produced; the answer
    is 500 "Failed to write evaluation to database" only when the source
    row was built and the MERGE statement failed on the warehouse that is
    left; and when the source row cannot be built the answer is 500
    "Validation failed" around an exception that is not an HTTP error. *)
Theorem validate_review_saved_means_merged (review_id : string)
    (validation : ValidationRequest.t) (w : world W) (original_review : ReviewDetail.t)
    (human_eval_data : pydict) :
  get_review_detail review_id true w = Ok original_review ->
  decided_evaluation validation (ReviewDetail.summary original_review)
  = Ok (Some human_eval_data) ->
  let out := validate_review review_id validation true w in
  let built :=
    build_upsert_source review_id human_eval_data
      (Some (machine_eval_snapshot (ReviewDetail.summary original_review)))
      "human_validation_v1_legacy" in
  (is_ok (fst out) = true ->
   exists source s,
     built = Ok source /\ merge_evaluation source s = Some (warehouse (snd out))) /\
  (fst out = Raise write_failed ->
   exists source,
     built = Ok source /\ merge_evaluation source (warehouse (snd out)) = None) /\
  (is_ok built = false ->
   exists cause, fst out = Raise (HTTPException 500 "Validation failed: " (Some cause)) /\
                 is_HTTPException cause = false).
Proof.
  intros Hlookup Hdecided. cbn zeta.
  rewrite (validate_review_decided _ validation _ _ Hlookup), Hdecided.
  pose proof (write_human_evaluation_cases review_id human_eval_data
                (Some (machine_eval_snapshot (ReviewDetail.summary original_review))) w)
    as [_ Hcases].
  cbn zeta in Hcases.
  destruct (write_human_evaluation review_id human_eval_data _ w) as [[[|]|e] w'];
    cbn [fst snd is_ok] in *.
  - destruct Hcases as [(e' & He' & _)|(source & s & Hbuilt & [[_ Hmerge]|[He' _]])];
      try discriminate.
    split; [intros _; exists source, s; now split|].
    split; [discriminate | rewrite Hbuilt; discriminate].
  - destruct Hcases as [(e' & He' & _)|(source & s & Hbuilt & [[He' _]|(_ & Hmerge & ->)])];
      try discriminate.
    split; [discriminate|].
    split; [intros _; exists source; now split | rewrite Hbuilt; discriminate].
  - destruct Hcases as [(e' & He' & Hplain)|(source & s & _ & [[He' _]|[He' _]])];
      try discriminate.
    injection He' as <-.
    split; [discriminate|].
    unfold validation_error, write_failed. rewrite Hplain.
    split; [discriminate|]. intros _. exists e. now split.
Qed.

(** X16: in mock mode every decision, a skip included, marks the review:
    a review of the mock list is answered with a success and is found
    afterwards with validation status "validated" and all its other
    fields as before, by the lookup and by the detail endpoint; every
    other id is looked up as before, the list keeps its ids in order, and a
    second request for the same review changes nothing more.  An id that is
    not in the list is answered 404 and nothing changes. *)
Theorem validate_review_mock_marks (review_id : string)
    (validation : ValidationRequest.t) (w : world W) :
  let out := validate_review review_id validation false w in
  match get_mock_review_by_id (mock_reviews w) review_id with
  | Some review =>
      fst out
      = Ok (Response.mk true review_id (ValidationRequest.decision validation)
              None HasBeenDecided) /\
      get_mock_review_by_id (mock_reviews (snd out)) review_id = Some (validated review) /\
      get_review_detail review_id false (snd out) = Ok (validated review) /\
      (forall other, other <> review_id ->
         get_mock_review_by_id (mock_reviews (snd out)) other
         = get_mock_review_by_id (mock_reviews w) other) /\
      map (fun r => ReviewSummary.response_id (ReviewDetail.summary r))
        (mock_reviews (snd out))
      = map (fun r => ReviewSummary.response_id (ReviewDetail.summary r))
          (mock_reviews w) /\
      (forall validation',
         snd (validate_review review_id validation' false (snd out)) = snd out)
  | None => out = (Raise review_not_found, w)
  end.
Proof.
  cbn zeta. unfold validate_review. cbn [negb].
  destruct (get_mock_review_by_id (mock_reviews w) review_id) as [review|] eqn:Hfound;
    [|reflexivity].
  cbn [fst snd mock_reviews warehouse upsert_calls].
  pose proof (mark_validated_same (mock_reviews w) review_id) as Hsame.
  rewrite Hfound in Hsame. cbn [option_map] in Hsame.
  split; [reflexivity|]. split; [exact Hsame|].
  split.
  { unfold get_review_detail, mock_detail. cbn [negb mock_reviews]. now rewrite Hsame. }
  split; [intros other Hother; now apply mark_validated_other|].
  split; [apply mark_validated_ids|].
  intros validation'. rewrite Hsame. cbn [snd]. f_equal. apply mark_validated_twice.
Qed.

(** X17: an override that carries labels writes, for the profanity flag,
    the rewritten comment and the overall sentiment label and score, the
    label given and otherwise the review's own value; for the relevancy
    it writes the value under the labels' [sentiment_analysis] and otherwise
    [False], whatever the review's own relevancy is; the category
    sentiments are the given ones, each as a dict, or the review's own.
    The machine snapshot is the one of an accept.  Labels whose
    [sentiment_analysis] is not a dict, or whose category sentiments cannot
    be iterated, are answered 500 "Validation failed" and nothing is
    written. *)
Theorem validate_override_with_labels (review_id : string)
    (validation : ValidationRequest.t) (w : world W) (original_review : ReviewDetail.t)
    (kv : string * pyval) (rest : pydict) :
  ValidationRequest.decision validation = OVERRIDE ->
  ValidationRequest.updated_labels validation = Some (kv :: rest) ->
  get_review_detail review_id true w = Ok original_review ->
  let original := ReviewDetail.summary original_review in
  let labels := kv :: rest in
  let out := validate_review review_id validation true w in
  let category_sentiments :=
    dict_get labels "category_sentiments"
      (or_nil (ReviewSummary.category_sentiments original)) in
  match dict_get labels "sentiment_analysis" (PDict []) with
  | PDict sentiment_data =>
      match (if truthy category_sentiments then py_iter category_sentiments else Ok []) with
      | Ok elements =>
          exists human_eval_data,
            upsert_calls (snd out)
            = (upsert_calls w ++
               [legacy_call review_id human_eval_data (machine_eval_snapshot original)])%list /\
            lookup human_eval_data "irrelevant"
            = Some (dict_get sentiment_data "irrelevant" (PBool false)) /\
            lookup human_eval_data "profane"
            = Some (dict_get labels "profane" (PBool (ReviewSummary.profane original))) /\
            lookup human_eval_data "rewritten_comment"
            = Some (dict_get labels "rewritten_comment"
                      (py_of_str (ReviewSummary.rewritten_comment original))) /\
            lookup human_eval_data "overall_sentiment_label"
            = Some (dict_get labels "overall_sentiment_label"
                      (py_of_str (ReviewSummary.overall_sentiment_label original))) /\
            lookup human_eval_data "overall_sentiment_score"
            = Some (dict_get labels "overall_sentiment_score"
                      (py_of_int (ReviewSummary.overall_sentiment_score original))) /\
            lookup human_eval_data "category_sentiments"
            = Some (PList (map sentiment_as_dict elements))
      | Raise e =>
          out = (Raise (HTTPException 500 "Validation failed: " (Some TypeError)), w)
      end
  | _ => out = (Raise (HTTPException 500 "Validation failed: " (Some AttributeError)), w)
  end.
Proof.
  intros Hdecision Hlabels Hlookup. cbn zeta.
  rewrite (validate_review_decided _ validation _ _ Hlookup).
  unfold decided_evaluation. rewrite Hdecision, Hlabels.
  pose proof (write_human_evaluation_calls review_id) as Hcalls.
  pose proof (override_with_labels_spec (kv :: rest) (ReviewDetail.summary original_review)
                (human_eval_base (ReviewDetail.summary original_review))) as Hspec.
  destruct (override_with_labels _ _ _) as [hed|e]; cbn [bind].
  - destruct Hspec as ((d & -> & Hi) & Hp & Hr & Hl & Hs & (elements & Hc & Hel) & _).
    cbn zeta in Hel.
    assert (Hiter : (if truthy (dict_get (kv :: rest) "category_sentiments"
                                  (or_nil (ReviewSummary.category_sentiments
                                             (ReviewDetail.summary original_review))))
                     then py_iter (dict_get (kv :: rest) "category_sentiments"
                                     (or_nil (ReviewSummary.category_sentiments
                                                (ReviewDetail.summary original_review))))
                     else Ok []) = Ok elements).
    { destruct (truthy _); [exact Hel | now rewrite Hel]. }
    rewrite Hiter. exists hed.
    split; [|now repeat split].
    specialize (Hcalls hed (Some (machine_eval_snapshot
                                    (ReviewDetail.summary original_review))) w).
    now destruct (write_human_evaluation review_id hed _ w) as [[[|]|e] w'].
  - destruct Hspec as [[-> Hnot]|(-> & [d ->] & -> & ->)].
    + destruct (dict_get (kv :: rest) "sentiment_analysis" (PDict [])) as [| | | | | |d| |];
        try reflexivity.
      now elim (Hnot d).
    + reflexivity.
Qed.

End ValidationProperties.

(** X15 at the accept of review "R300" on the sample warehouse. *)
Lemma validate_review_saved_means_merged_witness :
  exists source s,
    merge_evaluation (W := Memory.t) source s = Some (warehouse evaluated_world).
Proof.
  destruct (get_review_detail (rt := symbolic_runtime) "R300" true sample_world)
    as [original_review|e] eqn:Hfound; [|vm_compute in Hfound; discriminate Hfound].
  destruct (validate_review_saved_means_merged (rt := symbolic_runtime)
              "R300" (request ACCEPT) sample_world original_review
              (accepted_evaluation (ReviewDetail.summary original_review))
              Hfound eq_refl) as (Hsaved & _ & _).
  destruct (Hsaved eq_refl) as (source & s & _ & Hmerge).
  exists source, s. exact Hmerge.
Defined.

(** X17 at review "R300" of the sample warehouse, displayed as irrelevant:
    an override of the profanity flag alone writes it as relevant. *)
Lemma validate_override_with_labels_witness :
  exists original_review human_eval_data,
    get_review_detail (rt := symbolic_runtime) "R300" true sample_world
    = Ok original_review /\
    SentimentAnalysis.irrelevant
      (ReviewSummary.sentiment_analysis (ReviewDetail.summary original_review)) = true /\
    upsert_calls
      (snd (validate_review (rt := symbolic_runtime) "R300" override_request true
              sample_world))
    = [legacy_call "R300" human_eval_data
         (machine_eval_snapshot (ReviewDetail.summary original_review))] /\
    lookup human_eval_data "irrelevant" = Some (PBool false) /\
    lookup human_eval_data "profane" = Some (PBool true).
Proof.
  destruct (get_review_detail (rt := symbolic_runtime) "R300" true sample_world)
    as [original_review|e] eqn:Hfound; [|vm_compute in Hfound; discriminate Hfound].
  pose proof (validate_override_with_labels (rt := symbolic_runtime)
                "R300" override_request sample_world original_review
                ("profane", PBool true) [] eq_refl eq_refl Hfound) as H.
  cbn zeta in H. cbn [dict_get lookup String.eqb Ascii.eqb Bool.eqb] in H.
  assert (Hirrelevant : SentimentAnalysis.irrelevant
                          (ReviewSummary.sentiment_analysis
                             (ReviewDetail.summary original_review)) = true).
  { vm_compute in Hfound. injection Hfound as <-. reflexivity. }
  destruct (if truthy _ then _ else _) as [elements|e] eqn:Hel in H.
  - destruct H as (hed & Hcalls & Hi & Hp & _).
    exists original_review, hed. split; [reflexivity|]. split; [exact Hirrelevant|].
    split; [exact Hcalls|]. split; [exact Hi | exact Hp].
  - vm_compute in Hfound. injection Hfound as <-. vm_compute in Hel. discriminate Hel.
Defined.

(** ** Completed reviews *)

Section CompletedProperties.
Context {rt : PyRuntime}.

Lemma convert_completed_body_parsed (db_row : EvalRow.t)
    (category_sentiments : list CategorySentiment.t) :
  parse_category_sentiments (get (EvalRow.human_eval_category_sentiments db_row))
  = Ok category_sentiments ->
  convert_completed_review_body db_row
  = (rid <- item "response_id" (EvalRow.response_id db_row) ;;
     new_ReviewSummary (str_of rid)
       (get_or "COMMENT" (EvalRow.question_label db_row))
       (get_or "" (EvalRow.question_response db_row))
       (get_or "" (EvalRow.question_response db_row))
       true
       (bool_of (get_or false (EvalRow.profane db_row)))
       (get_or "" (EvalRow.rewritten_comment db_row))
       (SentimentAnalysis.mk (bool_of (get_or false (EvalRow.irrelevant db_row)))
          None (Some category_sentiments))
       COMPLETED None
       (get (EvalRow.human_eval_overall_sentiment_label db_row))
       (get (EvalRow.human_eval_overall_sentiment_score db_row))
       (Some category_sentiments) None).
Proof. intros H. unfold convert_completed_review_body. now rewrite H. Qed.

Lemma parse_category_sentiments_cases (db_row : EvalRow.t) :
  match EvalRow.human_eval_category_sentiments db_row with
  | Val (String c text) =>
      parse_category_sentiments (get (EvalRow.human_eval_category_sentiments db_row))
      = match load_category_sentiments (String c text) with
        | Ok l => Ok l
        | Raise e => if swallowed e then Ok [] else Raise e
        end
  | _ =>
      parse_category_sentiments (get (EvalRow.human_eval_category_sentiments db_row))
      = Ok []
  end.
Proof.
  destruct (EvalRow.human_eval_category_sentiments db_row) as [| |[|c text]]; reflexivity.
Qed.

(** X18: a row of the evaluation table whose category sentiments are
    absent, NULL or empty is converted exactly when it has a [response_id]
    column and its question label and question text are not NULL.  A JSON
    text that does not load, or whose entries raise a [ValueError] or a
    [KeyError], is read as no sentiments at all, with the result of a NULL
    text; any other exception of the loading (an entry that is not a dict,
    a value that cannot be iterated) fails the conversion.  Every failure
    is a 500 "Data conversion error", and every converted review has status
    completed, the profanity check set, the question text as relevant
    comments, the same sentiments at both places, and no store or date. *)
Theorem convert_completed_review_robust (db_row : EvalRow.t) :
  (forall review, convert_completed_review_to_summary db_row = Ok review ->
     ReviewSummary.status review = COMPLETED /\
     ReviewSummary.profanity_check review = true /\
     ReviewSummary.relevant_comments review = ReviewSummary.question_response review /\
     ReviewSummary.response_id review = str_of (get (EvalRow.response_id db_row)) /\
     (exists category_sentiments,
        ReviewSummary.category_sentiments review = Some category_sentiments /\
        SentimentAnalysis.category_sentiments (ReviewSummary.sentiment_analysis review)
        = Some category_sentiments) /\
     ReviewSummary.store_id review = None /\
     ReviewSummary.created_at review = None) /\
  (forall e, convert_completed_review_to_summary db_row = Raise e ->
     exists cause, e = HTTPException 500 "Data conversion error: " (Some cause)) /\
  (forall text,
     EvalRow.human_eval_category_sentiments db_row = Val text ->
     match load_category_sentiments text with
     | Ok _ => True
     | Raise e =>
         if (swallowed e || String.eqb text "")%bool
         then convert_completed_review_to_summary db_row
              = convert_completed_review_to_summary (without_sentiments db_row)
         else convert_completed_review_to_summary db_row
              = Raise (HTTPException 500 "Data conversion error: " (Some e))
     end) /\
  (EvalRow.human_eval_category_sentiments db_row = Absent \/
   EvalRow.human_eval_category_sentiments db_row = Null ->
   convert_completed_review_to_summary db_row
   = convert_completed_review_to_summary (without_sentiments db_row)) /\
  is_ok (convert_completed_review_to_summary (without_sentiments db_row))
  = (present (EvalRow.response_id db_row) && not_null (EvalRow.question_label db_row)
     && not_null (EvalRow.question_response db_row))%bool.
Proof.
  assert (Hnull : convert_completed_review_body (without_sentiments db_row)
                  = (rid <- item "response_id" (EvalRow.response_id db_row) ;;
                     new_ReviewSummary (str_of rid)
                       (get_or "COMMENT" (EvalRow.question_label db_row))
                       (get_or "" (EvalRow.question_response db_row))
                       (get_or "" (EvalRow.question_response db_row))
                       true
                       (bool_of (get_or false (EvalRow.profane db_row)))
                       (get_or "" (EvalRow.rewritten_comment db_row))
                       (SentimentAnalysis.mk
                          (bool_of (get_or false (EvalRow.irrelevant db_row)))
                          None (Some []))
                       COMPLETED None
                       (get (EvalRow.human_eval_overall_sentiment_label db_row))
                       (get (EvalRow.human_eval_overall_sentiment_score db_row))
                       (Some []) None)) by reflexivity.
  pose proof (parse_category_sentiments_cases db_row) as Hparse.
  split; [|split; [|split; [|split]]].
  - intros review H. unfold convert_completed_review_to_summary in H.
    apply conversion_error_ok in H. unfold convert_completed_review_body in H.
    destruct (parse_category_sentiments _) as [l|e]; [|discriminate]. cbn [bind] in H.
    destruct (EvalRow.response_id db_row) as [| |rid]; cbn [item bind] in H;
      try discriminate;
      unfold new_ReviewSummary in H;
      destruct (required_str (get_or "COMMENT" (EvalRow.question_label db_row)));
      cbn [bind] in H; try discriminate;
      destruct (required_str (get_or "" (EvalRow.question_response db_row)));
      cbn [bind] in H; try discriminate;
      injection H as <-; cbn; repeat split; eauto.
  - intros e H. unfold convert_completed_review_to_summary, conversion_error in H.
    destruct (convert_completed_review_body db_row); [discriminate|].
    injection H as <-. eauto.
  - intros text Hcol. rewrite Hcol in Hparse.
    destruct (load_category_sentiments text) as [l|e] eqn:Hload; [exact I|].
    unfold convert_completed_review_to_summary.
    destruct text as [|c text]; cbv beta iota in Hparse; rewrite <- Hcol in Hparse.
    + rewrite Bool.orb_true_r. f_equal.
      rewrite (convert_completed_body_parsed db_row [] Hparse). now rewrite Hnull.
    + cbn [String.eqb]. rewrite Bool.orb_false_r. rewrite Hload in Hparse.
      destruct (swallowed e).
      * f_equal. rewrite (convert_completed_body_parsed db_row [] Hparse).
        now rewrite Hnull.
      * unfold convert_completed_review_body. now rewrite Hparse.
  - intros [Hcol|Hcol]; rewrite Hcol in Hparse; cbv beta iota in Hparse;
      rewrite <- Hcol in Hparse; unfold convert_completed_review_to_summary; f_equal;
      rewrite (convert_completed_body_parsed db_row [] Hparse); now rewrite Hnull.
  - unfold convert_completed_review_to_summary. rewrite is_ok_conversion_error, Hnull.
    destruct (EvalRow.response_id db_row), (EvalRow.question_label db_row),
      (EvalRow.question_response db_row); reflexivity.
Qed.

End CompletedProperties.

(** ** Similar reviews *)

Section SimilarProperties.
Context {rt : PyRuntime} {vs : VectorSearch}.

Lemma collect_similar_exact (num_results : Z) (exclude_response_id : option string)
    (data_array : list (list pyval)) :
  forallb has_columns data_array = true ->
  forall similar_reviews,
    collect_similar data_array num_results exclude_response_id similar_reviews
    = Some (similar_reviews ++
            firstn (Z.to_nat (num_results - Z.of_nat (List.length similar_reviews)))
              (map (fun result => similar_entry (hit_id result) result)
                 (filter (kept exclude_response_id) data_array)))%list.
Proof.
  induction data_array as [|result rest IH]; intros Hcols acc.
  - cbn. now rewrite firstn_nil, app_nil_r.
  - cbn [forallb] in Hcols. apply andb_prop in Hcols as [Hresult Hrest].
    destruct result as [|first columns]; [discriminate|].
    cbn [collect_similar filter]. unfold kept at 1. cbn [hit_id].
    destruct (excluded exclude_response_id (py_str first)); cbn [negb].
    + now apply IH.
    + destruct (Z.geb_spec (Z.of_nat (List.length acc)) num_results) as [Hfull|Hroom].
      * replace (Z.to_nat (num_results - Z.of_nat (List.length acc))) with 0%nat by lia.
        cbn [firstn]. now rewrite app_nil_r.
      * rewrite (IH Hrest). rewrite length_app. cbn [List.length map].
        replace (Z.to_nat (num_results - Z.of_nat (List.length acc)))
          with (S (Z.to_nat (num_results - Z.of_nat (List.length acc + 1)))) by lia.
        cbn [firstn hit_id]. now rewrite <- app_assoc.
Qed.

Lemma collect_similar_kept (num_results : Z) (exclude_response_id : option string)
    (data_array : list (list pyval)) :
  forall similar_reviews found,
    collect_similar data_array num_results exclude_response_id similar_reviews
    = Some found ->
    exists added,
      found = (similar_reviews ++ added)%list /\
      Z.of_nat (List.length found)
      <= Z.max (Z.of_nat (List.length similar_reviews)) num_results /\
      Forall (fun entry =>
                exists result,
                  In result data_array /\ has_columns result = true /\
                  kept exclude_response_id result = true /\
                  entry = similar_entry (hit_id result) result) added.
Proof.
  induction data_array as [|result rest IH]; intros acc found H.
  - cbn in H. injection H as <-. exists []. rewrite app_nil_r.
    split; [reflexivity|]. split; [lia | constructor].
  - destruct result as [|first columns]; [discriminate|].
    cbn [collect_similar] in H.
    destruct (excluded exclude_response_id (py_str first)) eqn:Hex.
    + destruct (IH _ _ H) as (added & -> & Hlen & Hall).
      exists added. split; [reflexivity|]. split; [exact Hlen|].
      eapply Forall_impl; [|exact Hall].
      intros entry (result & Hin & Hrest). exists result. split; [now right | exact Hrest].
    + destruct (Z.geb_spec (Z.of_nat (List.length acc)) num_results) as [Hfull|Hroom].
      * injection H as <-. exists []. rewrite app_nil_r.
        split; [reflexivity|]. split; [lia | constructor].
      * destruct (IH _ _ H) as (added & -> & Hlen & Hall).
        exists (similar_entry (py_str first) (first :: columns) :: added).
        split; [now rewrite <- app_assoc|].
        split.
        { rewrite !length_app in *. cbn [List.length] in *. lia. }
        constructor.
        -- exists (first :: columns). split; [now left|]. split; [reflexivity|].
           split; [|reflexivity]. unfold kept. cbn [hit_id]. now rewrite Hex.
        -- eapply Forall_impl; [|exact Hall].
           intros entry (result & Hin & Hrest). exists result.
           split; [now right | exact Hrest].
Qed.

Lemma collect_similar_no_columns (num_results : Z) (exclude_response_id : option string)
    (front rest : list (list pyval)) :
  forallb has_columns front = true ->
  forall similar_reviews,
    filter (kept exclude_response_id) front = [] \/
    Z.of_nat (List.length similar_reviews
              + List.length (filter (kept exclude_response_id) front)) <= num_results ->
    collect_similar (front ++ [] :: rest) num_results exclude_response_id similar_reviews
    = None.
Proof.
  induction front as [|result front IH]; intros Hcols acc Hcount; [reflexivity|].
  cbn [forallb] in Hcols. apply andb_prop in Hcols as [Hresult Hfront].
  destruct result as [|first columns]; [discriminate|].
  cbn [app collect_similar]. cbn [filter] in Hcount.
  assert (Hk : kept exclude_response_id (first :: columns)
               = negb (excluded exclude_response_id (py_str first))) by reflexivity.
  rewrite Hk in Hcount. clear Hk.
  destruct (excluded exclude_response_id (py_str first)); cbn [negb] in Hcount.
  - now apply IH.
  - destruct Hcount as [Hcount|Hcount]; [discriminate|].
    cbn [List.length] in Hcount.
    destruct (Z.geb_spec (Z.of_nat (List.length acc)) num_results) as [Hfull|Hroom]; [lia|].
    apply IH; [exact Hfront|]. right. rewrite length_app. cbn [List.length]. lia.
Qed.

(** The entries of the answer. *)
Lemma get_similar_reviews_entries (query_text : string) (num_results : Z)
    (exclude_response_id : option string) :
  let found := get_similar_reviews query_text num_results exclude_response_id in
  Z.of_nat (List.length found) <= Z.max 0 num_results /\
  (forall entry, In entry found ->
     lookup entry "similarity_score" = Some (PFloat 1.0%float) /\
     exists response_id,
       lookup entry "response_id" = Some (PStr response_id) /\
       (truthy_str exclude_response_id = true ->
        response_id <> str_of exclude_response_id)).
Proof.
  cbn zeta. unfold get_similar_reviews.
  destruct VECTOR_SEARCH_AVAILABLE; cbn [negb];
    [|split; [cbn; lia | intros entry []]].
  destruct (get_embeddings query_text) as [query_vector|];
    [|split; [cbn; lia | intros entry []]].
  destruct (query_index query_vector _) as [data_array|];
    [|split; [cbn; lia | intros entry []]].
  destruct (collect_similar data_array num_results exclude_response_id [])
    as [found|] eqn:Hcollect; [|split; [cbn; lia | intros entry []]].
  destruct (collect_similar_kept _ _ _ _ _ Hcollect) as (added & Hfound & Hlen & Hall).
  cbn [app List.length] in Hfound, Hlen. subst added.
  split; [exact Hlen|].
  intros entry Hin. rewrite Forall_forall in Hall.
  destruct (Hall entry Hin) as (result & _ & _ & Hkept & ->).
  split; [reflexivity|]. exists (hit_id result). split; [reflexivity|].
  intros Htruthy Heq. unfold kept, excluded in Hkept.
  rewrite Htruthy, Heq, String.eqb_refl in Hkept. discriminate.
Qed.

(** X19: the similar reviews found for a text are at most [num_results]
    (none for a number that is not positive), each is built from a hit of
    the index and carries the hit's id as a string and the similarity
    score 1.0, and none has the id to exclude when one is given.  The
    function answers with the empty list when the search is not available,
    when the embedding or the query fails, and when a hit without columns
    comes before the answer is full; the query asks for five results more
    when an id is excluded.  When every hit has columns, the answer is
    exactly the first [num_results] hits that are not excluded, in the
    order of the index. *)
Theorem get_similar_reviews_results (query_text : string) (num_results : Z)
    (exclude_response_id : option string) :
  let found := get_similar_reviews query_text num_results exclude_response_id in
  Z.of_nat (List.length found) <= Z.max 0 num_results /\
  (forall entry, In entry found ->
     lookup entry "similarity_score" = Some (PFloat 1.0%float) /\
     exists response_id,
       lookup entry "response_id" = Some (PStr response_id) /\
       (truthy_str exclude_response_id = true ->
        response_id <> str_of exclude_response_id)) /\
  (VECTOR_SEARCH_AVAILABLE = false \/ get_embeddings query_text = None -> found = []) /\
  (forall query_vector,
     get_embeddings query_text = Some query_vector ->
     query_index query_vector
       (num_results + (if truthy_str exclude_response_id then 5 else 0)) = None ->
     found = []) /\
  (forall query_vector front rest,
     get_embeddings query_text = Some query_vector ->
     query_index query_vector
       (num_results + (if truthy_str exclude_response_id then 5 else 0))
     = Some (front ++ [] :: rest)%list ->
     forallb has_columns front = true ->
     Z.of_nat (List.length (filter (kept exclude_response_id) front))
     <= Z.max 0 num_results ->
     found = []) /\
  (forall query_vector data_array,
     VECTOR_SEARCH_AVAILABLE = true ->
     get_embeddings query_text = Some query_vector ->
     query_index query_vector
       (num_results + (if truthy_str exclude_response_id then 5 else 0))
     = Some data_array ->
     forallb has_columns data_array = true ->
     found = firstn (Z.to_nat num_results)
               (map (fun result => similar_entry (hit_id result) result)
                  (filter (kept exclude_response_id) data_array))).
Proof.
  cbn zeta.
  destruct (get_similar_reviews_entries query_text num_results exclude_response_id)
    as [Hlen Hentries].
  split; [exact Hlen|]. split; [exact Hentries|]. clear Hlen Hentries.
  unfold get_similar_reviews.
  destruct VECTOR_SEARCH_AVAILABLE; cbn [negb];
    [|split; [reflexivity | split; [reflexivity | split; [reflexivity | discriminate]]]].
  destruct (get_embeddings query_text) as [query_vector|];
    [|split; [reflexivity | split; [discriminate | split; discriminate]]].
  split; [intros [H|H]; discriminate|].
  split; [|split].
  - intros qv Hqv Hquery. injection Hqv as <-. now rewrite Hquery.
  - intros qv front rest Hqv Hquery Hcols Hcount. injection Hqv as <-.
    rewrite Hquery, collect_similar_no_columns; [reflexivity | exact Hcols |].
    destruct (filter (kept exclude_response_id) front) as [|hit hits]; [now left|].
    right. cbn [List.length] in *. lia.
  - intros qv data_array _ Hqv Hquery Hcols. injection Hqv as <-.
    rewrite Hquery, (collect_similar_exact _ _ _ Hcols). cbn [app List.length].
    now rewrite Z.sub_0_r.
Qed.

End SimilarProperties.

(** The length that the similar-reviews endpoint tests is counted in
    characters, after the whitespace of Unicode is removed at both ends: six
    ideographs held in eighteen bytes count six; a no-break space and an
    ideographic space around nine characters leave nine; and the characters
    of a text with an accent and an emoji are its code points. *)
Lemma stripped_length_examples :
  List.length
    (strip (code_points
              (text_of_bytes [227; 129; 168; 227; 129; 166; 227; 130; 130;
                              231; 190; 142; 229; 145; 179; 227; 129; 151])))
  = 6%nat /\
  List.length
    (strip (code_points
              (text_of_bytes [194; 160; 103; 111; 111; 100; 32; 102; 111; 111; 100;
                              227; 128; 128])))
  = 9%nat /\
  strip (code_points
           (text_of_bytes [226; 128; 131; 32; 99; 97; 102; 195; 169; 32;
                           240; 159; 152; 128; 32; 111; 107; 10]))
  = [99; 97; 102; 233; 32; 128512; 32; 111; 107]%N.
Proof. repeat split. Qed.

Section SimilarEndpointProperties.
Context {rt : PyRuntime} {vs : VectorSearch} {W : Type} {wh : Warehouse W}.

(** The conversion of the row built for a similar review. *)
Lemma convert_similar_db_row (response_id : string) (question_label question_response : cell string) :
  convert_databricks_to_review
    (Row.mk (Val response_id) question_label question_response Absent (Val false) (Val "")
       Absent Absent Absent Absent Absent Absent Absent Absent Absent Absent)
  = conversion_error
      (new_ReviewSummary response_id (get_or "COMMENT" question_label)
         (get_or "" question_response) (get_or "" question_response)
         true false (Some "") (SentimentAnalysis.mk false None (Some []))
         RANDOM_SAMPLE None None None (Some []) None).
Proof.
  unfold convert_databricks_to_review, convert_flattened_rows_to_review,
    convert_flattened_rows_body, response_id_str.
  cbn [Row.response_id item bind str_of verify_same_response].
  unfold response_id_str. cbn [Row.response_id item bind str_of].
  rewrite String.eqb_refl. reflexivity.
Qed.

Lemma similar_review_inv (row : pydict) (review : ReviewSummary.t) :
  similar_review row = Ok review ->
  (exists v, lookup row "response_id" = Some v /\
             ReviewSummary.response_id review = py_str v) /\
  ReviewSummary.status review = RECOMMENDED /\
  ReviewSummary.category_sentiments review = Some [] /\
  SentimentAnalysis.irrelevant (ReviewSummary.sentiment_analysis review) = false /\
  SentimentAnalysis.category_sentiments (ReviewSummary.sentiment_analysis review)
  = Some [] /\
  ReviewSummary.profane review = false /\
  ReviewSummary.rewritten_comment review = Some "" /\
  ReviewSummary.store_id review = None /\
  ReviewSummary.overall_sentiment_label review = None /\
  ReviewSummary.overall_sentiment_score review = None /\
  ReviewSummary.relevant_comments review = ReviewSummary.question_response review.
Proof.
  unfold similar_review, similar_db_row, subscript. intros H.
  destruct (lookup row "response_id") as [v|]; [|discriminate]. cbn [bind] in H.
  destruct (lookup row "question_response") as [qr|]; [|discriminate]. cbn [bind] in H.
  repeat match type of H with
         | context [aspect_float row ?k] =>
             destruct (aspect_float row k); [|discriminate]; cbn [bind] in H
         end.
  rewrite convert_similar_db_row in H.
  unfold new_ReviewSummary in H.
  destruct (required_str (get_or "COMMENT" _)); [|discriminate]. cbn [bind] in H.
  destruct (required_str (get_or "" _)); [|discriminate]. cbn [bind conversion_error] in H.
  injection H as <-. cbn. repeat split. now exists v.
Qed.

Lemma convert_similar_In (rows : list pydict) (review : ReviewSummary.t) :
  In review (convert_similar rows) ->
  exists row, In row rows /\ similar_review row = Ok review.
Proof.
  unfold convert_similar. rewrite in_flat_map. intros (row & Hrow & Hin).
  exists row. split; [exact Hrow|].
  destruct (similar_review row) as [r|]; [|contradiction].
  destruct Hin as [<- | []]. reflexivity.
Qed.

Lemma convert_similar_length (rows : list pydict) :
  (List.length (convert_similar rows) <= List.length rows)%nat.
Proof.
  induction rows as [|row rows IH]; [apply Nat.le_refl|].
  unfold convert_similar in *. cbn [flat_map]. rewrite length_app.
  destruct (similar_review row); cbn [List.length]; lia.
Qed.

(** X20: the similar reviews of a review are at most [limit], every one
    of them has status recommended, no category sentiments, the relevancy,
    profanity, store and overall sentiment left at their defaults, and --
    for a review id that is not empty -- an id other than the review's own.
    The answer is empty in mock mode, when the review cannot be looked up,
    and when its text has fewer than ten characters once the whitespace at
    its ends is removed. *)
Theorem get_similar_reviews_for_review_results (review_id : string) (limit : Z)
    (use_databricks : bool) (w : world W) :
  let similar := get_similar_reviews_for_review review_id limit use_databricks w in
  Z.of_nat (List.length similar) <= Z.max 0 limit /\
  (forall review, In review similar ->
     ReviewSummary.status review = RECOMMENDED /\
     (review_id <> "" -> ReviewSummary.response_id review <> review_id) /\
     ReviewSummary.category_sentiments review = Some [] /\
     SentimentAnalysis.irrelevant (ReviewSummary.sentiment_analysis review) = false /\
     ReviewSummary.profane review = false /\
     ReviewSummary.rewritten_comment review = Some "" /\
     ReviewSummary.store_id review = None /\
     ReviewSummary.overall_sentiment_score review = None /\
     ReviewSummary.relevant_comments review = ReviewSummary.question_response review) /\
  (use_databricks = false -> similar = []) /\
  (forall e, get_review_detail review_id true w = Raise e -> similar = []) /\
  (forall original_review,
     get_review_detail review_id true w = Ok original_review ->
     Z.of_nat (List.length
                 (strip (code_points (ReviewSummary.question_response
                                        (ReviewDetail.summary original_review))))) < 10 ->
     similar = []).
Proof.
  cbn zeta. unfold get_similar_reviews_for_review.
  destruct use_databricks; cbn [negb].
  2:{ split; [cbn; lia|]. split; [intros review []|]. repeat split. }
  destruct (get_review_detail review_id true w) as [original_review|e].
  2:{ split; [cbn; lia|]. split; [intros review []|]. repeat split. }
  set (query_text := ReviewSummary.question_response (ReviewDetail.summary original_review)).
  destruct (negb (truthy (PStr query_text))
            || (Z.of_nat (List.length (strip (code_points query_text))) <? 10))%bool
    eqn:Hshort.
  { split; [cbn; lia|]. split; [intros review []|]. repeat split. }
  apply Bool.orb_false_elim in Hshort as [_ Hlong]. apply Z.ltb_ge in Hlong.
  destruct (get_similar_reviews_entries query_text limit (Some review_id))
    as [Hlen Hentries].
  split.
  { pose proof (convert_similar_length
                  (get_similar_reviews query_text limit (Some review_id))). lia. }
  split.
  { intros review Hin. apply convert_similar_In in Hin as (row & Hrow & Hreview).
    destruct (similar_review_inv _ _ Hreview)
      as ((v & Hv & Hid) & Hstatus & Hcats & Hirr & _ & Hprofane & Hrew & Hstore & _
          & Hscore & Hrel).
    destruct (Hentries row Hrow) as (_ & response_id & Hrid & Hother).
    rewrite Hv in Hrid. injection Hrid as ->. cbn [py_str] in Hid.
    split; [exact Hstatus|].
    split.
    { intros Hne. rewrite Hid. apply Hother. destruct review_id; [now elim Hne | reflexivity]. }
    repeat split; assumption. }
  split; [discriminate|]. split; [discriminate|].
  intros original_review' H Hlt. injection H as <-. fold query_text in Hlt. lia.
Qed.

End SimilarEndpointProperties.

(** ** Metrics *)

Lemma count_cons {A : Type} (p : A -> bool) (x : A) (l : list A) :
  count p (x :: l) = (if p x then 1 else 0) + count p l.
Proof. unfold count. cbn [filter]. destruct (p x); cbn [List.length]; lia. Qed.

Lemma count_bounds {A : Type} (p : A -> bool) (l : list A) :
  0 <= count p l <= Z.of_nat (List.length l).
Proof.
  induction l as [|x l IH]; [cbn; lia|].
  rewrite count_cons. cbn [List.length]. destruct (p x); lia.
Qed.

Lemma accuracy_loop_counts_from (accuracy_results : list (option Z * option Z))
    (accurate_predictions total_corrections : Z) :
  accuracy_loop accuracy_results accurate_predictions total_corrections
  = (accurate_predictions + count within_one accuracy_results,
     total_corrections + count corrected accuracy_results).
Proof.
  revert accurate_predictions total_corrections.
  induction accuracy_results as [|row rest IH]; intros a c.
  - cbn. now rewrite !Z.add_0_r.
  - cbn [accuracy_loop]. rewrite IH, !count_cons.
    unfold within_one at 2, corrected at 2.
    destruct (Z.abs _ <=? 1); destruct (negb _); f_equal; lia.
Qed.

(** X21: the accuracy loop counts, among the compared rows, the
    predictions within one point of the human score and the rows whose two
    scores differ, a NULL score counting as 0.  Both counts lie between 0
    and the number of rows; every row is counted at least once, and the
    rows counted twice are those whose scores differ by exactly one point;
    so with no correction every prediction is accurate. *)
Theorem accuracy_loop_counts (accuracy_results : list (option Z * option Z)) :
  let total_comparisons := Z.of_nat (List.length accuracy_results) in
  let accurate_predictions := fst (accuracy_loop accuracy_results 0 0) in
  let total_corrections := snd (accuracy_loop accuracy_results 0 0) in
  accurate_predictions = count within_one accuracy_results /\
  total_corrections = count corrected accuracy_results /\
  0 <= accurate_predictions <= total_comparisons /\
  0 <= total_corrections <= total_comparisons /\
  accurate_predictions + total_corrections
  = total_comparisons
    + count (fun row => Z.abs (int_or_zero (fst row) - int_or_zero (snd row)) =? 1)
        accuracy_results /\
  (total_corrections = 0 -> accurate_predictions = total_comparisons).
Proof.
  cbn zeta. rewrite accuracy_loop_counts_from. cbn [fst snd]. rewrite !Z.add_0_l.
  split; [reflexivity|]. split; [reflexivity|].
  split; [apply count_bounds|]. split; [apply count_bounds|].
  assert (Hsum : count within_one accuracy_results + count corrected accuracy_results
                 = Z.of_nat (List.length accuracy_results)
                   + count (fun row => Z.abs (int_or_zero (fst row)
                                              - int_or_zero (snd row)) =? 1)
                       accuracy_results).
  { induction accuracy_results as [|row rest IH]; [reflexivity|].
    rewrite !count_cons. cbn [List.length]. unfold within_one at 1, corrected at 1.
    destruct (Z.leb_spec (Z.abs (int_or_zero (fst row) - int_or_zero (snd row))) 1);
      destruct (Z.eqb_spec (int_or_zero (fst row)) (int_or_zero (snd row)));
      destruct (Z.eqb_spec (Z.abs (int_or_zero (fst row) - int_or_zero (snd row))) 1);
      cbn [negb]; lia. }
  split; [exact Hsum|].
  intros Hzero. rewrite Hzero in Hsum.
  pose proof (count_bounds within_one accuracy_results).
  pose proof (count_bounds (fun row => Z.abs (int_or_zero (fst row)
                                              - int_or_zero (snd row)) =? 1)
                accuracy_results).
  assert (Hnone : count (fun row => Z.abs (int_or_zero (fst row)
                                           - int_or_zero (snd row)) =? 1)
                    accuracy_results
                  <= count corrected accuracy_results).
  { clear. induction accuracy_results as [|row rest IH]; [cbn; lia|].
    rewrite !count_cons. unfold corrected at 1.
    destruct (Z.eqb_spec (int_or_zero (fst row)) (int_or_zero (snd row)));
      destruct (Z.eqb_spec (Z.abs (int_or_zero (fst row) - int_or_zero (snd row))) 1);
      cbn [negb]; lia. }
  lia.
Qed.

Section MetricsProperties.
Context {fa : FloatArith} {W : Type} {wh : Warehouse W} {mq : MetricsQueries W}.

(** X22: the metrics of the warehouse.  The function raises only without
    a client, and then the overview is the one of the mock data, as it is
    in mock mode.  When the count of the source table fails every value is
    zero.  Otherwise the random sample is the smaller of 20 and the total;
    a failure of the evaluation count gives no completed review, a
    failure of the recommended count gives no recommended one, and each
    leaves the other values as they are; and the accuracy is the rounding
    of 0.0 unless there are completed reviews and compared rows, in which
    case it is the rounded quotient of a count between 0 and the number of
    compared rows by that number. *)
Theorem get_metrics_data_values (w : world W) :
  match get_metrics_data (warehouse w) with
  | Raise e =>
      e = client_unavailable /\ client_available (warehouse w) = false /\
      get_metrics_overview true w = get_mock_metrics (mock_reviews w)
  | Ok metrics_data =>
      client_available (warehouse w) = true /\
      get_metrics_overview true w = metrics_data /\
      match count_source (warehouse w) with
      | None => metrics_data = default_metrics
      | Some source_result =>
          MetricsOverview.total_reviews metrics_data = first_count source_result /\
          MetricsOverview.total_random_sample metrics_data
          = Z.min 20 (MetricsOverview.total_reviews metrics_data) /\
          MetricsOverview.completed_today metrics_data
          = match count_evaluated (warehouse w) with
            | Some eval_result => first_count eval_result
            | None => 0
            end /\
          MetricsOverview.recommended_reviews metrics_data
          = match count_recommended (warehouse w) with
            | Some recommended_result => first_count recommended_result
            | None => 0
            end /\
          (MetricsOverview.average_accuracy metrics_data = py_round 0.0%float 2 \/
           exists accuracy_results accurate_predictions,
             0 < MetricsOverview.completed_today metrics_data /\
             select_comparisons (warehouse w) = Some accuracy_results /\
             0 <= accurate_predictions <= Z.of_nat (List.length accuracy_results) /\
             0 < Z.of_nat (List.length accuracy_results) /\
             MetricsOverview.average_accuracy metrics_data
             = py_round (int_truediv accurate_predictions
                           (Z.of_nat (List.length accuracy_results))) 2)
      end
  end /\
  get_metrics_overview false w = get_mock_metrics (mock_reviews w).
Proof.
  split; [|reflexivity].
  unfold get_metrics_overview, get_metrics_data. cbn [negb].
  destruct (client_available (warehouse w)); cbn [negb]; [|now repeat split].
  destruct (count_source (warehouse w)) as [source_result|]; [|now repeat split].
  destruct (accuracy_metrics _ (warehouse w)) as [average_accuracy corrections] eqn:Hacc.
  cbn [MetricsOverview.total_reviews MetricsOverview.total_random_sample
       MetricsOverview.completed_today MetricsOverview.recommended_reviews
       MetricsOverview.average_accuracy].
  split; [reflexivity|]. split; [reflexivity|].
  split; [reflexivity|]. split; [reflexivity|]. split; [reflexivity|].
  split; [reflexivity|].
  unfold accuracy_metrics in Hacc.
  destruct (Z.gtb_spec (match count_evaluated (warehouse w) with
                        | Some eval_result => first_count eval_result
                        | None => 0
                        end) 0) as [Hpos|Hnone].
  2:{ injection Hacc as <- _. now left. }
  destruct (select_comparisons (warehouse w)) as [[|row rows]|] eqn:Hrows;
    try (injection Hacc as <- _; now left).
  rewrite accuracy_loop_counts_from in Hacc.
  destruct (Z.gtb_spec (Z.of_nat (List.length (row :: rows))) 0) as [Hn|Hn];
    [|cbn [List.length] in Hn; lia].
  injection Hacc as <- _. right.
  exists (row :: rows), (0 + count within_one (row :: rows)).
  split; [lia|]. split; [reflexivity|].
  pose proof (count_bounds within_one (row :: rows)).
  split; [lia|]. split; [lia | reflexivity].
Qed.

End MetricsProperties.
